(** * MIRS swath extraction frontend (polar2grid.mirs.mirs2swath)

    A shallow embedding of the MIRS frontend of polar2grid: the granule
    reader [MIRSFileReader], the granule ensemble [MIRSMultiReader], file
    classification [get_file_type] and the discovery frontend [Frontend],
    followed by the properties of the specification that concern them.
    The wrapper around the crefl executables
    (polar2grid.crefl.crefl_wrapper) is embedded after the frontend.

    Python exceptions are values of [exn]; a call that may raise returns a
    [result].  Objects that the source mutates are threaded explicitly. *)

From Stdlib Require Import String Ascii List ZArith Bool Arith Lia.
From Stdlib Require Import SpecFloat.
Import ListNotations.
Local Open Scope string_scope.
Local Open Scope list_scope.

(** ** Python runtime: exceptions, truthiness, strings, dictionaries *)

Module Py.

(** The exception classes the module can raise, with their message. *)
Inductive exn : Type :=
| AssertionError
| AttributeError (name : string)
| KeyError (key : string)
| IndexError (msg : string)
| TypeError (msg : string)
| ValueError (msg : string)
| RuntimeError (msg : string)
| NotImplementedError (msg : string).

Inductive result (A : Type) : Type :=
| Ok (a : A)
| Raise (e : exn).
Arguments Ok {A} a.
Arguments Raise {A} e.

Definition bind {A B} (c : result A) (k : A -> result B) : result B :=
  match c with
  | Ok a => k a
  | Raise e => Raise e
  end.

Definition is_ok {A} (c : result A) : bool :=
  match c with Ok _ => true | Raise _ => false end.

(** [str.endswith]. *)
Definition endswith (s suffix : string) : bool :=
  (String.length suffix <=? String.length s)%nat
  && String.eqb
       (substring (String.length s - String.length suffix)
                  (String.length suffix) s)
       suffix.

(** [os.path.basename]: what follows the last slash. *)
Fixpoint basename_from (acc s : string) : string :=
  match s with
  | EmptyString => acc
  | String c rest =>
      if Ascii.eqb c "/"%char then basename_from "" rest
      else basename_from (acc ++ String c "") rest
  end.
Definition basename (p : string) : string := basename_from "" p.

(** [os.path.join] of a directory and a relative entry name. *)
Definition join (p fn : string) : string :=
  if String.eqb p "" || endswith p "/" then p ++ fn else p ++ "/" ++ fn.

(** Truthiness of a [str] or [None]. *)
Definition str_truthy (s : option string) : bool :=
  match s with
  | Some s => negb (String.eqb s "")
  | None => false
  end.

(** [x in l] for a list of strings. *)
Definition mem (x : string) (l : list string) : bool :=
  existsb (String.eqb x) l.

(** [l.index(x)]. *)
Fixpoint list_index (l : list string) (x : string) : result nat :=
  match l with
  | [] => Raise (ValueError "is not in list")
  | y :: rest =>
      if String.eqb y x then Ok 0
      else bind (list_index rest x) (fun i => Ok (S i))
  end.

(** [sorted(l)] through the elements' [__lt__], which may raise: a stable
    insertion sort, every comparison made by [lt]. *)
Fixpoint insort {A} (lt : A -> A -> result bool) (x : A) (l : list A)
  : result (list A) :=
  match l with
  | [] => Ok [x]
  | y :: rest =>
      bind (lt y x) (fun b =>
        if b then bind (insort lt x rest) (fun r => Ok (y :: r))
        else Ok (x :: y :: rest))
  end.

Fixpoint sorted {A} (lt : A -> A -> result bool) (l : list A)
  : result (list A) :=
  match l with
  | [] => Ok []
  | x :: rest => bind (sorted lt rest) (insort lt x)
  end.

End Py.

(** ** Python dictionaries with string keys *)

Module Dict.

(** A [dict] with string keys, in insertion order. *)
Definition t (V : Type) : Type := list (string * V).

Fixpoint get {V} (d : t V) (k : string) : option V :=
  match d with
  | [] => None
  | (k', v) :: rest => if String.eqb k' k then Some v else get rest k
  end.

Definition contains {V} (d : t V) (k : string) : bool :=
  match get d k with Some _ => true | None => false end.

(** [d[k] = v]: an existing key keeps its place. *)
Fixpoint set {V} (d : t V) (k : string) (v : V) : t V :=
  match d with
  | [] => [(k, v)]
  | (k', v') :: rest =>
      if String.eqb k' k then (k', v) :: rest else (k', v') :: set rest k v
  end.

(** [d[k]], raising [KeyError]. *)
Definition getitem {V} (d : t V) (k : string) : Py.result V :=
  match get d k with
  | Some v => Py.Ok v
  | None => Py.Raise (Py.KeyError k)
  end.

Definition keys {V} (d : t V) : list string := map fst d.

End Dict.

Import Py.

Declare Scope py_scope.
Delimit Scope py_scope with py.
Notation "x <- c ;; k" := (Py.bind c (fun x => k))
  (at level 61, c at next level, right associativity) : py_scope.
Local Open Scope py_scope.

(** ** numpy: 32-bit floats and n-dimensional arrays *)

Module numpy.

(** [numpy.float32]: IEEE 754 binary32 (24 bits of precision). *)
Definition float32 : Type := spec_float.

Definition prec : Z := 24.
Definition emax : Z := 128.

Definition of_Z (z : Z) : float32 := binary_normalize prec emax z 0 false.
Definition div (x y : float32) : float32 := SFdiv prec emax x y.
Definition eqb (x y : float32) : bool := SFeqb x y.
Definition nan : float32 := S754_nan.

(** Truthiness of a number: anything but zero. *)
Definition truthy (x : float32) : bool :=
  match x with
  | S754_zero _ => false
  | _ => true
  end.

Definition opt_truthy (x : option float32) : bool :=
  match x with
  | Some x => truthy x
  | None => false
  end.

(** An array: its shape and its elements in row-major order. *)
Record ndarray : Type := mk_ndarray {
  shape : list nat;
  data : list float32
}.

Definition prod (l : list nat) : nat := fold_right Nat.mul 1%nat l.

(** [arr / s] and [arr[arr == f] = fill], elementwise. *)
Definition divide (a : ndarray) (s : float32) : ndarray :=
  mk_ndarray (shape a) (map (fun x => div x s) (data a)).

Definition where_eq_set (a : ndarray) (f fill : float32) : ndarray :=
  mk_ndarray (shape a) (map (fun x => if eqb x f then fill else x) (data a)).

(** Positions of a flat list at which [p] holds, counted from [i]. *)
Fixpoint positions {A} (p : A -> bool) (i : nat) (l : list A) : list nat :=
  match l with
  | [] => []
  | x :: rest =>
      if p x then i :: positions p (S i) rest else positions p (S i) rest
  end.

(** [numpy.nonzero(a == v)[0]]: the indices along the first axis. *)
Definition nonzero_eq_0 (a : ndarray) (v : float32) : list nat :=
  map (fun p => Nat.div p (prod (tl (shape a))))
      (positions (fun x => eqb x v) 0 (data a)).

(** Truth value of an index array, as [if freq_idx:] takes it: an empty
    array is false, an array of one element has the truth value of the
    element, a longer one has none. *)
Definition array_truth (idx : list nat) : result bool :=
  match idx with
  | [] => Ok false
  | [i] => Ok (negb (Nat.eqb i 0))
  | _ => Raise (ValueError "The truth value of an array with more than one element is ambiguous")
  end.

Fixpoint chunks {A} (n size : nat) (xs : list A) : list (list A) :=
  match n with
  | O => []
  | S n' => firstn size xs :: chunks n' size (skipn size xs)
  end.

(** The elements of a row-major array of shape [shp] whose index along
    axis [d] is [i]. *)
Fixpoint take_axis {A} (shp : list nat) (d i : nat) (xs : list A) : list A :=
  match shp with
  | [] => xs
  | n :: rest =>
      match d with
      | O => firstn (prod rest) (skipn (i * prod rest) xs)
      | S d' => flat_map (take_axis rest d' i) (chunks n (prod rest) xs)
      end
  end.

Fixpoint remove_nth {A} (d : nat) (l : list A) : list A :=
  match l, d with
  | [], _ => []
  | _ :: rest, O => rest
  | x :: rest, S d' => x :: remove_nth d' rest
  end.

(** [arr[:, ..., i, ..., :]] with the integer [i] on axis [d]. *)
Definition index_axis (a : ndarray) (d i : nat) : result ndarray :=
  match nth_error (shape a) d with
  | None => Raise (IndexError "list assignment index out of range")
  | Some n =>
      if (i <? n)%nat
      then Ok (mk_ndarray (remove_nth d (shape a))
                          (take_axis (shape a) d i (data a)))
      else Raise (IndexError "index out of bounds")
  end.

End numpy.

(** ** netCDF4: datasets as the reader sees them *)

Module netCDF4.

(** A point in time, in seconds. *)
Definition datetime : Type := Z.

(** The text of a time attribute: a well-formed
    [%Y-%m-%dT%H:%M:%SZ] stamp, by the instant it denotes, or any other
    text. *)
Inductive time_text : Type :=
| Stamp (t : datetime)
| OtherText (s : string).

(** [datetime.strptime(text, "%Y-%m-%dT%H:%M:%SZ")]. *)
Definition strptime (x : time_text) : result datetime :=
  match x with
  | Stamp t => Ok t
  | OtherText _ => Raise (ValueError "time data does not match format")
  end.

(** A [Variable] object: the names of its dimensions, its values (as
    [astype(float32)] gives them), the numeric attributes that the file
    declares for the variable, and the attribute [scale] of the object
    itself.  That one is the library's switch of automatic scaling:
    netCDF4 has it since version 1.1.1, where it is [True] unless
    [set_auto_scale] or [set_auto_maskandscale] is called; before that
    version a [Variable] object has no attribute of this name of its own
    ([None] here). *)
Record variable : Type := mk_variable {
  dimensions : list string;
  values : numpy.ndarray;
  attributes : Dict.t numpy.float32;
  scale : option bool
}.

(** An open dataset: the global attributes the frontend reads ([None]
    when the file does not have the attribute) and the variables. *)
Record Dataset : Type := mk_Dataset {
  project : option string;
  title : option string;
  data_model : option string;
  satellite_name : option string;
  instrument_name : option string;
  time_coverage_start : option time_text;
  time_coverage_end : option time_text;
  geospatial_lon_resolution : option numpy.float32;
  geospatial_lat_resolution : option numpy.float32;
  missing_value : option numpy.float32;
  variables : Dict.t variable
}.

(** [obj.name] on a dataset or a variable: [AttributeError] when the
    attribute is not there. *)
Definition getattr {A} (name : string) (a : option A) : result A :=
  match a with
  | Some x => Ok x
  | None => Raise (AttributeError name)
  end.

End netCDF4.

(** ** The file system the frontend runs on *)

Record filesystem : Type := mk_filesystem {
  isdir : string -> bool;
  isfile : string -> bool;
  listdir : string -> list string;
  realpath : string -> string;
  (** [Dataset(path, "r")]: the dataset, or the exception the library
      raises for a path it cannot open as netCDF. *)
  open_Dataset : string -> result netCDF4.Dataset
}.

(** ** Module constants *)

Definition FT_IMG : string := "MIRS_IMG".
Definition RR_VAR : string := "rr".
Definition BT_88_VAR : string := "bt_88".
Definition FREQ_VAR : string := "freq".
Definition LAT_VAR : string := "latitude".
Definition LON_VAR : string := "longitude".

(** The literal [88.2] as a 32-bit float. *)
Definition f32_88_2 : numpy.float32 := S754_finite false 11560550 (-17).

(** ** Product definitions *)

Record MIRSProductDefiniton : Type := mk_product {
  name : string;
  data_kind : string;
  file_type : string;
  file_key : string;
  dependencies : list string;
  description : string;
  units : string;
  is_geoproduct : bool
}.

(** [ProductList.add_product]. *)
Definition add_product (products : Dict.t MIRSProductDefiniton)
    (pd : MIRSProductDefiniton) : Dict.t MIRSProductDefiniton :=
  Dict.set products (name pd) pd.

Definition PRODUCT_RAIN_RATE : string := "rain_rate".
Definition PRODUCT_BT_88 : string := "btemp_88".
Definition PRODUCT_LATITUDE : string := "latitude".
Definition PRODUCT_LONGITUDE : string := "longitude".

Definition PRODUCTS : Dict.t MIRSProductDefiniton :=
  let p := [] in
  let p := add_product p
    (mk_product PRODUCT_RAIN_RATE "rain_rate" FT_IMG RR_VAR [] "Rain Rate" "mm/hr" false) in
  let p := add_product p
    (mk_product PRODUCT_BT_88 "btemp" FT_IMG BT_88_VAR []
       "Channel Brightness Temperature at 88.2GHz" "K" false) in
  let p := add_product p
    (mk_product PRODUCT_LATITUDE "latitude" FT_IMG LAT_VAR [] "Latitude" "degrees" true) in
  add_product p
    (mk_product PRODUCT_LONGITUDE "longitude" FT_IMG LON_VAR [] "Longitude" "degrees" true).

Definition GEO_PRODUCTS : list string := [PRODUCT_LONGITUDE; PRODUCT_LATITUDE].

(** ** I/O operations: the reader of one granule *)

Module MIRSFileReader.

Import netCDF4.

Definition FILE_TYPE : string := FT_IMG.

Definition GLOBAL_FILL_ATTR_NAME : string := "missing_value".

(** An entry of [FILE_STRUCTURE]:
    [(var_name, scale_attr_name, fill_attr_name, frequency)]. *)
Record structure : Type := mk_structure {
  var_name : string;
  scale_attr_name : option string;
  fill_attr_name : option string;
  frequency : option numpy.float32
}.

Definition FILE_STRUCTURE : Dict.t structure :=
  [ (RR_VAR, mk_structure "RR" (Some "scale") None None);
    (BT_88_VAR, mk_structure "BT" (Some "scale") None (Some f32_88_2));
    (FREQ_VAR, mk_structure "Freq" None None None);
    (LAT_VAR, mk_structure "Latitude" None None None);
    (LON_VAR, mk_structure "Longitude" None None None) ].

(** The instance attributes set by [__init__]. *)
Record t : Type := mk {
  filename : string;
  filepath : string;
  nc_obj : Dataset;
  satellite : string;
  instrument : string;
  begin_time : datetime;
  end_time : datetime;
  x_res : numpy.float32;
  y_res : numpy.float32
}.

Definition assert_ (b : bool) : result unit :=
  if b then Ok tt else Raise AssertionError.

(** [handles_file], on an open dataset: a failed [assert] is caught and
    answers [False]; any other exception of the body propagates. *)
Definition handles_file (nc_obj : Dataset) : result bool :=
  match
    (p <- getattr "project" (project nc_obj) ;;
     _ <- assert_ (String.eqb p "Microwave Integrated Retrieval System") ;;
     t <- getattr "title" (title nc_obj) ;;
     _ <- assert_ (String.eqb t "MIRS IMG") ;;
     d <- getattr "data_model" (data_model nc_obj) ;;
     _ <- assert_ (String.eqb d "NETCDF4") ;;
     Ok true)
  with
  | Raise AssertionError => Ok false
  | r => r
  end.

Definition __init__ (fs : filesystem) (path : string) : result t :=
  let filename := basename path in
  let filepath := realpath fs path in
  nc_obj <- open_Dataset fs filepath ;;
  known <- handles_file nc_obj ;;
  if negb known then Raise (ValueError "Unknown file format for file")
  else
    satellite <- getattr "satellite_name" (satellite_name nc_obj) ;;
    instrument <- getattr "instrument_name" (instrument_name nc_obj) ;;
    ts <- getattr "time_coverage_start" (time_coverage_start nc_obj) ;;
    begin_time <- strptime ts ;;
    te <- getattr "time_coverage_end" (time_coverage_end nc_obj) ;;
    end_time <- strptime te ;;
    x_res <- getattr "geospatial_lon_resolution" (geospatial_lon_resolution nc_obj) ;;
    y_res <- getattr "geospatial_lat_resolution" (geospatial_lat_resolution nc_obj) ;;
    Ok (mk filename filepath nc_obj satellite instrument
           begin_time end_time x_res y_res).

Definition __getitem__ (self : t) (item : string) : result variable :=
  match Dict.get FILE_STRUCTURE item with
  | Some entry => Dict.getitem (variables (nc_obj self)) (var_name entry)
  | None => Dict.getitem (variables (nc_obj self)) item
  end.

(** [float(b)] for a [bool]. *)
Definition float_of_bool (b : bool) : numpy.float32 :=
  if b then numpy.of_Z 1 else numpy.of_Z 0.

(** [getattr(nc_var, attr_name)], as a number.  Python looks first at the
    attributes of the [Variable] object itself, and asks the file, through
    [__getattr__], only for a name the object does not have.  Of the
    object's own attributes the reader can meet [scale] alone, the only
    attribute name in [FILE_STRUCTURE]: where the library has that switch,
    it is what [getattr] returns, and the attribute [scale] that the file
    declares is not looked at. *)
Definition var_getattr (v : variable) (attr_name : string)
  : result numpy.float32 :=
  match (if String.eqb attr_name "scale" then scale v else None) with
  | Some b => Ok (float_of_bool b)
  | None => getattr attr_name (Dict.get (attributes v) attr_name)
  end.

(** [get_fill_value].  The closing [LOG.debug] call evaluates
    [float(fill_value)] whatever the log level, so a fill value that is
    still [None] there raises [TypeError]. *)
Definition get_fill_value (self : t) (item : string) : result numpy.float32 :=
  fill_value <-
    match Dict.get FILE_STRUCTURE item with
    | Some entry =>
        if str_truthy (fill_attr_name entry) then
          v <- Dict.getitem (variables (nc_obj self)) (var_name entry) ;;
          x <- var_getattr v (match fill_attr_name entry with
                              | Some a => a
                              | None => ""
                              end) ;;
          Ok (Some x)
        else Ok None
    | None => Ok None
    end ;;
  let fill_value :=
    match fill_value with
    | None => missing_value (nc_obj self)
    | Some x => Some x
    end in
  match fill_value with
  | Some x => Ok x
  | None => Raise (TypeError "float() argument must be a string or a number")
  end.

Definition get_scale_value (self : t) (item : string)
  : result (option numpy.float32) :=
  match Dict.get FILE_STRUCTURE item with
  | Some entry =>
      if str_truthy (scale_attr_name entry) then
        v <- Dict.getitem (variables (nc_obj self)) (var_name entry) ;;
        x <- var_getattr v (match scale_attr_name entry with
                            | Some a => a
                            | None => ""
                            end) ;;
        Ok (Some x)
      else Ok None
  | None => Ok None
  end.

Definition filter_by_frequency (self : t) (item : string)
    (arr : numpy.ndarray) (freq : numpy.float32) : result numpy.ndarray :=
  freq_var <- __getitem__ self FREQ_VAR ;;
  let freq_idx := numpy.nonzero_eq_0 (values freq_var) freq in
  found <- numpy.array_truth freq_idx ;;
  if found then
    let freq_idx := hd 0 freq_idx in
    v <- __getitem__ self item ;;
    d0 <- match dimensions freq_var with
          | d :: _ => Ok d
          | [] => Raise (IndexError "tuple index out of range")
          end ;;
    freq_dim_idx <- list_index (dimensions v) d0 ;;
    numpy.index_axis arr freq_dim_idx freq_idx
  else Raise (ValueError "Frequency for variable does not exist").

(** [get_swath_data(item)] with [dtype=numpy.float32]. *)
Definition get_swath_data (self : t) (item : string) (fill : numpy.float32)
  : result numpy.ndarray :=
  v <- __getitem__ self item ;;
  let var_data := values v in
  entry <- Dict.getitem FILE_STRUCTURE item ;;
  let freq := frequency entry in
  var_data <- (if numpy.opt_truthy freq
               then filter_by_frequency self item var_data
                      (match freq with Some f => f | None => numpy.nan end)
               else Ok var_data) ;;
  file_fill <- get_fill_value self item ;;
  file_scale <- get_scale_value self item ;;
  let var_data :=
    match file_scale with
    | Some s => if numpy.truthy s then numpy.divide var_data s else var_data
    | None => var_data
    end in
  let var_data :=
    if numpy.truthy file_fill
    then numpy.where_eq_set var_data file_fill fill
    else var_data in
  Ok var_data.

(** *** Rich comparisons

    What [getattr(other, name)] can give back, as far as the comparisons
    look at it. *)
Inductive pyvalue : Type :=
| PyStr (s : string)
| PyFloat (x : numpy.float32)
| PyDatetime (d : datetime)
| PyOpaque.

(** The right operand of a comparison: another reader, or any other
    object, by its attributes. *)
Inductive object : Type :=
| Reader (r : t)
| Other (attrs : Dict.t pyvalue).

Definition instance_attribute (r : t) (attr : string) : option pyvalue :=
  if String.eqb attr "filename" then Some (PyStr (filename r))
  else if String.eqb attr "filepath" then Some (PyStr (filepath r))
  else if String.eqb attr "nc_obj" then Some PyOpaque
  else if String.eqb attr "satellite" then Some (PyStr (satellite r))
  else if String.eqb attr "instrument" then Some (PyStr (instrument r))
  else if String.eqb attr "begin_time" then Some (PyDatetime (begin_time r))
  else if String.eqb attr "end_time" then Some (PyDatetime (end_time r))
  else if String.eqb attr "x_res" then Some (PyFloat (x_res r))
  else if String.eqb attr "y_res" then Some (PyFloat (y_res r))
  else None.

(** Names the class itself defines. *)
Definition class_attributes : list string :=
  [ "FILE_TYPE"; "GLOBAL_FILL_ATTR_NAME"; "FILE_STRUCTURE"; "__init__";
    "handles_file"; "__getitem__"; "get_fill_value"; "get_scale_value";
    "filter_by_frequency"; "get_swath_data"; "_compare"; "__lt__";
    "__le__"; "__eq__"; "__ge__"; "__gt__"; "__ne__" ].

Definition getattr_object (o : object) (attr : string) : result pyvalue :=
  match o with
  | Reader r =>
      match instance_attribute r attr with
      | Some v => Ok v
      | None =>
          if mem attr class_attributes then Ok PyOpaque
          else Raise (AttributeError attr)
      end
  | Other attrs => getattr attr (Dict.get attrs attr)
  end.

(** [_compare]: [raise NotImplemented] raises [TypeError], since
    [NotImplemented] is not an exception. *)
Definition _compare (self : t) (other : object)
    (method : datetime -> pyvalue -> result bool) : result bool :=
  match
    (o <- getattr_object other "start_time" ;;
     method (begin_time self) o)
  with
  | Raise (AttributeError _) =>
      Raise (TypeError "exceptions must derive from BaseException")
  | r => r
  end.

(** [s < o] and [s == o] for a [datetime] [s]. *)
Definition datetime_lt (s : datetime) (o : pyvalue) : result bool :=
  match o with
  | PyDatetime d => Ok (Z.ltb s d)
  | _ => Raise (TypeError "can't compare datetime.datetime")
  end.

Definition datetime_le (s : datetime) (o : pyvalue) : result bool :=
  match o with
  | PyDatetime d => Ok (Z.leb s d)
  | _ => Raise (TypeError "can't compare datetime.datetime")
  end.

Definition datetime_eq (s : datetime) (o : pyvalue) : result bool :=
  match o with
  | PyDatetime d => Ok (Z.eqb s d)
  | _ => Ok false
  end.

Definition __lt__ (self : t) (other : object) : result bool :=
  _compare self other datetime_lt.

Definition __le__ (self : t) (other : object) : result bool :=
  _compare self other datetime_le.

Definition __eq__ (self : t) (other : object) : result bool :=
  _compare self other datetime_eq.

End MIRSFileReader.

(** ** The flat binary appender (polar2grid.core.fbf) *)

Module FileAppender.

(** Modelled from the spec: [polar2grid.core.fbf.FileAppender], which is
    not among the sources.  Each appended array adds its rows to one
    contiguous output stream, in the order of the calls, and the
    accumulated row and column extent is kept for the caller; no check of
    the column extent is made.  [F] is what has been written to the file
    object. *)
Record t : Type := mk {
  F : list numpy.float32;
  shape : list nat
}.

Definition __init__ : t := mk [] [0; 0].

Definition append (self : t) (data : numpy.ndarray) : result t :=
  match numpy.shape data with
  | [] => Raise (IndexError "tuple index out of range")
  | rows :: cols =>
      Ok (mk (F self ++ numpy.data data) ((hd 0 (shape self) + rows) :: cols))
  end.

End FileAppender.

(** The files written so far: one entry per file opened for writing, in the
    order of opening, with what was written before it was closed. *)
Definition outputs : Type := list (string * list numpy.float32).

(** ** The ensemble of granules of one file type *)

Module MIRSMultiReader.

Definition FILE_TYPE : string := MIRSFileReader.FILE_TYPE.

Record t : Type := mk {
  file_readers : list MIRSFileReader.t;
  _files_finalized : bool
}.

Definition __len__ (self : t) : nat := length (file_readers self).

Definition handles_file (nc_obj : netCDF4.Dataset) : result bool :=
  MIRSFileReader.handles_file nc_obj.

(** A method that mutates [self] returns its outcome and the object as it
    is afterwards. *)
Definition add_file (fs : filesystem) (self : t) (fn : string)
  : result unit * t :=
  if _files_finalized self then
    (Raise (RuntimeError "File reader has been finalized and no more files can be added"),
     self)
  else
    match MIRSFileReader.__init__ fs fn with
    | Ok r => (Ok tt, mk (file_readers self ++ [r]) (_files_finalized self))
    | Raise e => (Raise e, self)
    end.

Fixpoint add_files (fs : filesystem) (self : t) (filenames : list string)
  : result unit * t :=
  match filenames with
  | [] => (Ok tt, self)
  | fn :: rest =>
      match add_file fs self fn with
      | (Ok _, self') => add_files fs self' rest
      | (Raise e, self') => (Raise e, self')
      end
  end.

Definition finalize_files (self : t) : result unit * t :=
  match
    sorted (fun a b => MIRSFileReader.__lt__ a (MIRSFileReader.Reader b))
           (file_readers self)
  with
  | Ok l => (Ok tt, mk l true)
  | Raise e => (Raise e, self)
  end.

Definition __init__ (fs : filesystem) (filenames : option (list string))
  : result t :=
  let self := mk [] false in
  match filenames with
  | Some ((_ :: _) as fns) =>
      match add_files fs self fns with
      | (Ok _, self) =>
          match finalize_files self with
          | (Ok _, self) => Ok self
          | (Raise e, _) => Raise e
          end
      | (Raise e, _) => Raise e
      end
  | _ => Ok self
  end.

(** The loop of [write_var_to_flat_binary]: the appender as it is when
    the loop ends or an exception leaves it. *)
Fixpoint append_all (readers : list MIRSFileReader.t) (item : string)
    (file_appender : FileAppender.t) : result unit * FileAppender.t :=
  match readers with
  | [] => (Ok tt, file_appender)
  | file_reader :: rest =>
      match MIRSFileReader.get_swath_data file_reader item numpy.nan with
      | Raise e => (Raise e, file_appender)
      | Ok single_array =>
          match FileAppender.append file_appender single_array with
          | Raise e => (Raise e, file_appender)
          | Ok file_appender' => append_all rest item file_appender'
          end
      end
  end.

Definition write_var_to_flat_binary (self : t) (item filename : string)
    (out : outputs) : result (list nat) * outputs :=
  let (r, file_appender) :=
    append_all (file_readers self) item FileAppender.__init__ in
  let out' := out ++ [(filename, FileAppender.F file_appender)] in
  match r with
  | Ok _ => (Ok (FileAppender.shape file_appender), out')
  | Raise e => (Raise e, out')
  end.

Definition first (self : t) : result MIRSFileReader.t :=
  match file_readers self with
  | r :: _ => Ok r
  | [] => Raise (IndexError "list index out of range")
  end.

Definition satellite (self : t) : result string :=
  r <- first self ;; Ok (MIRSFileReader.satellite r).

Definition instrument (self : t) : result string :=
  r <- first self ;; Ok (MIRSFileReader.instrument r).

Definition begin_time (self : t) : result netCDF4.datetime :=
  r <- first self ;; Ok (MIRSFileReader.begin_time r).

Definition end_time (self : t) : result netCDF4.datetime :=
  match rev (file_readers self) with
  | r :: _ => Ok (MIRSFileReader.end_time r)
  | [] => Raise (IndexError "list index out of range")
  end.

Definition x_res (self : t) : result numpy.float32 :=
  r <- first self ;; Ok (MIRSFileReader.x_res r).

Definition y_res (self : t) : result numpy.float32 :=
  r <- first self ;; Ok (MIRSFileReader.y_res r).

Definition filepaths (self : t) : list string :=
  map MIRSFileReader.filepath (file_readers self).

End MIRSMultiReader.

(** ** File classification *)

(** What [FILE_CLASSES] holds of a reader class: the class attributes and
    methods that are called through it. *)
Record file_class : Type := mk_file_class {
  class_FILE_TYPE : string;
  class_handles_file : netCDF4.Dataset -> result bool;
  class_new : filesystem -> option (list string) -> result MIRSMultiReader.t
}.

Definition FILE_CLASSES : Dict.t file_class :=
  [ (FT_IMG,
     mk_file_class MIRSMultiReader.FILE_TYPE MIRSMultiReader.handles_file
                   MIRSMultiReader.__init__) ].

(** The loop of [get_file_type] over [FILE_CLASSES.items()]. *)
Fixpoint first_handler (classes : Dict.t file_class) (nc_obj : netCDF4.Dataset)
  : result (option string) :=
  match classes with
  | [] => Ok None
  | (file_kind, cls) :: rest =>
      handled <- class_handles_file cls nc_obj ;;
      if handled then Ok (Some file_kind) else first_handler rest nc_obj
  end.

Definition get_file_type (fs : filesystem) (filepath : string)
  : result (option string) :=
  if negb (endswith filepath ".nc") then Ok None
  else
    nc_obj <- open_Dataset fs filepath ;;
    first_handler FILE_CLASSES nc_obj.

(** ** Swath products and scenes (polar2grid.core.meta, polar2grid.core.dtype) *)

Module meta.

(** Modelled from the spec: [polar2grid.core.meta.SwathProduct], which is
    not among the sources.  A product carries its name, description,
    units, satellite and instrument, begin and end time, data kind, fill
    value, row and column extent, element type tag, the path of its flat
    output stream, the contributing source paths, the optional companion
    longitude and latitude products, and the resolution. *)
#[warnings="-register-all"] Inductive SwathProduct : Type := mk_SwathProduct {
  product_name : string;
  description : string;
  units : string;
  satellite : string;
  instrument : string;
  begin_time : netCDF4.datetime;
  end_time : netCDF4.datetime;
  longitude : option SwathProduct;
  latitude : option SwathProduct;
  fill_value : numpy.float32;
  swath_rows : nat;
  swath_cols : nat;
  data_type : string;
  swath_data : string;
  source_filenames : list string;
  data_kind : string;
  rows_per_scan : nat;
  x_res : numpy.float32;
  y_res : numpy.float32
}.

(** Modelled from the spec: [polar2grid.core.meta.SwathScene], a mapping
    from product name to product that keeps insertion order. *)
Definition SwathScene : Type := Dict.t SwathProduct.

End meta.

(** Modelled from the spec: [numpy_to_dtype(numpy.float32)] of
    [polar2grid.core.dtype], the element type tag of 32-bit floats. *)
Definition numpy_to_dtype_float32 : string := "real4".

(** ** Computations that write files *)

Definition io (A : Type) : Type := outputs -> result A * outputs.

Definition io_ret {A} (a : A) : io A := fun out => (Ok a, out).

Definition io_lift {A} (r : result A) : io A := fun out => (r, out).

Definition io_bind {A B} (c : io A) (k : A -> io B) : io B :=
  fun out =>
    match c out with
    | (Ok a, out') => k a out'
    | (Raise e, out') => (Raise e, out')
    end.

Notation "x <~ c ;; k" := (io_bind c (fun x => k))
  (at level 61, c at next level, right associativity) : py_scope.

(** ** The frontend *)

Module Frontend.

Record t : Type := mk {
  recognized_files : Dict.t (list string)
}.

Section Discovery.

Variable fs : filesystem.

(** The directory branch of [find_all_files]: the entries of [p]. *)
Fixpoint find_in_dir (p : string) (entries : list string)
  : result (list (string * string)) :=
  match entries with
  | [] => Ok []
  | fn :: rest =>
      let fp := join p fn in
      file_type <- get_file_type fs fp ;;
      more <- find_in_dir p rest ;;
      Ok (match file_type with
          | Some k => (k, realpath fs fp) :: more
          | None => more
          end)
  end.

(** [find_all_files]: what the generator yields, or the exception that
    ends the iteration. *)
Fixpoint find_all_files (search_paths : list string)
  : result (list (string * string)) :=
  match search_paths with
  | [] => Ok []
  | p :: rest =>
      here <- (if isdir fs p then find_in_dir p (listdir fs p)
               else if isfile fs p then
                 file_type <- get_file_type fs p ;;
                 Ok (match file_type with
                     | Some k => [(k, realpath fs p)]
                     | None => []
                     end)
               else Ok []) ;;
      more <- find_all_files rest ;;
      Ok (here ++ more)
  end.

(** The body of the loop of [__init__]. *)
Definition recognize (recognized : Dict.t (list string))
    (found : string * string) : Dict.t (list string) :=
  let (file_kind, filepath) := found in
  let recognized :=
    if negb (Dict.contains recognized file_kind)
    then Dict.set recognized file_kind []
    else recognized in
  Dict.set recognized file_kind
    (match Dict.get recognized file_kind with
     | Some l => l ++ [filepath]
     | None => [filepath]
     end).

Definition __init__ (search_paths : option (list string)) : result t :=
  let search_paths :=
    match search_paths with
    | Some ((_ :: _) as l) => l
    | _ => ["."]
    end in
  found <- find_all_files search_paths ;;
  let recognized_files := fold_left recognize found [] in
  match recognized_files with
  | [] => Raise (RuntimeError "No useable files provided or found")
  | _ => Ok (mk recognized_files)
  end.

End Discovery.

Section Scene.

(** The module-level registry [PRODUCTS], as it stands when the
    frontend runs. *)
Variable PRODUCTS : Dict.t MIRSProductDefiniton.

(** [list(set(products))]: the distinct names, in the order in which
    the set iterates. *)
Variable list_set : list string -> list string.

Variable fs : filesystem.

Definition available_product_names : list string :=
  map fst
    (filter (fun kv =>
               match dependencies (snd kv) with
               | [] => negb (is_geoproduct (snd kv))
               | _ :: _ => false
               end)
            PRODUCTS).

Definition all_product_names : list string := Dict.keys PRODUCTS.

(** [shape[i]]. *)
Definition extent (shape : list nat) (i : nat) : result nat :=
  match nth_error shape i with
  | Some n => Ok n
  | None => Raise (IndexError "tuple index out of range")
  end.

Definition _create_raw_swath_object (product_name : string)
    (file_readers : Dict.t MIRSMultiReader.t)
    (products_created : Dict.t meta.SwathProduct)
  : io meta.SwathProduct :=
  product_def <~ io_lift (Dict.getitem PRODUCTS product_name) ;;
  file_reader <~ io_lift (Dict.getitem file_readers (file_type product_def)) ;;
  let filename := (product_name ++ ".dat")%string in
  shape <~ MIRSMultiReader.write_var_to_flat_binary
             file_reader (file_key product_def) filename ;;
  let lat_product := Dict.get products_created PRODUCT_LATITUDE in
  let lon_product := Dict.get products_created PRODUCT_LONGITUDE in
  let dtype_str := numpy_to_dtype_float32 in
  let is_geo := mem product_name [PRODUCT_LATITUDE; PRODUCT_LONGITUDE] in
  let lat_product := if is_geo then None else lat_product in
  let lon_product := if is_geo then None else lon_product in
  io_lift
    (satellite <- MIRSMultiReader.satellite file_reader ;;
     instrument <- MIRSMultiReader.instrument file_reader ;;
     begin_time <- MIRSMultiReader.begin_time file_reader ;;
     end_time <- MIRSMultiReader.end_time file_reader ;;
     swath_rows <- extent shape 0 ;;
     swath_cols <- extent shape 1 ;;
     x_res <- MIRSMultiReader.x_res file_reader ;;
     y_res <- MIRSMultiReader.y_res file_reader ;;
     Ok (meta.mk_SwathProduct
           product_name (description product_def) (units product_def)
           satellite instrument begin_time end_time
           lon_product lat_product numpy.nan
           swath_rows swath_cols dtype_str filename
           (MIRSMultiReader.filepaths file_reader)
           (data_kind product_def) 0 x_res y_res)).

(** "Figure out any dependencies". *)
Fixpoint raw_products_of (products : list string) : result (list string) :=
  match products with
  | [] => Ok []
  | product_name :: rest =>
      product_def <- Dict.getitem PRODUCTS product_name ;;
      match dependencies product_def with
      | _ :: _ =>
          Raise (NotImplementedError
                   "Don't know how to handle products dependent on other products")
      | [] =>
          more <- raw_products_of rest ;;
          Ok (product_name :: more)
      end
  end.

(** "Load files". *)
Fixpoint load_files (items : list (string * list string))
    (file_readers : Dict.t MIRSMultiReader.t)
  : result (Dict.t MIRSMultiReader.t) :=
  match items with
  | [] => Ok file_readers
  | (file_type, filepaths) :: rest =>
      file_reader_class <- Dict.getitem FILE_CLASSES file_type ;;
      file_reader <- class_new file_reader_class fs (Some filepaths) ;;
      load_files rest
        (if (0 <? MIRSMultiReader.__len__ file_reader)%nat
         then Dict.set file_readers (class_FILE_TYPE file_reader_class)
                       file_reader
         else file_readers)
  end.

(** "Load geographic products": the state is [products_created] and
    [scene]. *)
Fixpoint load_geo_products (geo_products raw_products : list string)
    (file_readers : Dict.t MIRSMultiReader.t)
    (products_created : Dict.t meta.SwathProduct) (scene : meta.SwathScene)
  : io (Dict.t meta.SwathProduct * meta.SwathScene) :=
  match geo_products with
  | [] => io_ret (products_created, scene)
  | geo_product :: rest =>
      one_swath <~ _create_raw_swath_object geo_product file_readers
                     products_created ;;
      load_geo_products rest raw_products file_readers
        (Dict.set products_created geo_product one_swath)
        (if mem geo_product raw_products
         then Dict.set scene geo_product one_swath
         else scene)
  end.

(** "Load raw products". *)
Fixpoint load_raw_products (raw_products : list string)
    (file_readers : Dict.t MIRSMultiReader.t)
    (products_created : Dict.t meta.SwathProduct) (scene : meta.SwathScene)
  : io (Dict.t meta.SwathProduct * meta.SwathScene) :=
  match raw_products with
  | [] => io_ret (products_created, scene)
  | raw_product :: rest =>
      if negb (Dict.contains products_created raw_product) then
        one_swath <~ _create_raw_swath_object raw_product file_readers
                       products_created ;;
        load_raw_products rest file_readers
          (Dict.set products_created raw_product one_swath)
          (Dict.set scene raw_product one_swath)
      else load_raw_products rest file_readers products_created scene
  end.

Definition create_scene (self : t) (products : option (list string))
    (nprocs : Z) : io meta.SwathScene :=
  if negb (Z.eqb nprocs 1) then
    io_lift (Raise (NotImplementedError
                      "The MIRS frontend does not support multiple processes yet"))
  else
    let products :=
      match products with
      | None => available_product_names
      | Some l => l
      end in
    let products := list_set products in
    let scene : meta.SwathScene := [] in
    raw_products <~ io_lift (raw_products_of products) ;;
    file_readers <~ io_lift (load_files (recognized_files self) []) ;;
    geo <~ load_geo_products [PRODUCT_LATITUDE; PRODUCT_LONGITUDE]
             raw_products file_readers [] scene ;;
    raw <~ load_raw_products raw_products file_readers (fst geo) (snd geo) ;;
    io_ret (snd raw).

End Scene.

End Frontend.

(** ** The wrapper around the crefl executables (polar2grid.crefl.crefl_wrapper) *)

Module crefl_wrapper.

(** How a child process ends, as [subprocess.check_output] reports it:
    with exit status 0 and its output, with another exit status
    ([CalledProcessError]), or not started at all ([OSError]). *)
Inductive completion : Type :=
| Exited (output : string)
| CalledProcessError (output : string)
| OSError.

(** What the wrapper touches of the operating system: the files that
    exist, the variable [ANCPATH] of the environment, and the command
    lines launched so far. *)
Record world : Type := mk_world {
  files : list string;
  ANCPATH : option string;
  launched : list (list string)
}.

(** A call that may raise and that acts on the operating system. *)
Definition M (A : Type) : Type := world -> result A * world.

Definition ret {A} (a : A) : M A := fun w => (Ok a, w).

Definition raise {A} (e : exn) : M A := fun w => (Raise e, w).

Definition mbind {A B} (c : M A) (k : A -> M B) : M B :=
  fun w =>
    match c w with
    | (Ok a, w') => k a w'
    | (Raise e, w') => (Raise e, w')
    end.

(** [str.split(sep)] for a separator of one character. *)
Fixpoint split_from (sep : ascii) (acc s : string) : list string :=
  match s with
  | EmptyString => [acc]
  | String c rest =>
      if Ascii.eqb c sep then acc :: split_from sep "" rest
      else split_from sep (acc ++ String c "") rest
  end.
Definition split (s : string) (sep : ascii) : list string :=
  split_from sep "" s.

(** [l[i:j]]. *)
Definition slice {A} (l : list A) (i j : nat) : list A :=
  firstn (j - i) (skipn i l).

(** [l[idx]] for a list that may be [None]. *)
Definition getitem_idx (l : option (list string)) (idx : nat) : result string :=
  match l with
  | None => Raise (TypeError "'NoneType' object has no attribute '__getitem__'")
  | Some l =>
      match nth_error l idx with
      | Some x => Ok x
      | None => Raise (IndexError "list index out of range")
      end
  end.

(** Truthiness of a list. *)
Definition list_truthy {A} (l : list A) : bool :=
  match l with
  | [] => false
  | _ :: _ => true
  end.

Section Wrapper.

(** The executables: what launching a command line does, given the value
    of [ANCPATH] and the files that exist, and which files exist
    afterwards. *)
Variable execute :
  list string -> option string -> list string -> completion * list string.

(** The module constants, which are read from the environment when the
    module is imported. *)
Variables H5SDS_TRANSFER_RENAME_NAME CVIIRS_NAME CMGDEM_PATH : string.

(** [check_output(args, stderr=STDOUT)]. *)
Definition check_output (args : list string) (w : world)
  : completion * world :=
  let (c, files') := execute args (ANCPATH w) (files w) in
  (c, mk_world files' (ANCPATH w) (launched w ++ [args])).

(** [os.path.exists] and [os.path.isfile], for paths of plain files. *)
Definition isfile (path : string) (w : world) : bool := mem path (files w).

(** [os.remove] of a file that exists. *)
Definition remove (path : string) (w : world) : world :=
  mk_world (List.remove string_dec path (files w)) (ANCPATH w) (launched w).

Definition run_hdf5_rename (input_filename output_filename input_variable : string)
    (output_variable : option string) : M string :=
  fun w =>
    let output_variable :=
      match output_variable with
      | Some v => if str_truthy (Some v) then v else input_variable
      | None => input_variable
      end in
    let args := [H5SDS_TRANSFER_RENAME_NAME; input_filename; output_filename;
                 input_variable; output_variable] in
    match check_output args w with
    | (Exited _, w') =>
        if negb (isfile output_filename w') then
          (Raise (RuntimeError
                    ("Couldn't find HDF4 output file '" ++ output_filename ++ "'")),
           w')
        else (Ok output_filename, w')
    | (CalledProcessError _, w') =>
        (Raise (ValueError "h5SDS_transfer_rename failed"), w')
    | (OSError, w') =>
        (Raise (ValueError "h5SDS_transfer_rename was not found your PATH"), w')
    end.

(** [_run_cviirs], for [bands] that is [None] or a list of the texts of
    the bands, and [input_filenames] that is a list. *)
Definition _run_cviirs (output_filename : string)
    (input_filenames : list string) (bands : option (list string))
    (overwrite verbose output_500m output_1km : bool) : M string :=
  fun w =>
    let args := [CVIIRS_NAME] in
    let args :=
      match bands with
      | Some ((_ :: _) as bands) =>
          args ++ [("--bands=" ++ String.concat "," bands)%string]
      | _ => args
      end in
    if negb output_500m && negb output_1km then
      (Raise (ValueError "Must either specify output_500m or output_1km"), w)
    else
      let args := if output_500m then args ++ ["--500m"] else args in
      let args := if output_1km then args ++ ["--1km"] else args in
      let args := if overwrite then args ++ ["--overwrite"] else args in
      let args := if verbose then args ++ ["--verbose"] else args in
      let args := args ++ [("--of=" ++ output_filename)%string] in
      let args := args ++ input_filenames in
      let w := mk_world (files w) (Some CMGDEM_PATH) (launched w) in
      match check_output args w with
      | (Exited _, w') =>
          if negb (isfile output_filename w') then
            (Raise (RuntimeError
                      ("Couldn't CREFL HDF4 output file '" ++ output_filename ++ "'")),
             w')
          else (Ok output_filename, w')
      | (CalledProcessError _, w') => (Raise (ValueError "cviirs failed"), w')
      | (OSError, w') =>
          (Raise (ValueError "cviirs was not found your PATH"), w')
      end.

(** The loops over the bands of [run_cviirs]: [guard] is the list that
    the [if] of the body tests, and the result is [bands]. *)
Fixpoint transfer_bands (guard : bool)
    (zipped : list (option (list string) * string * string)) (idx : nat)
    (temp_file : string) (bands : list string) : M (list string) :=
  match zipped with
  | [] => ret bands
  | (file_list, var, band) :: rest =>
      if guard then
        mbind (fun w => match getitem_idx file_list idx with
                        | Ok f => run_hdf5_rename f temp_file "Reflectance"
                                                  (Some var) w
                        | Raise e => (Raise e, w)
                        end)
              (fun _ => transfer_bands guard rest idx temp_file (bands ++ [band]))
      else transfer_bands guard rest idx temp_file bands
  end.

Definition svm_temp_file : string := "NPP_VMAE_L1.hdf".
Definition svi_temp_file : string := "NPP_VIAE_L1.hdf".

Definition output_suffix (geo_file : string) : string :=
  String.concat "_" (slice (split (basename geo_file) "_"%char) 1 5).

Definition m_output_filename (geo_file : string) : string :=
  "CREFLM_" ++ output_suffix geo_file ++ ".hdf".

Definition i_output_filename (geo_file : string) : string :=
  "CREFLI_" ++ output_suffix geo_file ++ ".hdf".

Definition m_vars : list string :=
  [ "Reflectance_Mod_M5"; "Reflectance_Mod_M7"; "Reflectance_Mod_M3";
    "Reflectance_Mod_M4"; "Reflectance_Mod_M8"; "Reflectance_Mod_M10";
    "Reflectance_Mod_M11" ].
Definition i_vars : list string :=
  [ "Reflectance_Img_I1"; "Reflectance_Img_I2"; "Reflectance_Img_I3" ].
Definition m_bands : list string := ["1"; "2"; "3"; "4"; "5"; "6"; "7"].
Definition i_bands : list string := ["8"; "9"; "10"].

(** [if os.path.isfile(path) and not keep_intermediate: os.remove(path)]. *)
Definition remove_unless_kept (path : string) (keep_intermediate : bool)
    (w : world) : world :=
  if isfile path w && negb keep_intermediate then remove path w else w.

Section Granules.

Variables m_files i_files : list (option (list string)).
Variable keep_intermediate : bool.

(** The body of the [try] statement, for the granule at [idx]. *)
Definition transfer_and_run (idx : nat) (geo_file : string) : M string :=
  mbind (run_hdf5_rename geo_file svm_temp_file "Latitude" None) (fun _ =>
  mbind (run_hdf5_rename geo_file svm_temp_file "Longitude" None) (fun _ =>
  mbind (run_hdf5_rename geo_file svm_temp_file "SatelliteAzimuthAngle"
           (Some "SenAziAng_Mod")) (fun _ =>
  mbind (run_hdf5_rename geo_file svm_temp_file "SatelliteZenithAngle"
           (Some "SenZenAng_Mod")) (fun _ =>
  mbind (run_hdf5_rename geo_file svm_temp_file "SolarZenithAngle"
           (Some "SolZenAng_Mod")) (fun _ =>
  mbind (run_hdf5_rename geo_file svm_temp_file "SolarAzimuthAngle"
           (Some "SolAziAng_Mod")) (fun _ =>
  mbind (transfer_bands (list_truthy m_files)
           (combine (combine m_files m_vars) m_bands) idx svm_temp_file [])
        (fun bands =>
  mbind (_run_cviirs (m_output_filename geo_file) [svm_temp_file]
           (Some bands) true true false true) (fun _ =>
  mbind (transfer_bands (list_truthy i_files)
           (combine (combine i_files i_vars) i_bands) idx svi_temp_file [])
        (fun bands =>
  _run_cviirs (i_output_filename geo_file) [svm_temp_file; svi_temp_file]
    (Some bands) true true true false))))))))).

(** One turn of the loop over the granules: the [try] statement with its
    [except StandardError] and [finally] clauses. *)
Definition one_granule (idx : nat) (geo_file : string) : M unit :=
  fun w =>
    let (r, w) := transfer_and_run idx geo_file w in
    let w :=
      match r with
      | Ok _ => w
      | Raise _ =>
          remove_unless_kept (i_output_filename geo_file) keep_intermediate
            (remove_unless_kept (m_output_filename geo_file) keep_intermediate w)
      end in
    let w :=
      remove_unless_kept svi_temp_file keep_intermediate
        (remove_unless_kept svm_temp_file keep_intermediate w) in
    (match r with
     | Ok _ => Ok tt
     | Raise e => Raise e
     end, w).

(** The loop over [enumerate(geo_files)], from the index [idx] on. *)
Fixpoint granules (idx : nat) (geo_files : list string)
    (output_filenames : list string) : M (list string) :=
  match geo_files with
  | [] => ret output_filenames
  | geo_file :: rest =>
      mbind (one_granule idx geo_file) (fun _ =>
        granules (S idx) rest
          (output_filenames
           ++ [m_output_filename geo_file; i_output_filename geo_file]))
  end.

End Granules.

Definition run_cviirs (geo_files : list string)
    (m05_files m07_files m03_files m04_files m08_files m10_files m11_files
     i01_files i02_files i03_files : option (list string))
    (keep_intermediate : bool) : M (list string) :=
  let m_files := [m05_files; m07_files; m03_files; m04_files; m08_files;
                  m10_files; m11_files] in
  let i_files := [i01_files; i02_files; i03_files] in
  granules m_files i_files keep_intermediate 0 geo_files [].

End Wrapper.

End crefl_wrapper.

(** ** Concrete granules and file systems *)

Module Examples.

Import netCDF4.

Definition f32 (z : Z) : numpy.float32 := numpy.of_Z z.

(** The granules below are as netCDF4 before 1.1.1 presents them: their
    [Variable] objects have no attribute [scale] of their own;
    [auto_scaled] gives a file as a later library presents it. *)

(** A variable over scan lines and fields of view. *)
Definition swath_var (rows cols : nat) (vals : list Z)
    (attrs : Dict.t numpy.float32) : variable :=
  mk_variable ["Scanline"; "Field_of_view"]
              (numpy.mk_ndarray [rows; cols] (map f32 vals)) attrs None.

(** A MIRS image granule of [rows] scan lines and [cols] fields of view,
    with two channels, the first of them at 88.2 GHz. *)
Definition granule (t0 t1 : Z) (rows cols : nat) (rr : list Z)
    (scale : Z) (missing : option Z) : Dataset :=
  mk_Dataset
    (Some "Microwave Integrated Retrieval System") (Some "MIRS IMG")
    (Some "NETCDF4") (Some "npp") (Some "atms")
    (Some (Stamp t0)) (Some (Stamp t1))
    (Some (f32 1)) (Some (f32 1))
    (option_map f32 missing)
    [ ("RR", swath_var rows cols rr [("scale", f32 scale)]);
      ("BT", mk_variable ["Scanline"; "Field_of_view"; "Channel"]
               (numpy.mk_ndarray [rows; cols; 2]
                  (map f32 (flat_map (fun x => [Z.add x 200; Z.add x 250]) rr)))
               [("scale", f32 1)] None);
      ("Freq", mk_variable ["Channel"]
                 (numpy.mk_ndarray [2] [f32_88_2; f32 165]) [] None);
      ("Latitude", swath_var rows cols (map (fun _ => 45%Z) rr) []);
      ("Longitude", swath_var rows cols (map (fun _ => (-90)%Z) rr) []) ].

(** The same granule with the 88.2 GHz channel second on the frequency
    axis. *)
Definition swap_channels (d : Dataset) : Dataset :=
  mk_Dataset (project d) (title d) (data_model d) (satellite_name d)
    (instrument_name d) (time_coverage_start d) (time_coverage_end d)
    (geospatial_lon_resolution d) (geospatial_lat_resolution d)
    (missing_value d)
    (Dict.set (variables d) "Freq"
       (mk_variable ["Channel"] (numpy.mk_ndarray [2] [f32 165; f32_88_2]) []
                    None)).

(** A netCDF file of another project: [ttl] is its title, and it has no
    [project] attribute unless [proj] gives one. *)
Definition foreign (proj : option string) (ttl : string) : Dataset :=
  mk_Dataset proj (Some ttl) (Some "NETCDF4") None None None None None None
             None [].

(** A file system given by its files and its directories; no symbolic
    links. *)
Definition fs_of (files : Dict.t (result Dataset)) (dirs : Dict.t (list string))
  : filesystem :=
  mk_filesystem
    (fun p => Dict.contains dirs p)
    (fun p => Dict.contains files p)
    (fun p => match Dict.get dirs p with Some l => l | None => [] end)
    (fun p => p)
    (fun p => match Dict.get files p with
              | Some r => r
              | None => Raise (RuntimeError "No such file or directory")
              end).

(** [G1] begins at 00:00 with 3 rows, [G2] at 00:05 with 2 rows; both have
    4 columns, a scale of 2 and the fill value -999. *)
Definition G1 : Dataset :=
  granule 0 300 3 4 [2; 4; 6; 8; 10; 12; 14; 16; 18; 20; 22; -1998]%Z 2
          (Some (-999)%Z).
Definition G2 : Dataset :=
  granule 300 600 2 4 [1; 3; 5; 7; 9; 11; 13; 15]%Z 2 (Some (-999)%Z).

(** A granule of 1 row and 3 columns. *)
Definition G3 : Dataset := granule 600 900 1 3 [10; 20; 30]%Z 2 (Some (-999)%Z).

(** Granules whose scale is 0, whose fill value is 0, and which declare no
    fill value. *)
Definition G_scale0 : Dataset := granule 0 300 1 2 [3; 5]%Z 0 (Some (-999)%Z).
Definition G_fill0 : Dataset := granule 0 300 1 2 [0; 6]%Z 2 (Some 0%Z).
Definition G_nofill : Dataset := granule 0 300 1 2 [0; 6]%Z 2 None.

Definition fs0 : filesystem :=
  fs_of [ ("/data/g1.nc", Ok G1); ("/data/g2.nc", Ok G2);
          ("/data/g3.nc", Ok G3);
          ("/data/swapped.nc", Ok (swap_channels G1));
          ("/data/scale0.nc", Ok G_scale0);
          ("/data/fill0.nc", Ok G_fill0);
          ("/data/nofill.nc", Ok G_nofill);
          ("/one/g1.nc", Ok G1);
          ("/mixed/good.nc", Ok G1);
          ("/mixed/notes.txt", Raise (RuntimeError "NetCDF: Unknown file format"));
          ("/mixed/other.nc", Ok (foreign (Some "Another project") "Other"));
          ("/broken/good.nc", Ok G1);
          ("/broken/untitled.nc", Ok (foreign None "Other")) ]
        [ ("/one", ["g1.nc"]);
          ("/mixed", ["good.nc"; "notes.txt"; "other.nc"]);
          ("/broken", ["good.nc"; "untitled.nc"]) ].

(** A model of [list(set(products))]: first occurrences, in order. *)
Fixpoint dedup (l : list string) : list string :=
  match l with
  | [] => []
  | x :: rest => x :: filter (fun y => negb (String.eqb x y)) (dedup rest)
  end.

(** A reader, when the file opens. *)
Definition reader (path : string) : MIRSFileReader.t :=
  match MIRSFileReader.__init__ fs0 path with
  | Ok r => r
  | Raise _ =>
      MIRSFileReader.mk "" "" (foreign None "") "" "" 0%Z 0%Z numpy.nan numpy.nan
  end.

(** An ensemble after [add_files]. *)
Definition ensemble (paths : list string) : MIRSMultiReader.t :=
  snd (MIRSMultiReader.add_files fs0 (MIRSMultiReader.mk [] false) paths).

(** A registry with one more product, which depends on the rain rate. *)
Definition PRODUCTS_with_dependent : Dict.t MIRSProductDefiniton :=
  add_product PRODUCTS
    (mk_product "rain_total" "rain_total" FT_IMG RR_VAR [PRODUCT_RAIN_RATE]
                "Accumulated rain" "mm" false).

(** The ensemble that the constructor builds from one granule. *)
Definition finalized_G1 : MIRSMultiReader.t :=
  match MIRSMultiReader.__init__ fs0 (Some ["/data/g1.nc"]) with
  | Ok e => e
  | Raise _ => MIRSMultiReader.mk [] false
  end.

(** The frontend that discovery builds from the directory of one granule. *)
Definition frontend_one : Frontend.t :=
  match Frontend.__init__ fs0 (Some ["/one"]) with
  | Ok fe => fe
  | Raise _ => Frontend.mk []
  end.

(** A file as netCDF4 1.1.1 or later presents it: every [Variable]
    object has the switch [scale] of automatic scaling, which is on. *)
Definition auto_scaled (d : Dataset) : Dataset :=
  mk_Dataset (project d) (title d) (data_model d) (satellite_name d)
    (instrument_name d) (time_coverage_start d) (time_coverage_end d)
    (geospatial_lon_resolution d) (geospatial_lat_resolution d)
    (missing_value d)
    (map (fun kv =>
            (fst kv,
             mk_variable (dimensions (snd kv)) (values (snd kv))
                         (attributes (snd kv)) (Some true)))
         (variables d)).

(** A reader over a dataset, as the constructor caches it when the file
    is a granule. *)
Definition reader_of (d : Dataset) : MIRSFileReader.t :=
  MIRSFileReader.mk "granule.nc" "/data/granule.nc" d "npp" "atms" 0%Z 300%Z
                    (f32 1) (f32 1).

(** The granule G1 with another frequency axis. *)
Definition with_frequencies (freqs : list numpy.float32) : Dataset :=
  mk_Dataset (project G1) (title G1) (data_model G1) (satellite_name G1)
    (instrument_name G1) (time_coverage_start G1) (time_coverage_end G1)
    (geospatial_lon_resolution G1) (geospatial_lat_resolution G1)
    (missing_value G1)
    (Dict.set (variables G1) "Freq"
       (mk_variable ["Channel"] (numpy.mk_ndarray [length freqs] freqs) []
                    None)).

(** A granule without the variable of the rain rate. *)
Definition G_no_RR : Dataset :=
  mk_Dataset (project G1) (title G1) (data_model G1) (satellite_name G1)
    (instrument_name G1) (time_coverage_start G1) (time_coverage_end G1)
    (geospatial_lon_resolution G1) (geospatial_lat_resolution G1)
    (missing_value G1)
    (tl (variables G1)).

(** A file system with two directories: [/two] has the granules G1 and
    G2, [/solo] has the granule G1 and a file that is named as a netCDF
    file but is none. *)
Definition fs1 : filesystem :=
  fs_of [ ("/two/a.nc", Ok G1); ("/two/b.nc", Ok G2);
          ("/solo/a.nc", Ok G1);
          ("/solo/readme.nc", Raise (RuntimeError "NetCDF: Unknown file format")) ]
        [ ("/two", ["a.nc"; "b.nc"]); ("/solo", ["a.nc"; "readme.nc"]) ].

(** The frontend that discovery builds from the directory of two
    granules. *)
Definition frontend_two : Frontend.t :=
  match Frontend.__init__ fs1 (Some ["/two"]) with
  | Ok fe => fe
  | Raise _ => Frontend.mk []
  end.

(** The file that a [--of=] argument names. *)
Definition of_target (arg : string) : list string :=
  if String.prefix "--of=" arg
  then [substring 5 (String.length arg - 5) arg]
  else [].

(** Executables that succeed: the transfer tool creates its output file,
    which is its second argument, and cviirs the file that [--of=]
    names. *)
Definition execute_ok (args : list string) (ancpath : option string)
    (files : list string) : crefl_wrapper.completion * list string :=
  (crefl_wrapper.Exited "",
   match args with
   | prog :: rest =>
       if String.eqb prog "h5SDS_transfer_rename"
       then nth 1 rest "" :: files
       else flat_map of_target rest ++ files
   | [] => files
   end).

(** The same, except that cviirs ends with a status other than 0 after it
    has created its output file. *)
Definition execute_cviirs_fails (args : list string) (ancpath : option string)
    (files : list string) : crefl_wrapper.completion * list string :=
  match args with
  | prog :: rest =>
      if String.eqb prog "h5SDS_transfer_rename"
      then (crefl_wrapper.Exited "", nth 1 rest "" :: files)
      else (crefl_wrapper.CalledProcessError "", flat_map of_target rest ++ files)
  | [] => (crefl_wrapper.OSError, files)
  end.

(** A geolocation file, and the operating system with this file and the
    file of one band. *)
Definition geo_file : string :=
  "/in/GITCO_npp_d20120225_t1805407_e1807049_b01708_c20120226002721519187_noaa_ops.h5".

Definition w0 : crefl_wrapper.world :=
  crefl_wrapper.mk_world [geo_file; "/in/SVM05.h5"] None [].

End Examples.

(** * Properties *)

Import Examples.

(** ** The exception monad *)

Lemma bind_ret_r {A} (c : result A) : (x <- c ;; Ok x) = c.
Proof. destruct c; reflexivity. Qed.

Lemma bind_ok_inv {A B} (c : result A) (k : A -> result B) (b : B) :
  (x <- c ;; k x) = Ok b -> exists a, c = Ok a /\ k a = Ok b.
Proof. destruct c as [a|e]; simpl; intros H; [eauto | discriminate]. Qed.

(** ** Dictionaries *)

Lemma get_set_same {V} (d : Dict.t V) (k : string) (v : V) :
  Dict.get (Dict.set d k v) k = Some v.
Proof.
  induction d as [|[k' v'] d IH]; simpl.
  - now rewrite String.eqb_refl.
  - destruct (String.eqb k' k) eqn:E; simpl; rewrite E; auto.
Qed.

Lemma get_set_other {V} (d : Dict.t V) (k k' : string) (v : V) :
  k <> k' -> Dict.get (Dict.set d k v) k' = Dict.get d k'.
Proof.
  intros Hne. induction d as [|[k0 v0] d IH]; simpl.
  - destruct (String.eqb k k') eqn:E; auto.
    apply String.eqb_eq in E. contradiction.
  - destruct (String.eqb k0 k) eqn:E; simpl.
    + apply String.eqb_eq in E. subst k0.
      destruct (String.eqb k k') eqn:E'; auto.
      apply String.eqb_eq in E'. contradiction.
    + now rewrite IH.
Qed.

Lemma set_not_nil {V} (d : Dict.t V) (k : string) (v : V) : Dict.set d k v <> [].
Proof.
  destruct d as [|[k' v'] d]; simpl; [discriminate|].
  destruct (String.eqb k' k); discriminate.
Qed.

Lemma mem_In (x : string) (l : list string) : mem x l = true <-> In x l.
Proof.
  unfold mem. rewrite existsb_exists. split.
  - intros [y [Hy E]]. apply String.eqb_eq in E. now subst.
  - intros H. exists x. split; auto. apply String.eqb_refl.
Qed.

(** ** Adding a file to a finalized ensemble *)

(** C7: on a finalized ensemble [add_file] raises the [RuntimeError] that
    says the reader has been finalized, and the ensemble, with its
    sequence of readers, is left as it was. *)
Theorem add_file_finalized (fs : filesystem) (self : MIRSMultiReader.t)
    (fn : string) :
  MIRSMultiReader._files_finalized self = true ->
  MIRSMultiReader.add_file fs self fn =
    (Raise (RuntimeError
              "File reader has been finalized and no more files can be added"),
     self).
Proof.
  intros Hfin. unfold MIRSMultiReader.add_file. now rewrite Hfin.
Qed.

Lemma add_file_finalized_witness :
  MIRSMultiReader._files_finalized finalized_G1 = true /\
  MIRSMultiReader.add_file fs0 finalized_G1 "/data/g2.nc" =
    (Raise (RuntimeError
              "File reader has been finalized and no more files can be added"),
     finalized_G1).
Proof.
  split; [reflexivity | apply add_file_finalized; reflexivity].
Defined.

(** While the ensemble is open, the same call appends the reader. *)
Example add_file_open :
  MIRSMultiReader.__len__
    (snd (MIRSMultiReader.add_file fs0 (ensemble ["/data/g1.nc"]) "/data/g2.nc"))
  = 2.
Proof. reflexivity. Qed.

(** ** Classification by file name *)

(** C10: a path that does not end in ".nc" is classified as no file kind
    on every file system, whatever the file holds; as an entry of a
    searched directory, or as a searched file, it adds nothing to what
    discovery finds. *)
Theorem get_file_type_not_nc (fs : filesystem) (filepath : string) :
  endswith filepath ".nc" = false ->
  get_file_type fs filepath = Ok None /\
  (forall p fn rest,
      filepath = join p fn ->
      Frontend.find_in_dir fs p (fn :: rest) = Frontend.find_in_dir fs p rest) /\
  (forall rest,
      isdir fs filepath = false ->
      Frontend.find_all_files fs (filepath :: rest) =
      Frontend.find_all_files fs rest).
Proof.
  intros Hext.
  assert (Hnone : get_file_type fs filepath = Ok None).
  { unfold get_file_type. now rewrite Hext. }
  split; [exact Hnone|]. split.
  - intros p fn rest ->. simpl. rewrite Hnone. simpl. apply bind_ret_r.
  - intros rest Hdir. simpl. rewrite Hdir.
    destruct (isfile fs filepath); [rewrite Hnone|]; simpl; apply bind_ret_r.
Qed.

Lemma get_file_type_not_nc_witness :
  endswith "/mixed/notes.txt" ".nc" = false /\
  get_file_type fs0 "/mixed/notes.txt" = Ok None /\
  (forall p fn rest,
      "/mixed/notes.txt" = join p fn ->
      Frontend.find_in_dir fs0 p (fn :: rest) = Frontend.find_in_dir fs0 p rest) /\
  (forall rest,
      isdir fs0 "/mixed/notes.txt" = false ->
      Frontend.find_all_files fs0 ("/mixed/notes.txt" :: rest) =
      Frontend.find_all_files fs0 rest).
Proof.
  split; [reflexivity | apply get_file_type_not_nc; reflexivity].
Defined.

(** Every path that discovery yields is the real path of a candidate whose
    name ends in ".nc". *)
Lemma get_file_type_some (fs : filesystem) (fp k : string) :
  get_file_type fs fp = Ok (Some k) -> endswith fp ".nc" = true.
Proof.
  unfold get_file_type. destruct (endswith fp ".nc"); simpl; congruence.
Qed.

Lemma find_in_dir_nc (fs : filesystem) (p : string) (entries : list string) :
  forall found,
    Frontend.find_in_dir fs p entries = Ok found ->
    forall k path, In (k, path) found ->
      exists fp, endswith fp ".nc" = true /\ path = realpath fs fp.
Proof.
  induction entries as [|fn rest IH]; simpl; intros found H k path Hin.
  - inversion H; subst. contradiction.
  - apply bind_ok_inv in H. destruct H as [ft [Hft H]].
    apply bind_ok_inv in H. destruct H as [more [Hmore H]].
    inversion H; subst; clear H.
    destruct ft as [k'|].
    + destruct Hin as [E|Hin].
      * inversion E; subst. exists (join p fn). split; auto.
        eapply get_file_type_some; eauto.
      * eapply IH; eauto.
    + eapply IH; eauto.
Qed.

Lemma find_all_files_nc (fs : filesystem) (search_paths : list string) :
  forall found,
    Frontend.find_all_files fs search_paths = Ok found ->
    forall k path, In (k, path) found ->
      exists fp, endswith fp ".nc" = true /\ path = realpath fs fp.
Proof.
  induction search_paths as [|p rest IH]; simpl; intros found H k path Hin.
  - inversion H; subst. contradiction.
  - apply bind_ok_inv in H. destruct H as [here [Hhere H]].
    apply bind_ok_inv in H. destruct H as [more [Hmore H]].
    inversion H; subst; clear H.
    apply in_app_or in Hin. destruct Hin as [Hin|Hin]; [|eapply IH; eauto].
    destruct (isdir fs p).
    + eapply find_in_dir_nc; eauto.
    + destruct (isfile fs p).
      * apply bind_ok_inv in Hhere. destruct Hhere as [ft [Hft Hhere]].
        inversion Hhere; subst; clear Hhere.
        destruct ft as [k'|]; [|contradiction].
        destruct Hin as [E|[]]. inversion E; subst.
        exists p. split; auto. eapply get_file_type_some; eauto.
      * inversion Hhere; subst. contradiction.
Qed.

(** ** Ordering of readers *)

(** X10: A reader has no attribute [start_time]: every comparison of two readers
    ends in the [TypeError] of [raise NotImplemented]. *)
Lemma compare_readers_raises (a b : MIRSFileReader.t)
    (method : netCDF4.datetime -> MIRSFileReader.pyvalue -> result bool) :
  MIRSFileReader._compare a (MIRSFileReader.Reader b) method =
  Raise (TypeError "exceptions must derive from BaseException").
Proof. reflexivity. Qed.

(** Comparing with an object that lacks the attribute the comparison reads
    raises [TypeError]: there is no fallback. *)
Lemma compare_without_attribute (a : MIRSFileReader.t)
    (attrs : Dict.t MIRSFileReader.pyvalue)
    (method : netCDF4.datetime -> MIRSFileReader.pyvalue -> result bool) :
  Dict.get attrs "start_time" = None ->
  MIRSFileReader._compare a (MIRSFileReader.Other attrs) method =
  Raise (TypeError "exceptions must derive from BaseException").
Proof.
  intros H. unfold MIRSFileReader._compare, MIRSFileReader.getattr_object.
  now rewrite H.
Qed.

(** An object that does have a [start_time] is compared with the reader's
    [begin_time]. *)
Lemma compare_with_start_time (a : MIRSFileReader.t)
    (attrs : Dict.t MIRSFileReader.pyvalue) (d : netCDF4.datetime) :
  Dict.get attrs "start_time" = Some (MIRSFileReader.PyDatetime d) ->
  MIRSFileReader.__lt__ a (MIRSFileReader.Other attrs) =
  Ok (Z.ltb (MIRSFileReader.begin_time a) d).
Proof.
  intros H.
  unfold MIRSFileReader.__lt__, MIRSFileReader._compare,
    MIRSFileReader.getattr_object.
  now rewrite H.
Qed.

Lemma sorted_raises {A} (lt : A -> A -> result bool) (e : exn) :
  (forall a b, lt a b = Raise e) ->
  forall l, (2 <= length l)%nat -> sorted lt l = Raise e.
Proof.
  intros Hlt. induction l as [|x rest IH]; simpl; intros Hlen; [lia|].
  destruct rest as [|y rest']; simpl in Hlen; [lia|].
  destruct rest' as [|z rest''].
  - simpl. now rewrite Hlt.
  - rewrite IH by (simpl; lia). reflexivity.
Qed.

(** Sorting, and so [finalize_files], fails on every ensemble of two or
    more readers, which stays open; with at most one reader nothing is
    compared. *)
Lemma finalize_files_raises (self : MIRSMultiReader.t) :
  (2 <= MIRSMultiReader.__len__ self)%nat ->
  MIRSMultiReader.finalize_files self =
  (Raise (TypeError "exceptions must derive from BaseException"), self).
Proof.
  intros Hlen. unfold MIRSMultiReader.finalize_files.
  rewrite (sorted_raises _ (TypeError "exceptions must derive from BaseException"));
    auto.
Qed.

Lemma finalize_files_single (r : MIRSFileReader.t) (b : bool) :
  MIRSMultiReader.finalize_files (MIRSMultiReader.mk [r] b) =
  (Ok tt, MIRSMultiReader.mk [r] true).
Proof. reflexivity. Qed.

(** C2: the ensemble of the granules G1 (begin 00:00) and G2 (begin 00:05),
    added in that order, cannot be finalized: [finalize_files] raises
    [TypeError] and the constructor fails with it, so no sorted sequence
    of readers and no [end_time] of a last reader is ever produced for
    it. *)
Theorem finalize_two_granules :
  let self := ensemble ["/data/g1.nc"; "/data/g2.nc"] in
  map MIRSFileReader.begin_time (MIRSMultiReader.file_readers self)
    = [0%Z; 300%Z] /\
  MIRSMultiReader.finalize_files self =
    (Raise (TypeError "exceptions must derive from BaseException"), self) /\
  MIRSMultiReader.__init__ fs0 (Some ["/data/g1.nc"; "/data/g2.nc"]) =
    Raise (TypeError "exceptions must derive from BaseException").
Proof. repeat split. Qed.

(** With one granule the ensemble is finalized, and its [end_time] is that
    of its only reader. *)
Example finalized_G1_end_time :
  MIRSMultiReader._files_finalized finalized_G1 = true /\
  MIRSMultiReader.end_time finalized_G1 = Ok 300%Z.
Proof. split; reflexivity. Qed.

(** ** Channel selection *)

(** X7: A frequency that is not on the axis raises the [ValueError] of the
    missing channel. *)
Lemma filter_by_frequency_absent (self : MIRSFileReader.t) (item : string)
    (arr : numpy.ndarray) (freq : numpy.float32) (freq_var : netCDF4.variable) :
  MIRSFileReader.__getitem__ self FREQ_VAR = Ok freq_var ->
  numpy.nonzero_eq_0 (netCDF4.values freq_var) freq = [] ->
  MIRSFileReader.filter_by_frequency self item arr freq =
  Raise (ValueError "Frequency for variable does not exist").
Proof.
  intros Hvar Hidx. unfold MIRSFileReader.filter_by_frequency.
  rewrite Hvar. simpl. now rewrite Hidx.
Qed.

(** X8: A frequency found once, at an index other than 0, selects the slice at
    that index along the frequency dimension. *)
Lemma filter_by_frequency_present (self : MIRSFileReader.t) (item : string)
    (arr : numpy.ndarray) (freq : numpy.float32)
    (freq_var v : netCDF4.variable) (i freq_dim_idx : nat) (d0 : string)
    (dims : list string) :
  MIRSFileReader.__getitem__ self FREQ_VAR = Ok freq_var ->
  numpy.nonzero_eq_0 (netCDF4.values freq_var) freq = [S i] ->
  MIRSFileReader.__getitem__ self item = Ok v ->
  netCDF4.dimensions freq_var = d0 :: dims ->
  list_index (netCDF4.dimensions v) d0 = Ok freq_dim_idx ->
  MIRSFileReader.filter_by_frequency self item arr freq =
  numpy.index_axis arr freq_dim_idx (S i).
Proof.
  intros Hvar Hidx Hv Hd Hi. unfold MIRSFileReader.filter_by_frequency.
  rewrite Hvar. simpl. rewrite Hidx. simpl. rewrite Hv. simpl.
  rewrite Hd. simpl. now rewrite Hi.
Qed.

(** C4: in granule G1 the frequency 88.2 is on the frequency axis, at
    index 0, and decoding the 88.2 GHz brightness temperature raises the
    [ValueError] of the missing channel instead of returning the slice at
    that index. *)
Theorem channel_at_index_zero :
  (exists freq_var,
      MIRSFileReader.__getitem__ (reader "/data/g1.nc") FREQ_VAR = Ok freq_var /\
      numpy.nonzero_eq_0 (netCDF4.values freq_var) f32_88_2 = [0]) /\
  MIRSFileReader.get_swath_data (reader "/data/g1.nc") BT_88_VAR numpy.nan =
    Raise (ValueError "Frequency for variable does not exist").
Proof.
  split.
  - eexists. split; [vm_compute; reflexivity | vm_compute; reflexivity].
  - vm_compute. reflexivity.
Qed.

(** With the same channel second on the axis the slice at index 1 comes
    back. *)
Example channel_at_index_one :
  exists v sliced,
    MIRSFileReader.__getitem__ (reader "/data/swapped.nc") BT_88_VAR = Ok v /\
    numpy.index_axis (netCDF4.values v) 2 1 = Ok sliced /\
    MIRSFileReader.get_swath_data (reader "/data/swapped.nc") BT_88_VAR numpy.nan
      = Ok sliced.
Proof.
  do 2 eexists. split; [vm_compute; reflexivity|].
  split; [vm_compute; reflexivity | vm_compute; reflexivity].
Qed.

(** ** Discovery *)

Lemma fold_recognize_not_nil (found : list (string * string)) :
  forall d, d <> [] -> fold_left Frontend.recognize found d <> [].
Proof.
  induction found as [|[k p] rest IH]; simpl; intros d Hd; auto.
  apply IH. apply set_not_nil.
Qed.

(** When no exception ends the search, discovery fails, with the
    [RuntimeError] of no usable files, exactly when nothing was
    recognized. *)
Lemma init_after_search (fs : filesystem) (search_paths : list string)
    (found : list (string * string)) :
  search_paths <> [] ->
  Frontend.find_all_files fs search_paths = Ok found ->
  (found = [] ->
   Frontend.__init__ fs (Some search_paths) =
   Raise (RuntimeError "No useable files provided or found")) /\
  (found <> [] ->
   exists fe, Frontend.__init__ fs (Some search_paths) = Ok fe).
Proof.
  intros Hsp Hfound. unfold Frontend.__init__.
  destruct search_paths as [|p rest]; [contradiction|].
  rewrite Hfound. unfold bind. cbv zeta. split.
  - intros ->. reflexivity.
  - intros Hne.
    destruct (fold_left Frontend.recognize found []) eqn:E.
    + exfalso. destruct found as [|[k q] l]; [contradiction|].
      cbn [fold_left] in E. revert E. apply fold_recognize_not_nil.
      unfold Frontend.recognize. apply set_not_nil.
    + eexists. reflexivity.
Qed.

(** A file that cannot be a granule by its name, and a netCDF file whose
    [project] attribute names another project, are passed over. *)
Example discovery_skips_mismatch :
  Frontend.__init__ fs0 (Some ["/mixed"]) =
  Ok (Frontend.mk [(FT_IMG, ["/mixed/good.nc"])]).
Proof. reflexivity. Qed.

(** C8: the directory [/broken] holds the granule [good.nc], which is
    recognized, and the netCDF file [untitled.nc], which has no [project]
    attribute and so fails classification; discovery over it is aborted by
    the [AttributeError] of the missing attribute instead of passing the
    file over and keeping the granule. *)
Theorem discovery_aborted_by_candidate :
  listdir fs0 "/broken" = ["good.nc"; "untitled.nc"] /\
  get_file_type fs0 "/broken/good.nc" = Ok (Some FT_IMG) /\
  get_file_type fs0 "/broken/untitled.nc" = Raise (AttributeError "project") /\
  Frontend.__init__ fs0 (Some ["/broken"]) = Raise (AttributeError "project").
Proof. repeat split. Qed.

(** ** Scale and fill *)

(** [get_swath_data] step by step: the variable, its channel when it is
    indexed by frequency, the division by a scale that is not zero, then
    the substitution of a fill value that is not zero. *)
Lemma get_swath_data_steps (self : MIRSFileReader.t) (item : string)
    (fill : numpy.float32) (v : netCDF4.variable)
    (entry : MIRSFileReader.structure) (raw : numpy.ndarray)
    (file_scale : option numpy.float32) (f : numpy.float32) :
  MIRSFileReader.__getitem__ self item = Ok v ->
  Dict.get MIRSFileReader.FILE_STRUCTURE item = Some entry ->
  (if numpy.opt_truthy (MIRSFileReader.frequency entry)
   then MIRSFileReader.filter_by_frequency self item (netCDF4.values v)
          (match MIRSFileReader.frequency entry with
           | Some x => x
           | None => numpy.nan
           end)
   else Ok (netCDF4.values v)) = Ok raw ->
  MIRSFileReader.get_scale_value self item = Ok file_scale ->
  MIRSFileReader.get_fill_value self item = Ok f ->
  MIRSFileReader.get_swath_data self item fill =
  Ok (let scaled :=
        match file_scale with
        | Some s => if numpy.truthy s then numpy.divide raw s else raw
        | None => raw
        end in
      if numpy.truthy f then numpy.where_eq_set scaled f fill else scaled).
Proof.
  intros Hv He Hraw Hs Hf. unfold MIRSFileReader.get_swath_data.
  rewrite Hv. simpl. unfold Dict.getitem. rewrite He. simpl.
  rewrite Hraw. simpl. rewrite Hf. simpl. rewrite Hs. reflexivity.
Qed.

(** C9: the granules [fill0.nc] and [nofill.nc] differ only in the
    file-wide fill attribute, which is 0 in the first and undeclared in the
    second.  With the fill value 0 the rain rate decodes to the scaled
    data, the element equal to 0 included; with no fill value declared the
    decoding raises [TypeError]. *)
Theorem zero_fill_and_no_fill :
  netCDF4.missing_value G_fill0 = Some (f32 0) /\
  netCDF4.missing_value G_nofill = None /\
  netCDF4.variables G_fill0 = netCDF4.variables G_nofill /\
  MIRSFileReader.get_swath_data (reader "/data/fill0.nc") RR_VAR numpy.nan =
    Ok (numpy.mk_ndarray [1; 2] [f32 0; f32 3]) /\
  MIRSFileReader.get_swath_data (reader "/data/nofill.nc") RR_VAR numpy.nan =
    Raise (TypeError "float() argument must be a string or a number").
Proof. repeat split. Qed.

(** A scale of zero: the data come back undivided. *)
Example zero_scale_decodes_raw :
  MIRSFileReader.get_scale_value (reader "/data/scale0.nc") RR_VAR =
    Ok (Some (f32 0)) /\
  MIRSFileReader.get_swath_data (reader "/data/scale0.nc") RR_VAR numpy.nan =
    Ok (numpy.mk_ndarray [1; 2] [f32 3; f32 5]).
Proof. split; reflexivity. Qed.

(** A scale of zero leaves the data undivided, as a variable without scale
    has them. *)
Lemma zero_scale_no_division (self : MIRSFileReader.t) (item : string)
    (fill : numpy.float32) (v : netCDF4.variable)
    (entry : MIRSFileReader.structure) (s f : numpy.float32) :
  MIRSFileReader.__getitem__ self item = Ok v ->
  Dict.get MIRSFileReader.FILE_STRUCTURE item = Some entry ->
  numpy.opt_truthy (MIRSFileReader.frequency entry) = false ->
  MIRSFileReader.get_scale_value self item = Ok (Some s) ->
  numpy.truthy s = false ->
  MIRSFileReader.get_fill_value self item = Ok f ->
  MIRSFileReader.get_swath_data self item fill =
  Ok (if numpy.truthy f
      then numpy.where_eq_set (netCDF4.values v) f fill
      else netCDF4.values v).
Proof.
  intros Hv He Hfreq Hs Hz Hf.
  rewrite (get_swath_data_steps self item fill v entry (netCDF4.values v)
             (Some s) f); auto.
  - simpl. now rewrite Hz.
  - now rewrite Hfreq.
Qed.

(** A fill value of zero substitutes nothing. *)
Lemma zero_fill_no_substitution (self : MIRSFileReader.t) (item : string)
    (fill : numpy.float32) (v : netCDF4.variable)
    (entry : MIRSFileReader.structure) (file_scale : option numpy.float32)
    (f : numpy.float32) :
  MIRSFileReader.__getitem__ self item = Ok v ->
  Dict.get MIRSFileReader.FILE_STRUCTURE item = Some entry ->
  numpy.opt_truthy (MIRSFileReader.frequency entry) = false ->
  MIRSFileReader.get_scale_value self item = Ok file_scale ->
  MIRSFileReader.get_fill_value self item = Ok f ->
  numpy.truthy f = false ->
  MIRSFileReader.get_swath_data self item fill =
  Ok (match file_scale with
      | Some s =>
          if numpy.truthy s then numpy.divide (netCDF4.values v) s
          else netCDF4.values v
      | None => netCDF4.values v
      end).
Proof.
  intros Hv He Hfreq Hs Hf Hz.
  rewrite (get_swath_data_steps self item fill v entry (netCDF4.values v)
             file_scale f); auto.
  - simpl. now rewrite Hz.
  - now rewrite Hfreq.
Qed.

(** With a number [s] other than zero for [get_scale_value], the decoded
    array is the raw array (the selected channel, for a variable indexed
    by frequency) divided elementwise by [s], in which the elements equal
    to a fill value that is not zero are then replaced by the output fill
    value; when no scaled element equals the fill value it is the raw
    array divided by [s]. *)
Lemma get_swath_data_scale_then_fill (self : MIRSFileReader.t) (item : string)
    (fill : numpy.float32) (v : netCDF4.variable)
    (entry : MIRSFileReader.structure) (raw : numpy.ndarray)
    (s f : numpy.float32) :
  MIRSFileReader.__getitem__ self item = Ok v ->
  Dict.get MIRSFileReader.FILE_STRUCTURE item = Some entry ->
  (if numpy.opt_truthy (MIRSFileReader.frequency entry)
   then MIRSFileReader.filter_by_frequency self item (netCDF4.values v)
          (match MIRSFileReader.frequency entry with
           | Some x => x
           | None => numpy.nan
           end)
   else Ok (netCDF4.values v)) = Ok raw ->
  MIRSFileReader.get_scale_value self item = Ok (Some s) ->
  numpy.truthy s = true ->
  MIRSFileReader.get_fill_value self item = Ok f ->
  MIRSFileReader.get_swath_data self item fill =
    Ok (numpy.mk_ndarray (numpy.shape raw)
          (map (fun x =>
                  let y := numpy.div x s in
                  if numpy.truthy f && numpy.eqb y f then fill else y)
               (numpy.data raw))) /\
  (Forall (fun x => numpy.eqb (numpy.div x s) f = false) (numpy.data raw) ->
   MIRSFileReader.get_swath_data self item fill = Ok (numpy.divide raw s)).
Proof.
  intros Hv He Hraw Hs Hnz Hf.
  assert (Hsteps := get_swath_data_steps self item fill v entry raw (Some s) f
                      Hv He Hraw Hs Hf).
  simpl in Hsteps. rewrite Hnz in Hsteps. split.
  - rewrite Hsteps. f_equal.
    destruct (numpy.truthy f); unfold numpy.where_eq_set, numpy.divide; simpl.
    + now rewrite map_map.
    + reflexivity.
  - intros Hno. rewrite Hsteps. f_equal.
    destruct (numpy.truthy f); [|reflexivity].
    unfold numpy.where_eq_set, numpy.divide. simpl. f_equal.
    rewrite map_map. apply map_ext_in. intros x Hx.
    rewrite Forall_forall in Hno. now rewrite (Hno x Hx).
Qed.

(** For an item whose scale attribute is [scale], [get_scale_value] is
    [getattr] of that name on the variable that [__getitem__] returns. *)
Lemma get_scale_value_getattr (self : MIRSFileReader.t) (item : string)
    (v : netCDF4.variable) (entry : MIRSFileReader.structure) :
  MIRSFileReader.__getitem__ self item = Ok v ->
  Dict.get MIRSFileReader.FILE_STRUCTURE item = Some entry ->
  MIRSFileReader.scale_attr_name entry = Some "scale" ->
  MIRSFileReader.get_scale_value self item =
  (x <- MIRSFileReader.var_getattr v "scale" ;; Ok (Some x)).
Proof.
  unfold MIRSFileReader.__getitem__, MIRSFileReader.get_scale_value.
  intros Hv He Hname. rewrite He in *. rewrite Hname, Hv. reflexivity.
Qed.



(** Where the [Variable] object has the switch [scale] of the library
    (netCDF4 1.1.1 or later), [get_scale_value] is the number of the
    switch, 1.0 when it is on, whatever scale the file declares: the
    decoded array is the raw array divided by that number, then
    fill-substituted. *)
Lemma decode_own_scale (self : MIRSFileReader.t) (item : string)
    (fill : numpy.float32) (v : netCDF4.variable)
    (entry : MIRSFileReader.structure) (raw : numpy.ndarray)
    (f : numpy.float32) :
  MIRSFileReader.__getitem__ self item = Ok v ->
  Dict.get MIRSFileReader.FILE_STRUCTURE item = Some entry ->
  MIRSFileReader.scale_attr_name entry = Some "scale" ->
  (if numpy.opt_truthy (MIRSFileReader.frequency entry)
   then MIRSFileReader.filter_by_frequency self item (netCDF4.values v)
          (match MIRSFileReader.frequency entry with
           | Some x => x
           | None => numpy.nan
           end)
   else Ok (netCDF4.values v)) = Ok raw ->
  netCDF4.scale v = Some true ->
  MIRSFileReader.get_fill_value self item = Ok f ->
  MIRSFileReader.get_scale_value self item = Ok (Some (numpy.of_Z 1)) /\
  MIRSFileReader.get_swath_data self item fill =
    Ok (numpy.mk_ndarray (numpy.shape raw)
          (map (fun x =>
                  let y := numpy.div x (numpy.of_Z 1) in
                  if numpy.truthy f && numpy.eqb y f then fill else y)
               (numpy.data raw))).
Proof.
  intros Hv He Hname Hraw Hown Hf.
  assert (Hs : MIRSFileReader.get_scale_value self item =
               Ok (Some (numpy.of_Z 1))).
  { rewrite (get_scale_value_getattr self item v entry Hv He Hname).
    unfold MIRSFileReader.var_getattr. rewrite Hown. reflexivity. }
  split; [exact Hs|].
  apply (get_swath_data_scale_then_fill self item fill v entry raw
           (numpy.of_Z 1) f); auto.
Qed.

(** The granule G2 as a library with the switch presents it: the file
    declares the scale 2, and the decoded rain rate is the raw one. *)
Example decode_auto_scaled_G2 :
  Dict.get (netCDF4.attributes
              (swath_var 2 4 [1; 3; 5; 7; 9; 11; 13; 15]%Z [("scale", f32 2)]))
           "scale" = Some (f32 2) /\
  MIRSFileReader.get_scale_value (reader_of (auto_scaled G2)) RR_VAR =
    Ok (Some (f32 1)) /\
  MIRSFileReader.get_swath_data (reader_of (auto_scaled G2)) RR_VAR numpy.nan =
    Ok (numpy.mk_ndarray [2; 4] (map f32 [1; 3; 5; 7; 9; 11; 13; 15]%Z)).
Proof.
  split; [reflexivity|].
  split; [vm_compute; reflexivity | vm_compute; reflexivity].
Qed.


(** ** Aggregation *)

(** The loop of [write_var_to_flat_binary] over readers whose arrays all
    decode and have two dimensions: the appender ends with the arrays one
    after the other, the sum of the row counts, and the column count of
    the last array. *)
Lemma append_all_extent (item : string) :
  forall (readers : list MIRSFileReader.t) (arrays : list numpy.ndarray),
    Forall2 (fun r a => MIRSFileReader.get_swath_data r item numpy.nan = Ok a)
            readers arrays ->
    Forall (fun a => length (numpy.shape a) = 2) arrays ->
    arrays <> [] ->
    forall file_appender,
    exists cols,
      MIRSMultiReader.append_all readers item file_appender =
        (Ok tt,
         FileAppender.mk
           (FileAppender.F file_appender ++ concat (map numpy.data arrays))
           [hd 0 (FileAppender.shape file_appender)
            + list_sum (map (fun a => hd 0 (numpy.shape a)) arrays); cols]) /\
      (forall c, Forall (fun a => nth 1 (numpy.shape a) 0 = c) arrays ->
                 cols = c).
Proof.
  induction 1 as [|r a readers arrays Hdec Hrest IH]; intros H2d Hne app.
  - contradiction.
  - inversion H2d as [|? ? Ha H2d']; subst.
    destruct (numpy.shape a) as [|ra [|ca [|? ?]]] eqn:Hshape;
      simpl in Ha; try discriminate.
    simpl. rewrite Hdec. unfold FileAppender.append. rewrite Hshape.
    destruct arrays as [|a' arrays'].
    + inversion Hrest; subst. exists ca. simpl. split.
      * now rewrite !app_nil_r, Nat.add_0_r.
      * intros c Hc. apply Forall_inv in Hc. rewrite Hshape in Hc.
        exact Hc.
    + destruct (IH H2d' ltac:(discriminate)
                  (FileAppender.mk (FileAppender.F app ++ numpy.data a)
                     [hd 0 (FileAppender.shape app) + ra; ca]))
        as [cols [Heq Hcols]].
      exists cols. split.
      * rewrite Heq. simpl. rewrite ?Hshape. simpl.
        rewrite <- app_assoc, <- Nat.add_assoc. reflexivity.
      * intros c Hc. apply Hcols. now apply Forall_inv_tail in Hc.
Qed.

(** C1, as the code has it: for an ensemble of one or more readers whose
    arrays for the variable decode and have two dimensions, with row
    counts r1..rk, [write_var_to_flat_binary] writes the arrays to the
    output stream in reader order and returns the row count r1+...+rk;
    it raises nothing when the column counts differ, and when they are all
    [c] the shape it returns is (r1+...+rk, c). *)
Theorem write_var_to_flat_binary_extent (self : MIRSMultiReader.t)
    (item filename : string) (out : outputs) (arrays : list numpy.ndarray) :
  Forall2 (fun r a => MIRSFileReader.get_swath_data r item numpy.nan = Ok a)
          (MIRSMultiReader.file_readers self) arrays ->
  Forall (fun a => length (numpy.shape a) = 2) arrays ->
  arrays <> [] ->
  exists cols,
    MIRSMultiReader.write_var_to_flat_binary self item filename out =
      (Ok [list_sum (map (fun a => hd 0 (numpy.shape a)) arrays); cols],
       out ++ [(filename, concat (map numpy.data arrays))]) /\
    (forall c, Forall (fun a => nth 1 (numpy.shape a) 0 = c) arrays ->
               cols = c).
Proof.
  intros Hdec H2d Hne.
  destruct (append_all_extent item _ _ Hdec H2d Hne FileAppender.__init__)
    as [cols [Heq Hcols]].
  exists cols. split; auto.
  unfold MIRSMultiReader.write_var_to_flat_binary. now rewrite Heq.
Qed.

(** G1 has 3 rows and G2 has 2, both of 4 columns: the latitude of the two
    is one stream of shape (5, 4), G1's rows first. *)
Lemma write_var_to_flat_binary_extent_witness :
  exists a1 a2,
    MIRSFileReader.get_swath_data (reader "/data/g1.nc") LAT_VAR numpy.nan
      = Ok a1 /\
    MIRSFileReader.get_swath_data (reader "/data/g2.nc") LAT_VAR numpy.nan
      = Ok a2 /\
    MIRSMultiReader.write_var_to_flat_binary
      (ensemble ["/data/g1.nc"; "/data/g2.nc"]) LAT_VAR "latitude.dat" [] =
    (Ok [5; 4], [("latitude.dat", numpy.data a1 ++ numpy.data a2)]).
Proof.
  do 2 eexists. split; [reflexivity|]. split; [reflexivity|].
  destruct (write_var_to_flat_binary_extent
              (ensemble ["/data/g1.nc"; "/data/g2.nc"]) LAT_VAR "latitude.dat" []
              [numpy.mk_ndarray [3; 4] (map f32 (repeat 45%Z 12));
               numpy.mk_ndarray [2; 4] (map f32 (repeat 45%Z 8))])
    as [cols [Heq Hcols]].
  - repeat constructor.
  - repeat constructor.
  - discriminate.
  - rewrite Heq. rewrite (Hcols 4) by (repeat constructor). reflexivity.
Defined.

(** C1 as stated fails where the column counts differ: the latitude of G1
    has shape (3, 4) and that of G3 has shape (1, 3), and aggregating the
    two returns the shape (4, 3) instead of raising. *)
Lemma aggregate_mismatch_counterexample :
  exists a1 a3,
    Forall2 (fun r a => MIRSFileReader.get_swath_data r LAT_VAR numpy.nan = Ok a)
            (MIRSMultiReader.file_readers (ensemble ["/data/g1.nc"; "/data/g3.nc"]))
            [a1; a3] /\
    numpy.shape a1 = [3; 4] /\
    numpy.shape a3 = [1; 3] /\
    fst (MIRSMultiReader.write_var_to_flat_binary
           (ensemble ["/data/g1.nc"; "/data/g3.nc"]) LAT_VAR "latitude.dat" [])
    = Ok [4; 3].
Proof.
  do 2 eexists. split.
  - constructor; [reflexivity|]. constructor; [reflexivity|]. constructor.
  - repeat split.
Qed.

(** ** Products with dependencies *)

Lemma raw_products_of_dependent (PRODUCTS : Dict.t MIRSProductDefiniton)
    (p : string) (def : MIRSProductDefiniton) :
  Dict.get PRODUCTS p = Some def ->
  dependencies def <> [] ->
  forall products,
    In p products ->
    (forall q, In q products -> Dict.contains PRODUCTS q = true) ->
    Frontend.raw_products_of PRODUCTS products =
    Raise (NotImplementedError
             "Don't know how to handle products dependent on other products").
Proof.
  intros Hdef Hdeps. induction products as [|x rest IH]; intros Hin Hknown.
  - contradiction.
  - simpl. unfold Dict.getitem.
    assert (Hx := Hknown x (or_introl eq_refl)). unfold Dict.contains in Hx.
    destruct (Dict.get PRODUCTS x) as [dx|] eqn:Ex; [|discriminate]. simpl.
    destruct (dependencies dx) eqn:Edx; [|reflexivity].
    destruct Hin as [->|Hin].
    + rewrite Hdef in Ex. inversion Ex; subst. contradiction.
    + rewrite IH; auto. intros q Hq. apply Hknown. now right.
Qed.

(** C5, as the code has it: when the request names registered products
    only and one of them has dependencies, [create_scene] (with one
    process) raises the
    [NotImplementedError] for dependent products, on every file system and
    for every set of recognized files, and writes nothing. *)
Theorem create_scene_dependent_product
    (PRODUCTS : Dict.t MIRSProductDefiniton)
    (list_set : list string -> list string) (fs : filesystem)
    (self : Frontend.t) (products : list string) (p : string)
    (def : MIRSProductDefiniton) (out : outputs) :
  (forall l x, In x (list_set l) <-> In x l) ->
  In p products ->
  Dict.get PRODUCTS p = Some def ->
  dependencies def <> [] ->
  (forall q, In q products -> Dict.contains PRODUCTS q = true) ->
  Frontend.create_scene PRODUCTS list_set fs self (Some products) 1 out =
  (Raise (NotImplementedError
            "Don't know how to handle products dependent on other products"),
   out).
Proof.
  intros Hset Hin Hdef Hdeps Hknown.
  unfold Frontend.create_scene. simpl.
  unfold io_bind, io_lift.
  rewrite (raw_products_of_dependent PRODUCTS p def Hdef Hdeps); auto.
  - now apply Hset.
  - intros q Hq. apply Hknown. now apply Hset.
Qed.

Lemma dedup_In (l : list string) (x : string) : In x (dedup l) <-> In x l.
Proof.
  induction l as [|y rest IH]; simpl; [tauto|].
  rewrite filter_In, IH. split.
  - intros [H|[H _]]; auto.
  - intros [H|H]; auto.
    destruct (String.eqb y x) eqn:E.
    + apply String.eqb_eq in E. auto.
    + right. split; auto.
Qed.

Lemma create_scene_dependent_product_witness :
  Frontend.create_scene PRODUCTS_with_dependent dedup fs0 frontend_one
    (Some ["rain_rate"; "rain_total"]) 1 [] =
  (Raise (NotImplementedError
            "Don't know how to handle products dependent on other products"),
   []).
Proof.
  apply (create_scene_dependent_product PRODUCTS_with_dependent dedup fs0
           frontend_one ["rain_rate"; "rain_total"] "rain_total"
           (mk_product "rain_total" "rain_total" FT_IMG RR_VAR
                       [PRODUCT_RAIN_RATE] "Accumulated rain" "mm" false)).
  - exact dedup_In.
  - simpl. auto.
  - reflexivity.
  - discriminate.
  - intros q [<-|[<-|[]]]; reflexivity.
Defined.

(** C5 as stated fails when the request also names a product that is not
    registered, or when more than one process is asked for.  In the
    registry with [rain_total], which depends on the rain rate: a request
    for [snow_rate], which is not registered, and [rain_total], in a set
    that lists them in this order, raises the [KeyError] of [snow_rate];
    and a request for [rain_total] alone with two processes raises the
    [NotImplementedError] of the processes.  Neither is the
    [NotImplementedError] of the dependencies. *)
Lemma create_scene_dependent_counterexample :
  (exists def,
      Dict.get PRODUCTS_with_dependent "rain_total" = Some def /\
      dependencies def = [PRODUCT_RAIN_RATE]) /\
  Dict.get PRODUCTS_with_dependent "snow_rate" = None /\
  Frontend.create_scene PRODUCTS_with_dependent dedup fs0 frontend_one
    (Some ["snow_rate"; "rain_total"]) 1 [] =
    (Raise (KeyError "snow_rate"), []) /\
  Frontend.create_scene PRODUCTS_with_dependent dedup fs0 frontend_one
    (Some ["rain_total"]) 2 [] =
    (Raise (NotImplementedError
              "The MIRS frontend does not support multiple processes yet"),
     []).
Proof.
  split; [eexists; split; reflexivity|].
  split; [reflexivity|].
  split; [vm_compute; reflexivity | vm_compute; reflexivity].
Qed.

(** With more than one process the failure is the other
    [NotImplementedError], whatever is requested. *)
Lemma create_scene_nprocs (PRODUCTS : Dict.t MIRSProductDefiniton)
    (list_set : list string -> list string) (fs : filesystem)
    (self : Frontend.t) (products : option (list string)) (nprocs : Z)
    (out : outputs) :
  nprocs <> 1%Z ->
  Frontend.create_scene PRODUCTS list_set fs self products nprocs out =
  (Raise (NotImplementedError
            "The MIRS frontend does not support multiple processes yet"),
   out).
Proof.
  intros Hn. unfold Frontend.create_scene.
  destruct (Z.eqb nprocs 1) eqn:E; [apply Z.eqb_eq in E; contradiction|].
  reflexivity.
Qed.

(** ** Scene assembly *)

Lemma io_bind_ok_inv {A B} (c : io A) (k : A -> io B) (out out' : outputs)
    (b : B) :
  io_bind c k out = (Ok b, out') ->
  exists a out1, c out = (Ok a, out1) /\ k a out1 = (Ok b, out').
Proof.
  unfold io_bind. destruct (c out) as [[a|e] out1]; intros H.
  - eauto.
  - inversion H.
Qed.

Lemma io_lift_ok_inv {A} (r : result A) (out out' : outputs) (a : A) :
  io_lift r out = (Ok a, out') -> r = Ok a /\ out' = out.
Proof. unfold io_lift. intros H. inversion H. auto. Qed.

(** [write_var_to_flat_binary] opens exactly one file. *)
Lemma write_var_outputs (self : MIRSMultiReader.t) (item filename : string)
    (out : outputs) :
  exists stream,
    snd (MIRSMultiReader.write_var_to_flat_binary self item filename out) =
    out ++ [(filename, stream)].
Proof.
  unfold MIRSMultiReader.write_var_to_flat_binary.
  destruct (MIRSMultiReader.append_all _ _ _) as [[u|e] app]; eexists;
    reflexivity.
Qed.

(** What a product built by [_create_raw_swath_object] is: one file
    written, named after the product, and the companions taken from
    [products_created] unless the product is itself latitude or
    longitude. *)
Lemma create_raw_swath_object_ok (PRODUCTS : Dict.t MIRSProductDefiniton)
    (product_name : string) (file_readers : Dict.t MIRSMultiReader.t)
    (products_created : Dict.t meta.SwathProduct) (out out' : outputs)
    (sp : meta.SwathProduct) :
  Frontend._create_raw_swath_object PRODUCTS product_name file_readers
    products_created out = (Ok sp, out') ->
  (exists stream, out' = out ++ [((product_name ++ ".dat")%string, stream)]) /\
  meta.product_name sp = product_name /\
  meta.swath_data sp = (product_name ++ ".dat")%string /\
  meta.latitude sp =
    (if mem product_name [PRODUCT_LATITUDE; PRODUCT_LONGITUDE] then None
     else Dict.get products_created PRODUCT_LATITUDE) /\
  meta.longitude sp =
    (if mem product_name [PRODUCT_LATITUDE; PRODUCT_LONGITUDE] then None
     else Dict.get products_created PRODUCT_LONGITUDE).
Proof.
  unfold Frontend._create_raw_swath_object. intros H.
  apply io_bind_ok_inv in H. destruct H as [def [o1 [Hdef H]]].
  apply io_lift_ok_inv in Hdef. destruct Hdef as [Hdef ->].
  apply io_bind_ok_inv in H. destruct H as [fr [o2 [Hfr H]]].
  apply io_lift_ok_inv in Hfr. destruct Hfr as [Hfr ->].
  apply io_bind_ok_inv in H. destruct H as [shape [o3 [Hw H]]].
  apply io_lift_ok_inv in H. destruct H as [H ->].
  destruct (write_var_outputs fr (file_key def) (product_name ++ ".dat") out)
    as [stream Hout].
  rewrite Hw in Hout. simpl in Hout. split; [eauto|].
  repeat (apply bind_ok_inv in H; destruct H as [? [? H]]).
  inversion H; subst; clear H. simpl.
  destruct (mem product_name [PRODUCT_LATITUDE; PRODUCT_LONGITUDE]); auto.
Qed.

Lemma raw_products_of_ok (PRODUCTS : Dict.t MIRSProductDefiniton) :
  forall products raw_products,
    Frontend.raw_products_of PRODUCTS products = Ok raw_products ->
    raw_products = products.
Proof.
  induction products as [|p rest IH]; simpl; intros raw H.
  - now inversion H.
  - apply bind_ok_inv in H. destruct H as [def [_ H]].
    destruct (dependencies def); [|discriminate].
    apply bind_ok_inv in H. destruct H as [more [Hmore H]].
    inversion H; subst. f_equal. now apply IH.
Qed.


Lemma load_geo_products_cons (PRODUCTS : Dict.t MIRSProductDefiniton)
    (g : string) (rest raw_products : list string)
    (file_readers : Dict.t MIRSMultiReader.t)
    (products_created : Dict.t meta.SwathProduct) (scene : meta.SwathScene) :
  Frontend.load_geo_products PRODUCTS (g :: rest) raw_products file_readers
    products_created scene =
  io_bind
    (Frontend._create_raw_swath_object PRODUCTS g file_readers products_created)
    (fun one_swath =>
       Frontend.load_geo_products PRODUCTS rest raw_products file_readers
         (Dict.set products_created g one_swath)
         (if mem g raw_products then Dict.set scene g one_swath else scene)).
Proof. reflexivity. Qed.

(** The scene as the loop over the geoproducts leaves it. *)
Lemma geo_scene_get (b1 b2 : bool) (lat lon : meta.SwathProduct) :
  let scene : meta.SwathScene :=
    let s1 := if b1 then Dict.set [] PRODUCT_LATITUDE lat else [] in
    if b2 then Dict.set s1 PRODUCT_LONGITUDE lon else s1 in
  Dict.get scene PRODUCT_LATITUDE = (if b1 then Some lat else None) /\
  Dict.get scene PRODUCT_LONGITUDE = (if b2 then Some lon else None) /\
  (forall n, n <> PRODUCT_LATITUDE -> n <> PRODUCT_LONGITUDE ->
             Dict.get scene n = None).
Proof.
  assert (Hab : PRODUCT_LATITUDE <> PRODUCT_LONGITUDE) by discriminate.
  assert (Hba : PRODUCT_LONGITUDE <> PRODUCT_LATITUDE) by discriminate.
  destruct b1, b2; cbv zeta; repeat split; try intros n H1 H2;
    repeat first [ rewrite get_set_same
                 | rewrite get_set_other by congruence ];
    reflexivity.
Qed.



(** * Further properties of the code *)

(** ** The reader of one granule *)

(** X1: [handles_file] answers [True] exactly for a dataset whose [project],
    [title] and [data_model] attributes are all present and have the
    values of a MIRS image file. *)
Theorem handles_file_true_iff (nc : netCDF4.Dataset) :
  MIRSFileReader.handles_file nc = Ok true <->
  netCDF4.project nc = Some "Microwave Integrated Retrieval System" /\
  netCDF4.title nc = Some "MIRS IMG" /\
  netCDF4.data_model nc = Some "NETCDF4".
Proof.
  unfold MIRSFileReader.handles_file, netCDF4.getattr, MIRSFileReader.assert_,
    bind.
  destruct (netCDF4.project nc) as [p|];
    [destruct (String.eqb_spec p "Microwave Integrated Retrieval System")|];
    [destruct (netCDF4.title nc) as [t|];
       [destruct (String.eqb_spec t "MIRS IMG")|] | ..];
    [destruct (netCDF4.data_model nc) as [d|];
       [destruct (String.eqb_spec d "NETCDF4")|] | ..];
    split; intros H; try discriminate H;
    try (subst; intuition congruence).
Qed.

(** X2: The only exception that [handles_file] lets through is the
    [AttributeError] of the first of the three attributes that the dataset
    does not have, all the attributes before it having matched; a failed
    assertion never leaves it. *)
Theorem handles_file_raises (nc : netCDF4.Dataset) (e : exn) :
  MIRSFileReader.handles_file nc = Raise e ->
  (e = AttributeError "project" /\ netCDF4.project nc = None) \/
  (e = AttributeError "title" /\ netCDF4.title nc = None /\
   netCDF4.project nc = Some "Microwave Integrated Retrieval System") \/
  (e = AttributeError "data_model" /\ netCDF4.data_model nc = None /\
   netCDF4.project nc = Some "Microwave Integrated Retrieval System" /\
   netCDF4.title nc = Some "MIRS IMG").
Proof.
  unfold MIRSFileReader.handles_file, netCDF4.getattr, MIRSFileReader.assert_,
    bind.
  destruct (netCDF4.project nc) as [p|];
    [destruct (String.eqb_spec p "Microwave Integrated Retrieval System")|];
    [destruct (netCDF4.title nc) as [t|];
       [destruct (String.eqb_spec t "MIRS IMG")|] | ..];
    [destruct (netCDF4.data_model nc) as [d|];
       [destruct (String.eqb_spec d "NETCDF4")|] | ..];
    intros H; try discriminate H; inversion H; subst; auto 10.
Qed.

(** A netCDF file without a [project] attribute. *)
Lemma handles_file_raises_witness :
  (AttributeError "project" = AttributeError "project" /\
   netCDF4.project (foreign None "Other") = None) \/
  (AttributeError "project" = AttributeError "title" /\
   netCDF4.title (foreign None "Other") = None /\
   netCDF4.project (foreign None "Other") =
     Some "Microwave Integrated Retrieval System") \/
  (AttributeError "project" = AttributeError "data_model" /\
   netCDF4.data_model (foreign None "Other") = None /\
   netCDF4.project (foreign None "Other") =
     Some "Microwave Integrated Retrieval System" /\
   netCDF4.title (foreign None "Other") = Some "MIRS IMG").
Proof.
  apply (handles_file_raises (foreign None "Other")). reflexivity.
Defined.

Lemma getattr_ok_inv {A} (name : string) (a : option A) (x : A) :
  netCDF4.getattr name a = Ok x -> a = Some x.
Proof. destruct a; simpl; intros H; inversion H; reflexivity. Qed.

Lemma strptime_ok_inv (x : netCDF4.time_text) (t : netCDF4.datetime) :
  netCDF4.strptime x = Ok t -> x = netCDF4.Stamp t.
Proof. destruct x; simpl; intros H; inversion H; reflexivity. Qed.

(** X3: A reader that the constructor returns wraps the dataset opened at the
    real path of the file, that dataset is a MIRS image file, and every
    cached field is the attribute of the dataset it was read from. *)
Theorem reader_init_ok (fs : filesystem) (path : string)
    (r : MIRSFileReader.t) :
  MIRSFileReader.__init__ fs path = Ok r ->
  let nc := MIRSFileReader.nc_obj r in
  open_Dataset fs (realpath fs path) = Ok nc /\
  MIRSFileReader.handles_file nc = Ok true /\
  MIRSFileReader.filename r = basename path /\
  MIRSFileReader.filepath r = realpath fs path /\
  netCDF4.satellite_name nc = Some (MIRSFileReader.satellite r) /\
  netCDF4.instrument_name nc = Some (MIRSFileReader.instrument r) /\
  netCDF4.time_coverage_start nc =
    Some (netCDF4.Stamp (MIRSFileReader.begin_time r)) /\
  netCDF4.time_coverage_end nc =
    Some (netCDF4.Stamp (MIRSFileReader.end_time r)) /\
  netCDF4.geospatial_lon_resolution nc = Some (MIRSFileReader.x_res r) /\
  netCDF4.geospatial_lat_resolution nc = Some (MIRSFileReader.y_res r).
Proof.
  unfold MIRSFileReader.__init__. cbv zeta. intros H.
  apply bind_ok_inv in H. destruct H as [nc [Hopen H]].
  apply bind_ok_inv in H. destruct H as [known [Hk H]].
  destruct known; simpl negb in H; cbv iota in H; [|discriminate].
  apply bind_ok_inv in H. destruct H as [sat [Hsat H]].
  apply bind_ok_inv in H. destruct H as [ins [Hins H]].
  apply bind_ok_inv in H. destruct H as [ts [Hts H]].
  apply bind_ok_inv in H. destruct H as [bt [Hbt H]].
  apply bind_ok_inv in H. destruct H as [te [Hte H]].
  apply bind_ok_inv in H. destruct H as [et [Het H]].
  apply bind_ok_inv in H. destruct H as [xr [Hxr H]].
  apply bind_ok_inv in H. destruct H as [yr [Hyr H]].
  apply getattr_ok_inv in Hsat, Hins, Hts, Hte, Hxr, Hyr.
  apply strptime_ok_inv in Hbt, Het. subst ts te.
  inversion H; subst r; clear H. simpl.
  repeat split; assumption.
Qed.

Lemma reader_init_ok_witness :
  let r := reader "/data/g2.nc" in
  let nc := MIRSFileReader.nc_obj r in
  open_Dataset fs0 (realpath fs0 "/data/g2.nc") = Ok nc /\
  MIRSFileReader.handles_file nc = Ok true /\
  MIRSFileReader.filename r = basename "/data/g2.nc" /\
  MIRSFileReader.filepath r = realpath fs0 "/data/g2.nc" /\
  netCDF4.satellite_name nc = Some (MIRSFileReader.satellite r) /\
  netCDF4.instrument_name nc = Some (MIRSFileReader.instrument r) /\
  netCDF4.time_coverage_start nc =
    Some (netCDF4.Stamp (MIRSFileReader.begin_time r)) /\
  netCDF4.time_coverage_end nc =
    Some (netCDF4.Stamp (MIRSFileReader.end_time r)) /\
  netCDF4.geospatial_lon_resolution nc = Some (MIRSFileReader.x_res r) /\
  netCDF4.geospatial_lat_resolution nc = Some (MIRSFileReader.y_res r).
Proof.
  apply (reader_init_ok fs0 "/data/g2.nc"). vm_compute. reflexivity.
Defined.

(** A file that opens as netCDF but is not a MIRS image file makes the
    constructor raise [ValueError], whatever else the file holds. *)
Theorem reader_init_unknown_format (fs : filesystem) (path : string)
    (nc : netCDF4.Dataset) :
  open_Dataset fs (realpath fs path) = Ok nc ->
  MIRSFileReader.handles_file nc = Ok false ->
  MIRSFileReader.__init__ fs path =
  Raise (ValueError "Unknown file format for file").
Proof.
  intros Ho Hh. unfold MIRSFileReader.__init__. cbv zeta.
  rewrite Ho. cbn [bind]. rewrite Hh. reflexivity.
Qed.

Lemma reader_init_unknown_format_witness :
  MIRSFileReader.__init__ fs0 "/mixed/other.nc" =
  Raise (ValueError "Unknown file format for file").
Proof.
  apply (reader_init_unknown_format fs0 "/mixed/other.nc"
           (foreign (Some "Another project") "Other")); reflexivity.
Defined.

(** No entry of [FILE_STRUCTURE] names a fill attribute of its own, and
    only the entry of the 88.2 GHz brightness temperature has a
    frequency. *)
Lemma FILE_STRUCTURE_entry (item : string) (entry : MIRSFileReader.structure) :
  Dict.get MIRSFileReader.FILE_STRUCTURE item = Some entry ->
  MIRSFileReader.fill_attr_name entry = None /\
  (item <> BT_88_VAR -> MIRSFileReader.frequency entry = None).
Proof.
  unfold MIRSFileReader.FILE_STRUCTURE. cbn [Dict.get].
  repeat match goal with
         | |- context [String.eqb ?a item] => destruct (String.eqb_spec a item)
         end;
    intros H; inversion H; subst; split; auto; try discriminate;
    intros Hne; congruence.
Qed.

Lemma get_fill_value_eq (self : MIRSFileReader.t) (item : string) :
  MIRSFileReader.get_fill_value self item =
  match netCDF4.missing_value (MIRSFileReader.nc_obj self) with
  | Some x => Ok x
  | None => Raise (TypeError "float() argument must be a string or a number")
  end.
Proof.
  unfold MIRSFileReader.get_fill_value.
  destruct (Dict.get MIRSFileReader.FILE_STRUCTURE item) as [entry|] eqn:E;
    [|reflexivity].
  destruct (FILE_STRUCTURE_entry item entry E) as [-> _]. reflexivity.
Qed.

(** The fill value of every item, whether [FILE_STRUCTURE] knows it or
    not, is the [missing_value] attribute of the file: [get_fill_value]
    returns [f] exactly when the file declares [f], and raises [TypeError]
    exactly when the file declares none; it never looks at the variable. *)
Theorem get_fill_value_global (self : MIRSFileReader.t) (item : string) :
  (forall f,
      MIRSFileReader.get_fill_value self item = Ok f <->
      netCDF4.missing_value (MIRSFileReader.nc_obj self) = Some f) /\
  (forall e,
      MIRSFileReader.get_fill_value self item = Raise e <->
      netCDF4.missing_value (MIRSFileReader.nc_obj self) = None /\
      e = TypeError "float() argument must be a string or a number").
Proof.
  rewrite get_fill_value_eq.
  destruct (netCDF4.missing_value (MIRSFileReader.nc_obj self)) as [x|];
    split; intros; split; intros H;
    try discriminate; try (inversion H; subst; auto; fail);
    try (destruct H as [H1 H2]; congruence).
Qed.

(** X4: [__getitem__] falls back on the name of a variable of the file, but
    [get_swath_data] does not: for an item that [FILE_STRUCTURE] does not
    know it raises [KeyError] of the item, whether the file has a variable
    of that name or not. *)
Theorem get_swath_data_unknown_item (self : MIRSFileReader.t) (item : string)
    (fill : numpy.float32) :
  Dict.get MIRSFileReader.FILE_STRUCTURE item = None ->
  MIRSFileReader.get_swath_data self item fill = Raise (KeyError item).
Proof.
  intros E.
  unfold MIRSFileReader.get_swath_data, MIRSFileReader.__getitem__,
    Dict.getitem.
  rewrite E.
  destruct (Dict.get (netCDF4.variables (MIRSFileReader.nc_obj self)) item);
    reflexivity.
Qed.

(** The variable [RR] of the granule G1 is there under its own name, but
    cannot be decoded under it. *)
Lemma get_swath_data_unknown_item_witness :
  MIRSFileReader.get_swath_data (reader "/data/g1.nc") "RR" numpy.nan =
  Raise (KeyError "RR").
Proof.
  apply (get_swath_data_unknown_item (reader "/data/g1.nc") "RR").
  reflexivity.
Defined.

(** X5: The frequency axis, the latitude and the longitude have neither scale
    nor frequency: their decoded array is the variable as stored, with the
    elements equal to the fill value of the file replaced by the caller's,
    unless that fill value is zero. *)
Theorem decode_unscaled (self : MIRSFileReader.t) (item : string)
    (fill : numpy.float32) (v : netCDF4.variable) (f : numpy.float32) :
  In item [FREQ_VAR; LAT_VAR; LON_VAR] ->
  MIRSFileReader.__getitem__ self item = Ok v ->
  netCDF4.missing_value (MIRSFileReader.nc_obj self) = Some f ->
  MIRSFileReader.get_swath_data self item fill =
  Ok (if numpy.truthy f
      then numpy.where_eq_set (netCDF4.values v) f fill
      else netCDF4.values v).
Proof.
  intros Hin Hv Hf.
  assert (Hfill : MIRSFileReader.get_fill_value self item = Ok f)
    by (rewrite get_fill_value_eq, Hf; reflexivity).
  destruct Hin as [<-|[<-|[<-|[]]]].
  - exact (get_swath_data_steps self FREQ_VAR fill v
             (MIRSFileReader.mk_structure "Freq" None None None)
             (netCDF4.values v) None f Hv eq_refl eq_refl eq_refl Hfill).
  - exact (get_swath_data_steps self LAT_VAR fill v
             (MIRSFileReader.mk_structure "Latitude" None None None)
             (netCDF4.values v) None f Hv eq_refl eq_refl eq_refl Hfill).
  - exact (get_swath_data_steps self LON_VAR fill v
             (MIRSFileReader.mk_structure "Longitude" None None None)
             (netCDF4.values v) None f Hv eq_refl eq_refl eq_refl Hfill).
Qed.

Lemma decode_unscaled_witness :
  MIRSFileReader.get_swath_data (reader "/data/g3.nc") LON_VAR numpy.nan =
  Ok (if numpy.truthy (f32 (-999))
      then numpy.where_eq_set
             (netCDF4.values (swath_var 1 3 [-90; -90; -90]%Z []))
             (f32 (-999)) numpy.nan
      else netCDF4.values (swath_var 1 3 [-90; -90; -90]%Z [])).
Proof.
  apply (decode_unscaled (reader "/data/g3.nc") LON_VAR numpy.nan
           (swath_var 1 3 [-90; -90; -90]%Z []) (f32 (-999)));
    [ right; right; left; reflexivity
    | vm_compute; reflexivity
    | vm_compute; reflexivity ].
Defined.

(** X6: Decoding any item but the brightness temperature keeps the shape and
    the number of elements of the variable. *)
Theorem get_swath_data_shape (self : MIRSFileReader.t) (item : string)
    (fill : numpy.float32) (a : numpy.ndarray) :
  item <> BT_88_VAR ->
  MIRSFileReader.get_swath_data self item fill = Ok a ->
  exists v,
    MIRSFileReader.__getitem__ self item = Ok v /\
    numpy.shape a = numpy.shape (netCDF4.values v) /\
    length (numpy.data a) = length (numpy.data (netCDF4.values v)).
Proof.
  intros Hne H. unfold MIRSFileReader.get_swath_data in H.
  apply bind_ok_inv in H. destruct H as [v [Hv H]].
  apply bind_ok_inv in H. destruct H as [entry [He H]].
  unfold Dict.getitem in He.
  destruct (Dict.get MIRSFileReader.FILE_STRUCTURE item) as [entry'|] eqn:E;
    [|discriminate].
  inversion He; subst entry'; clear He.
  destruct (FILE_STRUCTURE_entry item entry E) as [_ Hfreq].
  rewrite (Hfreq Hne) in H. cbn [numpy.opt_truthy bind] in H.
  apply bind_ok_inv in H. destruct H as [file_fill [_ H]].
  apply bind_ok_inv in H. destruct H as [file_scale [_ H]].
  inversion H; subst a; clear H.
  exists v. split; [assumption|].
  destruct file_scale as [s|]; [destruct (numpy.truthy s)|];
    destruct (numpy.truthy file_fill); simpl;
    rewrite ?length_map; auto.
Qed.

Lemma get_swath_data_shape_witness :
  exists v,
    MIRSFileReader.__getitem__ (reader "/data/g1.nc") RR_VAR = Ok v /\
    numpy.shape (numpy.mk_ndarray [3; 4]
                   (map f32 [1; 2; 3; 4; 5; 6; 7; 8; 9; 10; 11]%Z ++ [numpy.nan]))
      = numpy.shape (netCDF4.values v) /\
    length (numpy.data (numpy.mk_ndarray [3; 4]
                   (map f32 [1; 2; 3; 4; 5; 6; 7; 8; 9; 10; 11]%Z ++ [numpy.nan])))
      = length (numpy.data (netCDF4.values v)).
Proof.
  apply (get_swath_data_shape (reader "/data/g1.nc") RR_VAR numpy.nan);
    [ discriminate | vm_compute; reflexivity ].
Defined.

(** A frequency axis of 165 and 183 GHz has no channel at 88.2 GHz. *)
Lemma filter_by_frequency_absent_witness :
  MIRSFileReader.filter_by_frequency
    (reader_of (with_frequencies [f32 165; f32 183])) BT_88_VAR
    (numpy.mk_ndarray [1; 1; 2] [f32 7; f32 8]) f32_88_2 =
  Raise (ValueError "Frequency for variable does not exist").
Proof.
  apply (filter_by_frequency_absent
           (reader_of (with_frequencies [f32 165; f32 183])) BT_88_VAR
           (numpy.mk_ndarray [1; 1; 2] [f32 7; f32 8]) f32_88_2
           (netCDF4.mk_variable ["Channel"]
              (numpy.mk_ndarray [2] [f32 165; f32 183]) [] None));
    [ reflexivity | vm_compute; reflexivity ].
Defined.

(** With 88.2 GHz second on the frequency axis, the slice of the second
    channel is selected on the third axis of the brightness temperature. *)
Lemma filter_by_frequency_present_witness :
  MIRSFileReader.filter_by_frequency
    (reader_of (with_frequencies [f32 165; f32_88_2])) BT_88_VAR
    (numpy.mk_ndarray [1; 2; 2] [f32 7; f32 8; f32 9; f32 10]) f32_88_2 =
  numpy.index_axis
    (numpy.mk_ndarray [1; 2; 2] [f32 7; f32 8; f32 9; f32 10]) 2 1.
Proof.
  apply (filter_by_frequency_present
           (reader_of (with_frequencies [f32 165; f32_88_2])) BT_88_VAR
           (numpy.mk_ndarray [1; 2; 2] [f32 7; f32 8; f32 9; f32 10]) f32_88_2
           (netCDF4.mk_variable ["Channel"]
              (numpy.mk_ndarray [2] [f32 165; f32_88_2]) [] None)
           (netCDF4.mk_variable ["Scanline"; "Field_of_view"; "Channel"]
              (numpy.mk_ndarray [3; 4; 2]
                 (map f32
                    (flat_map (fun x => [Z.add x 200; Z.add x 250])
                       [2; 4; 6; 8; 10; 12; 14; 16; 18; 20; 22; -1998]%Z)))
              [("scale", f32 1)] None)
           0 2 "Channel" []);
    [ reflexivity | vm_compute; reflexivity | reflexivity | reflexivity
    | reflexivity ].
Defined.

(** X9: A frequency that is on the axis more than once raises the
    [ValueError] of numpy for the truth value of an array of several
    elements, whatever the array and the item. *)
Theorem filter_by_frequency_ambiguous (self : MIRSFileReader.t)
    (item : string) (arr : numpy.ndarray) (freq : numpy.float32)
    (freq_var : netCDF4.variable) (i j : nat) (rest : list nat) :
  MIRSFileReader.__getitem__ self FREQ_VAR = Ok freq_var ->
  numpy.nonzero_eq_0 (netCDF4.values freq_var) freq = i :: j :: rest ->
  MIRSFileReader.filter_by_frequency self item arr freq =
  Raise (ValueError
           "The truth value of an array with more than one element is ambiguous").
Proof.
  intros Hvar Hidx. unfold MIRSFileReader.filter_by_frequency.
  rewrite Hvar. cbn [bind]. rewrite Hidx. reflexivity.
Qed.

Lemma filter_by_frequency_ambiguous_witness :
  MIRSFileReader.filter_by_frequency
    (reader_of (with_frequencies [f32_88_2; f32 165; f32_88_2])) BT_88_VAR
    (numpy.mk_ndarray [1; 1; 3] [f32 7; f32 8; f32 9]) f32_88_2 =
  Raise (ValueError
           "The truth value of an array with more than one element is ambiguous").
Proof.
  apply (filter_by_frequency_ambiguous
           (reader_of (with_frequencies [f32_88_2; f32 165; f32_88_2]))
           BT_88_VAR (numpy.mk_ndarray [1; 1; 3] [f32 7; f32 8; f32 9]) f32_88_2
           (netCDF4.mk_variable ["Channel"]
              (numpy.mk_ndarray [3] [f32_88_2; f32 165; f32_88_2]) [] None)
           0 2 []);
    [ reflexivity | vm_compute; reflexivity ].
Defined.

(** An object without [start_time]: a plain dictionary of attributes. *)
Lemma compare_without_attribute_witness :
  MIRSFileReader._compare (reader_of G1)
    (MIRSFileReader.Other [("begin_time", MIRSFileReader.PyDatetime 5%Z)])
    MIRSFileReader.datetime_le =
  Raise (TypeError "exceptions must derive from BaseException").
Proof.
  apply (compare_without_attribute (reader_of G1)
           [("begin_time", MIRSFileReader.PyDatetime 5%Z)]
           MIRSFileReader.datetime_le).
  reflexivity.
Defined.

Lemma compare_with_start_time_witness :
  MIRSFileReader.__lt__ (reader_of G1)
    (MIRSFileReader.Other [("start_time", MIRSFileReader.PyDatetime 5%Z)]) =
  Ok (Z.ltb (MIRSFileReader.begin_time (reader_of G1)) 5%Z).
Proof.
  apply (compare_with_start_time (reader_of G1)
           [("start_time", MIRSFileReader.PyDatetime 5%Z)] 5%Z).
  reflexivity.
Defined.

(** The granule whose rain rate has the scale 0. *)
Lemma zero_scale_no_division_witness :
  MIRSFileReader.get_swath_data (reader "/data/scale0.nc") RR_VAR numpy.nan =
  Ok (if numpy.truthy (f32 (-999))
      then numpy.where_eq_set
             (netCDF4.values (swath_var 1 2 [3; 5]%Z [("scale", f32 0)]))
             (f32 (-999)) numpy.nan
      else netCDF4.values (swath_var 1 2 [3; 5]%Z [("scale", f32 0)])).
Proof.
  apply (zero_scale_no_division (reader "/data/scale0.nc") RR_VAR numpy.nan
           (swath_var 1 2 [3; 5]%Z [("scale", f32 0)])
           (MIRSFileReader.mk_structure "RR" (Some "scale") None None)
           (f32 0) (f32 (-999)));
    vm_compute; reflexivity.
Defined.

(** The granule whose fill value is 0. *)
Lemma zero_fill_no_substitution_witness :
  MIRSFileReader.get_swath_data (reader "/data/fill0.nc") RR_VAR numpy.nan =
  Ok (match Some (f32 2) with
      | Some s =>
          if numpy.truthy s
          then numpy.divide
                 (netCDF4.values (swath_var 1 2 [0; 6]%Z [("scale", f32 2)])) s
          else netCDF4.values (swath_var 1 2 [0; 6]%Z [("scale", f32 2)])
      | None => netCDF4.values (swath_var 1 2 [0; 6]%Z [("scale", f32 2)])
      end).
Proof.
  apply (zero_fill_no_substitution (reader "/data/fill0.nc") RR_VAR numpy.nan
           (swath_var 1 2 [0; 6]%Z [("scale", f32 2)])
           (MIRSFileReader.mk_structure "RR" (Some "scale") None None)
           (Some (f32 2)) (f32 0));
    vm_compute; reflexivity.
Defined.

(** ** The ensemble *)

(** What [add_files] leaves behind: the flag is untouched, the readers
    that were there stay in front, and the readers added are those of a
    prefix of the file names, in order; on success, of all of them. *)
Lemma add_files_inv (fs : filesystem) :
  forall (fns : list string) (self self' : MIRSMultiReader.t)
         (r : result unit),
    MIRSMultiReader.add_files fs self fns = (r, self') ->
    MIRSMultiReader._files_finalized self' =
      MIRSMultiReader._files_finalized self /\
    exists pre post added,
      fns = pre ++ post /\
      Forall2 (fun fn rd => MIRSFileReader.__init__ fs fn = Ok rd) pre added /\
      MIRSMultiReader.file_readers self' =
        MIRSMultiReader.file_readers self ++ added /\
      match r with
      | Ok _ => post = []
      | Raise e =>
          exists fn rest,
            post = fn :: rest /\
            MIRSMultiReader.add_file fs self' fn = (Raise e, self')
      end.
Proof.
  induction fns as [|fn rest IH]; intros self self' r H.
  - simpl in H. inversion H; subst. split; [reflexivity|].
    exists [], [], []. repeat split; try constructor.
    now rewrite app_nil_r.
  - simpl in H.
    destruct (MIRSMultiReader.add_file fs self fn) as [[u|e] s1] eqn:E.
    + unfold MIRSMultiReader.add_file in E.
      destruct (MIRSMultiReader._files_finalized self) eqn:Ef; [discriminate|].
      destruct (MIRSFileReader.__init__ fs fn) as [rd|e] eqn:Ei;
        [|discriminate].
      inversion E; subst s1; clear E.
      apply IH in H. simpl in H.
      destruct H as [Hflag [pre [post [added [-> [Hall [Hrs Hr]]]]]]].
      split; [congruence|].
      exists (fn :: pre), post, (rd :: added).
      repeat split; auto.
      rewrite Hrs, <- app_assoc. reflexivity.
    + inversion H; subst r s1; clear H.
      assert (Hself : self' = self).
      { unfold MIRSMultiReader.add_file in E.
        destruct (MIRSMultiReader._files_finalized self);
          [inversion E; reflexivity|].
        destruct (MIRSFileReader.__init__ fs fn); inversion E; reflexivity. }
      subst self'. split; [reflexivity|].
      exists [], (fn :: rest), [].
      repeat split; [constructor | now rewrite app_nil_r |].
      exists fn, rest. auto.
Qed.

(** X11: On an open ensemble [add_files] succeeds exactly when every file name
    gives a reader, and the ensemble then holds those readers after the
    ones it had, in the order of the names, and is still open. *)
Theorem add_files_ok_iff (fs : filesystem) (fns : list string)
    (self self' : MIRSMultiReader.t) :
  MIRSMultiReader._files_finalized self = false ->
  (MIRSMultiReader.add_files fs self fns = (Ok tt, self') <->
   exists added,
     Forall2 (fun fn rd => MIRSFileReader.__init__ fs fn = Ok rd) fns added /\
     self' = MIRSMultiReader.mk (MIRSMultiReader.file_readers self ++ added)
                                false).
Proof.
  intros Hopen. split.
  - intros H. apply add_files_inv in H.
    destruct H as [Hflag [pre [post [added [-> [Hall [Hrs ->]]]]]]].
    rewrite app_nil_r. exists added. split; [assumption|].
    destruct self' as [rs fl]. simpl in *. congruence.
  - intros [added [Hall ->]]. revert self Hopen.
    induction Hall as [|fn rd fns' added' Hrd Hall IH]; intros self Hopen.
    + rewrite app_nil_r. destruct self as [rs fl]. simpl in *. now subst fl.
    + simpl. unfold MIRSMultiReader.add_file. rewrite Hopen, Hrd.
      rewrite (IH (MIRSMultiReader.mk (MIRSMultiReader.file_readers self ++ [rd])
                                      false) eq_refl).
      simpl. now rewrite <- app_assoc.
Qed.

Lemma add_files_ok_iff_witness :
  MIRSMultiReader.add_files fs0 (ensemble ["/data/g1.nc"])
    ["/data/g2.nc"; "/data/g3.nc"] =
  (Ok tt,
   MIRSMultiReader.mk
     (MIRSMultiReader.file_readers (ensemble ["/data/g1.nc"])
      ++ [reader "/data/g2.nc"; reader "/data/g3.nc"]) false).
Proof.
  apply (add_files_ok_iff fs0 ["/data/g2.nc"; "/data/g3.nc"]
           (ensemble ["/data/g1.nc"])); [reflexivity|].
  exists [reader "/data/g2.nc"; reader "/data/g3.nc"].
  split; [|reflexivity].
  repeat constructor.
Defined.

(** X12: When [add_files] raises, the readers of the files before the failing
    one have been added and stay in the ensemble, no file after it is
    looked at, and the exception is the one [add_file] raises for the
    failing file. *)
Theorem add_files_raises (fs : filesystem) (fns : list string)
    (self self' : MIRSMultiReader.t) (e : exn) :
  MIRSMultiReader.add_files fs self fns = (Raise e, self') ->
  exists pre fn rest added,
    fns = pre ++ fn :: rest /\
    Forall2 (fun fn rd => MIRSFileReader.__init__ fs fn = Ok rd) pre added /\
    self' = MIRSMultiReader.mk (MIRSMultiReader.file_readers self ++ added)
                               (MIRSMultiReader._files_finalized self) /\
    MIRSMultiReader.add_file fs self' fn = (Raise e, self').
Proof.
  intros H. apply add_files_inv in H.
  destruct H as [Hflag [pre [post [added [-> [Hall [Hrs [fn [rest [-> Hfn]]]]]]]]]].
  exists pre, fn, rest, added. repeat split; auto.
  destruct self' as [rs fl]. simpl in *. congruence.
Qed.

(** The second of three files is not a granule: the reader of the first
    has been added, the third was not opened. *)
Lemma add_files_raises_witness :
  exists pre fn rest added,
    ["/data/g1.nc"; "/mixed/other.nc"; "/data/g2.nc"] = pre ++ fn :: rest /\
    Forall2 (fun fn rd => MIRSFileReader.__init__ fs0 fn = Ok rd) pre added /\
    ensemble ["/data/g1.nc"] =
      MIRSMultiReader.mk
        (MIRSMultiReader.file_readers (MIRSMultiReader.mk [] false) ++ added)
        (MIRSMultiReader._files_finalized (MIRSMultiReader.mk [] false)) /\
    MIRSMultiReader.add_file fs0 (ensemble ["/data/g1.nc"]) fn =
      (Raise (ValueError "Unknown file format for file"),
       ensemble ["/data/g1.nc"]).
Proof.
  apply (add_files_raises fs0
           ["/data/g1.nc"; "/mixed/other.nc"; "/data/g2.nc"]
           (MIRSMultiReader.mk [] false)).
  vm_compute. reflexivity.
Defined.

(** X13: The constructor of the ensemble, given one file name whose file is a
    granule, returns the finalized ensemble of that one reader. *)
Theorem multi_init_single (fs : filesystem) (fn : string)
    (r : MIRSFileReader.t) :
  MIRSFileReader.__init__ fs fn = Ok r ->
  MIRSMultiReader.__init__ fs (Some [fn]) = Ok (MIRSMultiReader.mk [r] true).
Proof.
  intros H. unfold MIRSMultiReader.__init__. cbv zeta.
  cbn [MIRSMultiReader.add_files]. unfold MIRSMultiReader.add_file.
  cbn [MIRSMultiReader._files_finalized]. rewrite H. reflexivity.
Qed.

Lemma multi_init_single_witness :
  MIRSMultiReader.__init__ fs0 (Some ["/data/g3.nc"]) =
  Ok (MIRSMultiReader.mk [reader "/data/g3.nc"] true).
Proof.
  apply (multi_init_single fs0 "/data/g3.nc"). vm_compute. reflexivity.
Defined.

(** X14: The constructor of the ensemble never returns an ensemble of two or
    more file names: either one of the files does not give a reader, and
    the exception of that file is raised, or sorting the readers raises
    [TypeError]. *)
Theorem multi_init_many (fs : filesystem) (fns : list string) :
  (2 <= length fns)%nat ->
  MIRSMultiReader.__init__ fs (Some fns) =
    Raise (TypeError "exceptions must derive from BaseException") \/
  exists fn e,
    In fn fns /\
    MIRSFileReader.__init__ fs fn = Raise e /\
    MIRSMultiReader.__init__ fs (Some fns) = Raise e.
Proof.
  intros Hlen. unfold MIRSMultiReader.__init__. cbv zeta.
  destruct fns as [|fn0 fns0]; [simpl in Hlen; lia|].
  destruct (MIRSMultiReader.add_files fs (MIRSMultiReader.mk [] false)
              (fn0 :: fns0)) as [[u|e] self'] eqn:E;
    apply add_files_inv in E;
    destruct E as [Hflag [pre [post [added [Hfns [Hall [Hrs Hr]]]]]]].
  - left. subst post. rewrite app_nil_r in Hfns. subst pre.
    unfold MIRSMultiReader.finalize_files.
    rewrite (sorted_raises _
               (TypeError "exceptions must derive from BaseException"));
      [reflexivity | intros; reflexivity |].
    rewrite Hrs. simpl. rewrite <- (Forall2_length Hall). exact Hlen.
  - right. destruct Hr as [fn [rest [-> Hfn]]].
    exists fn, e. split; [rewrite Hfns; apply in_elt|]. split; [|reflexivity].
    unfold MIRSMultiReader.add_file in Hfn. simpl in Hflag.
    rewrite Hflag in Hfn.
    destruct (MIRSFileReader.__init__ fs fn) as [rd|e']; inversion Hfn.
    reflexivity.
Qed.

(** Three granules, each of which opens. *)
Lemma multi_init_many_witness :
  MIRSMultiReader.__init__ fs0
    (Some ["/data/g1.nc"; "/data/g2.nc"; "/data/g3.nc"]) =
    Raise (TypeError "exceptions must derive from BaseException") \/
  exists fn e,
    In fn ["/data/g1.nc"; "/data/g2.nc"; "/data/g3.nc"] /\
    MIRSFileReader.__init__ fs0 fn = Raise e /\
    MIRSMultiReader.__init__ fs0
      (Some ["/data/g1.nc"; "/data/g2.nc"; "/data/g3.nc"]) = Raise e.
Proof.
  apply (multi_init_many fs0 ["/data/g1.nc"; "/data/g2.nc"; "/data/g3.nc"]).
  simpl. lia.
Defined.

(** Two granules in the order of their begin times. *)
Lemma finalize_files_raises_witness :
  MIRSMultiReader.finalize_files (ensemble ["/data/g1.nc"; "/data/g2.nc"]) =
  (Raise (TypeError "exceptions must derive from BaseException"),
   ensemble ["/data/g1.nc"; "/data/g2.nc"]).
Proof.
  apply (finalize_files_raises (ensemble ["/data/g1.nc"; "/data/g2.nc"])).
  vm_compute. lia.
Defined.

(** X15: [finalize_files] succeeds exactly on an ensemble of at most one
    reader, which it marks as finalized without touching the readers; so
    an ensemble that was finalized has at most one reader. *)
Theorem finalize_files_ok_iff (self self' : MIRSMultiReader.t) :
  MIRSMultiReader.finalize_files self = (Ok tt, self') <->
  (MIRSMultiReader.__len__ self <= 1)%nat /\
  self' = MIRSMultiReader.mk (MIRSMultiReader.file_readers self) true.
Proof.
  destruct self as [rs fl]. unfold MIRSMultiReader.__len__. simpl.
  destruct rs as [|r [|r' rs']].
  - unfold MIRSMultiReader.finalize_files. simpl. split.
    + intros H. inversion H. split; [lia | reflexivity].
    + intros [_ ->]. reflexivity.
  - unfold MIRSMultiReader.finalize_files. simpl. split.
    + intros H. inversion H. split; [lia | reflexivity].
    + intros [_ ->]. reflexivity.
  - unfold MIRSMultiReader.finalize_files.
    rewrite (sorted_raises _
               (TypeError "exceptions must derive from BaseException"));
      [| intros; reflexivity | simpl; lia].
    split; [discriminate | simpl; lia].
Qed.

Lemma rev_last {A} (d : A) (l : list A) :
  l <> [] -> exists l', rev l = last l d :: l'.
Proof.
  intros Hne. destruct (exists_last Hne) as [l0 [a ->]].
  rewrite rev_app_distr, last_last. simpl. eauto.
Qed.

(** The satellite, the instrument, the begin time and the resolutions of
    an ensemble are those of its first reader, and the end time is that of
    its last reader. *)
Theorem ensemble_properties (self : MIRSMultiReader.t)
    (d : MIRSFileReader.t) :
  MIRSMultiReader.file_readers self <> [] ->
  let first := hd d (MIRSMultiReader.file_readers self) in
  let final := last (MIRSMultiReader.file_readers self) d in
  MIRSMultiReader.satellite self = Ok (MIRSFileReader.satellite first) /\
  MIRSMultiReader.instrument self = Ok (MIRSFileReader.instrument first) /\
  MIRSMultiReader.begin_time self = Ok (MIRSFileReader.begin_time first) /\
  MIRSMultiReader.end_time self = Ok (MIRSFileReader.end_time final) /\
  MIRSMultiReader.x_res self = Ok (MIRSFileReader.x_res first) /\
  MIRSMultiReader.y_res self = Ok (MIRSFileReader.y_res first).
Proof.
  intros Hne. cbv zeta.
  unfold MIRSMultiReader.satellite, MIRSMultiReader.instrument,
    MIRSMultiReader.begin_time, MIRSMultiReader.end_time,
    MIRSMultiReader.x_res, MIRSMultiReader.y_res, MIRSMultiReader.first.
  destruct (rev_last d _ Hne) as [l' ->].
  destruct (MIRSMultiReader.file_readers self) as [|r rs]; [congruence|].
  repeat split.
Qed.

(** Over the granules G1 and G2 the ensemble begins with G1 and ends with
    G2. *)
Lemma ensemble_properties_witness :
  let self := ensemble ["/data/g1.nc"; "/data/g2.nc"] in
  MIRSMultiReader.begin_time self = Ok 0%Z /\
  MIRSMultiReader.end_time self = Ok 600%Z.
Proof.
  cbv zeta.
  destruct (ensemble_properties (ensemble ["/data/g1.nc"; "/data/g2.nc"])
              (reader_of G1)) as [_ [_ [Hb [He _]]]];
    [vm_compute; discriminate|].
  split; [exact Hb | exact He].
Defined.

(** Without file names, or with an empty list of them, the constructor
    returns an ensemble that has no reader and is not finalized, so files
    can still be added; reading any of its properties raises
    [IndexError]. *)
Theorem multi_init_empty (fs : filesystem) (filenames : option (list string)) :
  filenames = None \/ filenames = Some [] ->
  exists self,
    MIRSMultiReader.__init__ fs filenames = Ok self /\
    MIRSMultiReader.__len__ self = 0 /\
    MIRSMultiReader._files_finalized self = false /\
    (forall fn r,
        MIRSFileReader.__init__ fs fn = Ok r ->
        MIRSMultiReader.add_file fs self fn =
        (Ok tt, MIRSMultiReader.mk [r] false)) /\
    let e := IndexError "list index out of range" in
    MIRSMultiReader.satellite self = Raise e /\
    MIRSMultiReader.instrument self = Raise e /\
    MIRSMultiReader.begin_time self = Raise e /\
    MIRSMultiReader.end_time self = Raise e /\
    MIRSMultiReader.x_res self = Raise e /\
    MIRSMultiReader.y_res self = Raise e.
Proof.
  intros [-> | ->]; exists (MIRSMultiReader.mk [] false);
    (repeat split; try reflexivity);
    intros fn r Hr; unfold MIRSMultiReader.add_file; simpl; now rewrite Hr.
Qed.

Lemma multi_init_empty_witness :
  exists self,
    MIRSMultiReader.__init__ fs0 (Some []) = Ok self /\
    MIRSMultiReader.__len__ self = 0 /\
    MIRSMultiReader._files_finalized self = false /\
    (forall fn r,
        MIRSFileReader.__init__ fs0 fn = Ok r ->
        MIRSMultiReader.add_file fs0 self fn =
        (Ok tt, MIRSMultiReader.mk [r] false)) /\
    let e := IndexError "list index out of range" in
    MIRSMultiReader.satellite self = Raise e /\
    MIRSMultiReader.instrument self = Raise e /\
    MIRSMultiReader.begin_time self = Raise e /\
    MIRSMultiReader.end_time self = Raise e /\
    MIRSMultiReader.x_res self = Raise e /\
    MIRSMultiReader.y_res self = Raise e.
Proof.
  apply (multi_init_empty fs0 (Some [])). right. reflexivity.
Defined.

(** The loop of [write_var_to_flat_binary] up to a reader whose variable
    cannot be decoded. *)
Lemma append_all_raises (item : string) (r : MIRSFileReader.t)
    (post : list MIRSFileReader.t) (e : exn) :
  MIRSFileReader.get_swath_data r item numpy.nan = Raise e ->
  forall (pre : list MIRSFileReader.t) (arrays : list numpy.ndarray),
    Forall2 (fun r a => MIRSFileReader.get_swath_data r item numpy.nan = Ok a)
            pre arrays ->
    Forall (fun a => numpy.shape a <> []) arrays ->
    forall file_appender,
    exists shape,
      MIRSMultiReader.append_all (pre ++ r :: post) item file_appender =
      (Raise e,
       FileAppender.mk
         (FileAppender.F file_appender ++ concat (map numpy.data arrays))
         shape).
Proof.
  intros Hr pre arrays Hall.
  induction Hall as [|r0 a pre' arrays' Ha Hall IH]; intros Hshape app.
  - simpl. rewrite Hr, app_nil_r. destruct app as [F shape]. eauto.
  - simpl. rewrite Ha. unfold FileAppender.append.
    pose proof (Forall_inv Hshape) as Hsa. simpl in Hsa.
    destruct (numpy.shape a) as [|rows cols]; [congruence|].
    destruct (IH (Forall_inv_tail Hshape)
                 (FileAppender.mk (FileAppender.F app ++ numpy.data a)
                    ((hd 0 (FileAppender.shape app) + rows) :: cols)))
      as [shape ->].
    exists shape. simpl. now rewrite <- app_assoc.
Qed.

(** X16: When the variable of one reader cannot be decoded,
    [write_var_to_flat_binary] raises the exception of that reader, and
    the file it opened is left with the arrays of the readers before it;
    the readers after it are not decoded. *)
Theorem write_var_to_flat_binary_raises (self : MIRSMultiReader.t)
    (item filename : string) (out : outputs)
    (pre post : list MIRSFileReader.t) (r : MIRSFileReader.t)
    (arrays : list numpy.ndarray) (e : exn) :
  MIRSMultiReader.file_readers self = pre ++ r :: post ->
  Forall2 (fun r a => MIRSFileReader.get_swath_data r item numpy.nan = Ok a)
          pre arrays ->
  Forall (fun a => numpy.shape a <> []) arrays ->
  MIRSFileReader.get_swath_data r item numpy.nan = Raise e ->
  MIRSMultiReader.write_var_to_flat_binary self item filename out =
  (Raise e, out ++ [(filename, concat (map numpy.data arrays))]).
Proof.
  intros Hrs Hall Hshape Hr.
  unfold MIRSMultiReader.write_var_to_flat_binary. rewrite Hrs.
  destruct (append_all_raises item r post e Hr pre arrays Hall Hshape
              FileAppender.__init__) as [shape ->].
  reflexivity.
Qed.

(** The second of two granules has no rain rate: the file of the rain
    rate is left with the three rows of the first. *)
Lemma write_var_to_flat_binary_raises_witness :
  MIRSMultiReader.write_var_to_flat_binary
    (MIRSMultiReader.mk [reader_of G1; reader_of G_no_RR; reader_of G2] false)
    RR_VAR "rain_rate.dat" [] =
  (Raise (KeyError "RR"),
   [] ++ [("rain_rate.dat",
           concat (map numpy.data
                     [numpy.mk_ndarray [3; 4]
                        (map f32 [1; 2; 3; 4; 5; 6; 7; 8; 9; 10; 11]%Z
                         ++ [numpy.nan])]))]).
Proof.
  apply (write_var_to_flat_binary_raises
           (MIRSMultiReader.mk [reader_of G1; reader_of G_no_RR; reader_of G2]
                               false)
           RR_VAR "rain_rate.dat" [] [reader_of G1] [reader_of G2]
           (reader_of G_no_RR)).
  - reflexivity.
  - constructor; [vm_compute; reflexivity | constructor].
  - constructor; [discriminate | constructor].
  - vm_compute. reflexivity.
Defined.

(** ** Discovery *)

Lemma get_file_type_inv (fs : filesystem) (fp k : string) :
  get_file_type fs fp = Ok (Some k) ->
  k = FT_IMG /\ endswith fp ".nc" = true /\
  exists nc,
    open_Dataset fs fp = Ok nc /\ MIRSFileReader.handles_file nc = Ok true.
Proof.
  unfold get_file_type. destruct (endswith fp ".nc"); simpl; [|discriminate].
  intros H. apply bind_ok_inv in H. destruct H as [nc [Hopen H]].
  cbn [first_handler FILE_CLASSES class_handles_file] in H.
  unfold MIRSMultiReader.handles_file in H.
  apply bind_ok_inv in H. destruct H as [handled [Hh H]].
  destruct handled; inversion H. eauto.
Qed.

(** X17: [get_file_type] classifies a path as a MIRS image file, the only kind
    there is, exactly when the path ends in [.nc], opens as netCDF and
    passes [handles_file]. *)
Theorem get_file_type_some_iff (fs : filesystem) (fp k : string) :
  get_file_type fs fp = Ok (Some k) <->
  k = FT_IMG /\ endswith fp ".nc" = true /\
  exists nc,
    open_Dataset fs fp = Ok nc /\ MIRSFileReader.handles_file nc = Ok true.
Proof.
  split; [apply get_file_type_inv|].
  intros [-> [Hnc [nc [Hopen Hh]]]].
  unfold get_file_type. rewrite Hnc, Hopen. simpl negb. cbn [bind].
  cbn [first_handler FILE_CLASSES class_handles_file].
  unfold MIRSMultiReader.handles_file. rewrite Hh. reflexivity.
Qed.

(** A path that ends in [.nc] and that the netCDF library cannot open
    makes [get_file_type] raise the exception of the library: the path is
    not skipped. *)
Theorem get_file_type_unopenable (fs : filesystem) (fp : string) (e : exn) :
  endswith fp ".nc" = true ->
  open_Dataset fs fp = Raise e ->
  get_file_type fs fp = Raise e.
Proof.
  intros Hnc Hopen. unfold get_file_type. rewrite Hnc, Hopen. reflexivity.
Qed.

Lemma get_file_type_unopenable_witness :
  get_file_type fs1 "/solo/readme.nc" =
  Raise (RuntimeError "NetCDF: Unknown file format").
Proof.
  apply (get_file_type_unopenable fs1 "/solo/readme.nc"); reflexivity.
Defined.

Lemma find_in_dir_found (fs : filesystem) (p : string) :
  forall entries found,
    Frontend.find_in_dir fs p entries = Ok found ->
    Forall (fun kp =>
              fst kp = FT_IMG /\
              exists fp, snd kp = realpath fs fp /\
                         get_file_type fs fp = Ok (Some FT_IMG))
           found.
Proof.
  induction entries as [|fn rest IH]; simpl; intros found H.
  - inversion H. constructor.
  - apply bind_ok_inv in H. destruct H as [ft [Hft H]].
    apply bind_ok_inv in H. destruct H as [more [Hmore H]].
    inversion H; subst found; clear H.
    destruct ft as [k|]; [|now apply IH].
    destruct (get_file_type_inv _ _ _ Hft) as [-> _].
    constructor; [|now apply IH]. simpl. eauto.
Qed.

Lemma find_all_files_inv (fs : filesystem) :
  forall search_paths found,
    Frontend.find_all_files fs search_paths = Ok found ->
    Forall (fun kp =>
              fst kp = FT_IMG /\
              exists fp, snd kp = realpath fs fp /\
                         get_file_type fs fp = Ok (Some FT_IMG))
           found.
Proof.
  induction search_paths as [|p rest IH]; simpl; intros found H.
  - inversion H. constructor.
  - apply bind_ok_inv in H. destruct H as [here [Hhere H]].
    apply bind_ok_inv in H. destruct H as [more [Hmore H]].
    inversion H; subst found; clear H.
    apply Forall_app. split; [|now apply IH].
    destruct (isdir fs p); [now apply (find_in_dir_found fs p _ _ Hhere)|].
    destruct (isfile fs p); [|inversion Hhere; constructor].
    apply bind_ok_inv in Hhere. destruct Hhere as [ft [Hft Hhere]].
    inversion Hhere; subst here; clear Hhere.
    destruct ft as [k|]; [|constructor].
    destruct (get_file_type_inv _ _ _ Hft) as [-> _].
    constructor; [|constructor]. simpl. eauto.
Qed.

(** X18: Everything [find_all_files] yields is a pair of the kind [MIRS_IMG]
    and the real path of a candidate whose name ends in [.nc] and that
    [get_file_type] classified as such. *)
Theorem find_all_files_found (fs : filesystem) (search_paths : list string)
    (found : list (string * string)) (k path : string) :
  Frontend.find_all_files fs search_paths = Ok found ->
  In (k, path) found ->
  k = FT_IMG /\
  exists fp,
    path = realpath fs fp /\ endswith fp ".nc" = true /\
    get_file_type fs fp = Ok (Some FT_IMG).
Proof.
  intros H Hin. apply find_all_files_inv in H.
  rewrite Forall_forall in H. destruct (H _ Hin) as [Hk [fp [Hp Hft]]].
  simpl in Hk, Hp. split; [assumption|]. exists fp. split; [assumption|].
  split; [|assumption]. now apply (get_file_type_inv fs fp FT_IMG).
Qed.

(** A directory with a granule and two other files, a path that does not
    exist, and a granule named by itself. *)
Lemma find_all_files_found_witness :
  FT_IMG = FT_IMG /\
  exists fp,
    "/data/g2.nc" = realpath fs0 fp /\ endswith fp ".nc" = true /\
    get_file_type fs0 fp = Ok (Some FT_IMG).
Proof.
  apply (find_all_files_found fs0 ["/mixed"; "/nowhere"; "/data/g2.nc"]
           [(FT_IMG, "/mixed/good.nc"); (FT_IMG, "/data/g2.nc")]).
  - vm_compute. reflexivity.
  - right. left. reflexivity.
Defined.

(** Searching a list of paths is searching its parts one after the other:
    the files found are those of the first part followed by those of the
    second, and an exception in the first part ends the search. *)
Theorem find_all_files_app (fs : filesystem) (l1 l2 : list string) :
  Frontend.find_all_files fs (l1 ++ l2) =
  (found1 <- Frontend.find_all_files fs l1 ;;
   found2 <- Frontend.find_all_files fs l2 ;;
   Ok (found1 ++ found2)).
Proof.
  induction l1 as [|p rest IH]; simpl.
  - destruct (Frontend.find_all_files fs l2); reflexivity.
  - match goal with
    | |- bind ?c _ = _ => destruct c as [here|e]; [|reflexivity]
    end.
    simpl. rewrite IH.
    destruct (Frontend.find_all_files fs rest) as [f1|e]; [|reflexivity].
    simpl.
    destruct (Frontend.find_all_files fs l2) as [f2|e]; [|reflexivity].
    simpl. now rewrite app_assoc.
Qed.

Lemma fold_recognize_one (k : string) (found : list (string * string)) :
  Forall (fun kp => fst kp = k) found ->
  forall acc,
    fold_left Frontend.recognize found [(k, acc)] =
    [(k, acc ++ map snd found)].
Proof.
  induction 1 as [|[k' fp] rest Hk Hall IH]; intros acc; simpl.
  - now rewrite app_nil_r.
  - simpl in Hk. subst k'.
    unfold Dict.contains. simpl. rewrite !String.eqb_refl. simpl.
    rewrite !String.eqb_refl. rewrite IH, <- app_assoc. reflexivity.
Qed.

(** X19: When the search ends without exception, the frontend is built exactly
    when something was found, and its mapping then has the one key
    [MIRS_IMG], with every path found, in the order of discovery; without
    search paths, or with an empty list of them, the current directory is
    searched. *)
Theorem init_recognized_files (fs : filesystem)
    (search_paths : option (list string)) (found : list (string * string)) :
  Frontend.find_all_files fs
    (match search_paths with
     | Some (p :: l) => p :: l
     | _ => ["."]
     end) = Ok found ->
  Frontend.__init__ fs search_paths =
  match found with
  | [] => Raise (RuntimeError "No useable files provided or found")
  | _ :: _ => Ok (Frontend.mk [(FT_IMG, map snd found)])
  end.
Proof.
  intros H. pose proof (find_all_files_inv fs _ _ H) as Hall.
  unfold Frontend.__init__. cbv zeta.
  replace (match search_paths with
           | Some ((_ :: _) as l) => l
           | _ => ["."]
           end)
    with (match search_paths with
          | Some (p :: l) => p :: l
          | _ => ["."]
          end)
    by (destruct search_paths as [[|p l]|]; reflexivity).
  rewrite H. cbn [bind].
  destruct found as [|[k fp] rest]; [reflexivity|].
  pose proof (Forall_inv Hall) as [Hk _]. simpl in Hk. subst k.
  assert (Hrest : Forall (fun kp : string * string => fst kp = FT_IMG) rest).
  { apply Forall_inv_tail in Hall. revert Hall. apply Forall_impl.
    intros kp [Hk _]. exact Hk. }
  cbn [fold_left].
  change (Frontend.recognize [] (FT_IMG, fp)) with [(FT_IMG, [fp])].
  rewrite (fold_recognize_one FT_IMG rest Hrest). reflexivity.
Qed.

(** A directory with a granule and two other files, then a granule named
    by itself. *)
Lemma init_recognized_files_witness :
  Frontend.__init__ fs0 (Some ["/mixed"; "/data/g2.nc"]) =
  match [(FT_IMG, "/mixed/good.nc"); (FT_IMG, "/data/g2.nc")] with
  | [] => Raise (RuntimeError "No useable files provided or found")
  | _ :: _ =>
      Ok (Frontend.mk
            [(FT_IMG,
              map snd [(FT_IMG, "/mixed/good.nc"); (FT_IMG, "/data/g2.nc")])])
  end.
Proof.
  apply (init_recognized_files fs0 (Some ["/mixed"; "/data/g2.nc"])).
  vm_compute. reflexivity.
Defined.

(** ** Scenes *)

Lemma create_scene_nprocs_witness :
  Frontend.create_scene PRODUCTS dedup fs0 frontend_one None 4 [] =
  (Raise (NotImplementedError
            "The MIRS frontend does not support multiple processes yet"),
   []).
Proof.
  apply (create_scene_nprocs PRODUCTS dedup fs0 frontend_one None 4 []).
  discriminate.
Defined.

(** The products that a request without names asks for are the products
    of the registry that have no dependencies and are not geoproducts. *)
Theorem available_product_names_iff (P : Dict.t MIRSProductDefiniton)
    (n : string) :
  In n (Frontend.available_product_names P) <->
  exists def,
    In (n, def) P /\ dependencies def = [] /\ is_geoproduct def = false.
Proof.
  unfold Frontend.available_product_names. rewrite in_map_iff. split.
  - intros [[n' def] [Hn Hin]]. simpl in Hn. subst n'.
    apply filter_In in Hin. destruct Hin as [Hin Hf]. simpl in Hf.
    exists def. destruct (dependencies def); [|discriminate].
    destruct (is_geoproduct def); [discriminate|]. auto.
  - intros [def [Hin [Hd Hg]]]. exists (n, def). split; [reflexivity|].
    apply filter_In. split; [assumption|]. simpl. now rewrite Hd, Hg.
Qed.

Lemma get_of_In {V} (d : Dict.t V) (k : string) (v : V) :
  NoDup (Dict.keys d) -> In (k, v) d -> Dict.get d k = Some v.
Proof.
  induction d as [|[k' v'] d IH]; simpl; intros Hnd Hin; [contradiction|].
  inversion Hnd as [|? ? Hnotin Hnd']; subst.
  destruct Hin as [E|Hin].
  - inversion E; subst. now rewrite String.eqb_refl.
  - destruct (String.eqb_spec k' k) as [->|Hne]; [|now apply IH].
    exfalso. apply Hnotin. unfold Dict.keys.
    change k with (fst (k, v)). now apply in_map.
Qed.

Lemma raw_products_of_known (P : Dict.t MIRSProductDefiniton) :
  forall products,
    (forall n, In n products ->
       exists def, Dict.get P n = Some def /\ dependencies def = []) ->
    Frontend.raw_products_of P products = Ok products.
Proof.
  induction products as [|n rest IH]; intros Hall; [reflexivity|].
  simpl. destruct (Hall n (or_introl eq_refl)) as [def [Hget Hdep]].
  unfold Dict.getitem. rewrite Hget. simpl. rewrite Hdep.
  rewrite IH by (intros m Hm; apply Hall; now right). reflexivity.
Qed.

(** Adding products keeps the names of a registry distinct. *)
Lemma set_keys_NoDup {V} (d : Dict.t V) (k : string) (v : V) :
  NoDup (Dict.keys d) -> NoDup (Dict.keys (Dict.set d k v)).
Proof.
  induction d as [|[k' v'] d IH]; simpl; intros Hnd.
  - constructor; [intros []|constructor].
  - inversion Hnd as [|? ? Hnotin Hnd']; subst.
    destruct (String.eqb_spec k' k) as [->|Hne]; simpl; [assumption|].
    constructor; [|now apply IH].
    intros Hin. apply Hnotin. clear -Hin Hne.
    induction d as [|[k0 v0] d IH]; simpl in *.
    + destruct Hin as [E|[]]. congruence.
    + destruct (String.eqb k0 k); simpl in Hin; destruct Hin as [E|Hin]; auto.
Qed.

(** X21: A request without names passes the stage of the dependencies, whatever
    the registry holds: the products it asks for are the available ones,
    in the order of the set. *)
Theorem default_request_resolves (P : Dict.t MIRSProductDefiniton)
    (list_set : list string -> list string) :
  NoDup (Dict.keys P) ->
  (forall l x, In x (list_set l) <-> In x l) ->
  Frontend.raw_products_of P (list_set (Frontend.available_product_names P)) =
  Ok (list_set (Frontend.available_product_names P)).
Proof.
  intros Hnd Hset. apply raw_products_of_known. intros n Hn.
  apply Hset, available_product_names_iff in Hn.
  destruct Hn as [def [Hin [Hd _]]]. exists def. split; [|assumption].
  now apply get_of_In.
Qed.

(** The registry with the product that depends on the rain rate: the
    request without names leaves that product out. *)
Lemma default_request_resolves_witness :
  Frontend.raw_products_of PRODUCTS_with_dependent
    (dedup (Frontend.available_product_names PRODUCTS_with_dependent)) =
  Ok (dedup (Frontend.available_product_names PRODUCTS_with_dependent)).
Proof.
  apply (default_request_resolves PRODUCTS_with_dependent dedup).
  - unfold PRODUCTS_with_dependent, PRODUCTS, add_product. cbv zeta.
    repeat apply set_keys_NoDup. constructor.
  - exact dedup_In.
Defined.

(** X20: Whatever exception [get_file_type] raises for an entry of a directory
    ends the discovery with that exception, also when entries before it
    were classified, and whatever search paths follow. *)
Theorem discovery_aborts (fs : filesystem) (dir fn : string)
    (pre post : list string) (e : exn) :
  isdir fs dir = true ->
  listdir fs dir = pre ++ fn :: post ->
  Forall (fun x => exists r, get_file_type fs (join dir x) = Ok r) pre ->
  get_file_type fs (join dir fn) = Raise e ->
  forall rest, Frontend.__init__ fs (Some (dir :: rest)) = Raise e.
Proof.
  intros Hdir Hls Hpre Hfn rest.
  assert (Hin : Frontend.find_in_dir fs dir (pre ++ fn :: post) = Raise e).
  { clear Hls. induction Hpre as [|x pre' [r Hx] Hpre IH];
      cbn [app Frontend.find_in_dir].
    - now rewrite Hfn.
    - rewrite Hx. cbn [bind]. now rewrite IH. }
  unfold Frontend.__init__. cbv zeta. cbn [Frontend.find_all_files].
  rewrite Hdir, Hls, Hin. reflexivity.
Qed.

(** The directory [/solo]: the granule is classified, then the file that
    does not open ends the discovery. *)
Lemma discovery_aborts_witness :
  Frontend.__init__ fs1 (Some ["/solo"; "/two"]) =
  Raise (RuntimeError "NetCDF: Unknown file format").
Proof.
  apply (discovery_aborts fs1 "/solo" "readme.nc" ["a.nc"] []).
  - reflexivity.
  - reflexivity.
  - constructor; [|constructor]. exists (Some FT_IMG). vm_compute. reflexivity.
  - vm_compute. reflexivity.
Defined.

Lemma raw_products_of_unknown (P : Dict.t MIRSProductDefiniton) :
  (forall q def, Dict.get P q = Some def -> dependencies def = []) ->
  forall products p,
    In p products -> Dict.get P p = None ->
    exists q,
      In q products /\ Dict.get P q = None /\
      Frontend.raw_products_of P products = Raise (KeyError q).
Proof.
  intros Hnodeps. induction products as [|p0 rest IH]; intros p Hin Hp;
    [contradiction|].
  simpl. unfold Dict.getitem.
  destruct (Dict.get P p0) as [def|] eqn:E0.
  - simpl. rewrite (Hnodeps p0 def E0).
    destruct Hin as [->|Hin]; [congruence|].
    destruct (IH p Hin Hp) as [q [Hq [Hnone ->]]].
    exists q. auto.
  - exists p0. auto.
Qed.

(** X22: With a registry in which no product has dependencies, as the one the
    module ships, a request that names a product the registry does not
    have raises [KeyError] of such a name before any file is read or
    written. *)
Theorem create_scene_unknown_product (P : Dict.t MIRSProductDefiniton)
    (list_set : list string -> list string) (fs : filesystem)
    (self : Frontend.t) (products : list string) (p : string)
    (out : outputs) :
  (forall q def, Dict.get P q = Some def -> dependencies def = []) ->
  (forall l x, In x (list_set l) <-> In x l) ->
  In p products ->
  Dict.get P p = None ->
  exists q,
    In q products /\ Dict.get P q = None /\
    Frontend.create_scene P list_set fs self (Some products) 1 out =
    (Raise (KeyError q), out).
Proof.
  intros Hnodeps Hset Hin Hp.
  destruct (raw_products_of_unknown P Hnodeps (list_set products) p)
    as [q [Hq [Hnone Hraw]]]; [now apply Hset | assumption |].
  exists q. split; [now apply Hset|]. split; [assumption|].
  unfold Frontend.create_scene. simpl negb. cbv iota.
  unfold io_bind at 1, io_lift at 1. now rewrite Hraw.
Qed.

Lemma PRODUCTS_no_dependencies (q : string) (def : MIRSProductDefiniton) :
  Dict.get PRODUCTS q = Some def -> dependencies def = [].
Proof.
  change PRODUCTS with
    [ (PRODUCT_RAIN_RATE,
       mk_product PRODUCT_RAIN_RATE "rain_rate" FT_IMG RR_VAR [] "Rain Rate"
                  "mm/hr" false);
      (PRODUCT_BT_88,
       mk_product PRODUCT_BT_88 "btemp" FT_IMG BT_88_VAR []
                  "Channel Brightness Temperature at 88.2GHz" "K" false);
      (PRODUCT_LATITUDE,
       mk_product PRODUCT_LATITUDE "latitude" FT_IMG LAT_VAR [] "Latitude"
                  "degrees" true);
      (PRODUCT_LONGITUDE,
       mk_product PRODUCT_LONGITUDE "longitude" FT_IMG LON_VAR [] "Longitude"
                  "degrees" true) ].
  cbn [Dict.get].
  repeat match goal with
         | |- context [String.eqb ?a q] => destruct (String.eqb a q)
         end;
    intros H; inversion H; reflexivity.
Qed.

(** The shipped registry, and a request for the rain rate and for a
    product that does not exist. *)
Lemma create_scene_unknown_product_witness :
  exists q,
    In q ["rain_rate"; "snow_rate"] /\ Dict.get PRODUCTS q = None /\
    Frontend.create_scene PRODUCTS dedup fs0 frontend_one
      (Some ["rain_rate"; "snow_rate"]) 1 [] =
    (Raise (KeyError q), []).
Proof.
  apply (create_scene_unknown_product PRODUCTS dedup fs0 frontend_one
           ["rain_rate"; "snow_rate"] "snow_rate" []).
  - exact PRODUCTS_no_dependencies.
  - exact dedup_In.
  - right. left. reflexivity.
  - reflexivity.
Defined.

Lemma multi_init_many_raises (fs : filesystem) (fns : list string) :
  (2 <= length fns)%nat ->
  exists e, MIRSMultiReader.__init__ fs (Some fns) = Raise e.
Proof.
  intros Hlen. unfold MIRSMultiReader.__init__. cbv zeta.
  destruct fns as [|fn0 fns0]; [simpl in Hlen; lia|].
  destruct (MIRSMultiReader.add_files fs (MIRSMultiReader.mk [] false)
              (fn0 :: fns0)) as [[u|e] self'] eqn:E; [|eauto].
  apply add_files_inv in E.
  destruct E as [_ [pre [post [added [Hfns [Hall [Hrs ->]]]]]]].
  rewrite app_nil_r in Hfns. subst pre.
  unfold MIRSMultiReader.finalize_files.
  rewrite (sorted_raises _
             (TypeError "exceptions must derive from BaseException"));
    [eauto | intros; reflexivity |].
  rewrite Hrs. simpl. rewrite <- (Forall2_length Hall). exact Hlen.
Qed.

(** X23: A frontend that recognized two or more files cannot build a scene:
    whatever is requested, [create_scene] raises, and it does so before
    it writes any file. *)
Theorem create_scene_many_granules (P : Dict.t MIRSProductDefiniton)
    (list_set : list string -> list string) (fs : filesystem)
    (self : Frontend.t) (products : option (list string)) (nprocs : Z)
    (out : outputs) (fns : list string)
    (others : Dict.t (list string)) :
  Frontend.recognized_files self = (FT_IMG, fns) :: others ->
  (2 <= length fns)%nat ->
  exists e,
    Frontend.create_scene P list_set fs self products nprocs out =
    (Raise e, out).
Proof.
  intros Hrec Hlen. unfold Frontend.create_scene.
  destruct (Z.eqb nprocs 1); [|eexists; reflexivity].
  change (negb true) with false. cbv iota.
  unfold io_bind at 1, io_lift at 1.
  destruct (Frontend.raw_products_of P _) as [raw|e]; [|eauto].
  unfold io_bind at 1, io_lift at 1. rewrite Hrec.
  cbn [Frontend.load_files].
  change (Dict.getitem FILE_CLASSES FT_IMG)
    with (Ok (mk_file_class MIRSMultiReader.FILE_TYPE
                MIRSMultiReader.handles_file MIRSMultiReader.__init__)).
  cbn [bind class_new].
  destruct (multi_init_many_raises fs fns Hlen) as [e ->].
  exists e. reflexivity.
Qed.

(** The directory of the granules G1 and G2. *)
Lemma create_scene_many_granules_witness :
  exists e,
    Frontend.create_scene PRODUCTS dedup fs1 frontend_two
      (Some ["rain_rate"]) 1 [] = (Raise e, []).
Proof.
  apply (create_scene_many_granules PRODUCTS dedup fs1 frontend_two
           (Some ["rain_rate"]) 1 [] ["/two/a.nc"; "/two/b.nc"] []).
  - vm_compute. reflexivity.
  - simpl. lia.
Defined.

Lemma contains_set_iff {V} (d : Dict.t V) (k n : string) (v : V) :
  Dict.contains (Dict.set d k v) n = true <->
  k = n \/ Dict.contains d n = true.
Proof.
  unfold Dict.contains. destruct (string_dec k n) as [->|Hne].
  - rewrite get_set_same. intuition.
  - rewrite get_set_other by assumption. intuition congruence.
Qed.

(** The loop over the raw products adds to the scene the requested names
    that were not created before, each under its own name and with the
    file named after it. *)
Lemma load_raw_products_keys (P : Dict.t MIRSProductDefiniton)
    (file_readers : Dict.t MIRSMultiReader.t) :
  forall raw_products products_created scene out created' scene' out',
    Frontend.load_raw_products P raw_products file_readers
      products_created scene out = (Ok (created', scene'), out') ->
    (forall n,
        Dict.contains scene' n = true <->
        Dict.contains scene n = true \/
        (In n raw_products /\ Dict.contains products_created n = false)) /\
    (forall n sp,
        Dict.get scene' n = Some sp ->
        Dict.get scene n = Some sp \/
        (meta.product_name sp = n /\
         meta.swath_data sp = (n ++ ".dat")%string)).
Proof.
  induction raw_products as [|x rest IH];
    intros created scene out created' scene' out' H.
  - simpl in H. inversion H; subst. split; [|auto].
    intros n. simpl. intuition.
  - simpl in H. destruct (Dict.contains created x) eqn:Ex; simpl in H.
    + apply IH in H. destruct H as [Hkeys Hnames]. split; [|assumption].
      intros n. rewrite Hkeys. simpl. split.
      * intros [Hs|[Hin Hc]]; auto.
      * intros [Hs|[[->|Hin] Hc]]; auto. congruence.
    + apply io_bind_ok_inv in H. destruct H as [sp [o1 [Hsp H]]].
      apply create_raw_swath_object_ok in Hsp.
      destruct Hsp as [_ [Hname [Hdata _]]].
      apply IH in H. destruct H as [Hkeys Hnames]. split.
      * intros n. rewrite Hkeys, !contains_set_iff. simpl. split.
        -- intros [[->|Hs]|[Hin Hc]]; auto.
           right. split; [auto|].
           destruct (Dict.contains created n) eqn:E; auto.
           rewrite <- Hc. symmetry. apply contains_set_iff. auto.
        -- intros [Hs|[[->|Hin] Hc]]; auto.
           destruct (string_dec x n) as [->|Hne]; auto.
           right. split; [assumption|].
           destruct (Dict.contains (Dict.set created x sp) n) eqn:E; auto.
           apply contains_set_iff in E. destruct E; congruence.
      * intros n sp' Hget. apply Hnames in Hget.
        destruct Hget as [Hget|Hnew]; auto.
        destruct (string_dec x n) as [<-|Hne].
        -- rewrite get_set_same in Hget. inversion Hget; subst. auto.
        -- rewrite get_set_other in Hget by auto. auto.
Qed.

(** The scene and the created products as the loop over the geoproducts
    leaves them, seen from the loop over the raw products. *)
Lemma keys_after_geo (raw : list string) (lat lon : meta.SwathProduct)
    (created0 scene0 : Dict.t meta.SwathProduct) :
  created0 = Dict.set (Dict.set [] PRODUCT_LATITUDE lat) PRODUCT_LONGITUDE lon ->
  scene0 =
    (let s1 := if mem PRODUCT_LATITUDE raw
               then Dict.set [] PRODUCT_LATITUDE lat else [] in
     if mem PRODUCT_LONGITUDE raw then Dict.set s1 PRODUCT_LONGITUDE lon
     else s1) ->
  (forall n,
      (Dict.contains scene0 n = true \/
       (In n raw /\ Dict.contains created0 n = false)) <-> In n raw) /\
  (forall n sp,
      Dict.get scene0 n = Some sp ->
      (n = PRODUCT_LATITUDE /\ sp = lat) \/
      (n = PRODUCT_LONGITUDE /\ sp = lon)).
Proof.
  intros Hc Hs.
  destruct (geo_scene_get (mem PRODUCT_LATITUDE raw)
              (mem PRODUCT_LONGITUDE raw) lat lon) as [Glat [Glon Gother]].
  cbv zeta in Glat, Glon, Gother, Hs.
  assert (Slat : Dict.get scene0 PRODUCT_LATITUDE =
                 if mem PRODUCT_LATITUDE raw then Some lat else None)
    by (rewrite Hs; exact Glat).
  assert (Slon : Dict.get scene0 PRODUCT_LONGITUDE =
                 if mem PRODUCT_LONGITUDE raw then Some lon else None)
    by (rewrite Hs; exact Glon).
  assert (Sother : forall n, n <> PRODUCT_LATITUDE -> n <> PRODUCT_LONGITUDE ->
                             Dict.get scene0 n = None)
    by (intros n H1 H2; rewrite Hs; exact (Gother n H1 H2)).
  clear Hs Glat Glon Gother.
  assert (Hcreated : forall n,
             Dict.contains created0 n = false <->
             n <> PRODUCT_LATITUDE /\ n <> PRODUCT_LONGITUDE).
  { intros n. subst created0.
    destruct (Dict.contains
                (Dict.set (Dict.set [] PRODUCT_LATITUDE lat)
                          PRODUCT_LONGITUDE lon) n) eqn:E.
    - rewrite !contains_set_iff in E.
      split; [discriminate|]. intros [H1 H2].
      destruct E as [E|[E|E]]; [congruence | congruence | discriminate].
    - split; [|reflexivity]. intros _.
      split; intros ->; enough (Ht : true = false) by discriminate;
        rewrite <- E; symmetry; rewrite !contains_set_iff; auto. }
  clear Hc. split.
  - intros n. rewrite Hcreated. unfold Dict.contains.
    destruct (string_dec n PRODUCT_LATITUDE) as [->|H1];
      [|destruct (string_dec n PRODUCT_LONGITUDE) as [->|H2]].
    + rewrite Slat.
      destruct (mem PRODUCT_LATITUDE raw) eqn:E.
      * apply mem_In in E. intuition.
      * split; [intros [H|[H _]]; [discriminate | assumption]|].
        intros H. apply mem_In in H. congruence.
    + rewrite Slon.
      destruct (mem PRODUCT_LONGITUDE raw) eqn:E.
      * apply mem_In in E. intuition.
      * split; [intros [H|[H _]]; [discriminate | assumption]|].
        intros H. apply mem_In in H. congruence.
    + rewrite (Sother n H1 H2). intuition discriminate.
  - intros n sp Hget.
    destruct (string_dec n PRODUCT_LATITUDE) as [->|H1];
      [|destruct (string_dec n PRODUCT_LONGITUDE) as [->|H2]].
    + rewrite Slat in Hget. left.
      destruct (mem PRODUCT_LATITUDE raw); inversion Hget; auto.
    + rewrite Slon in Hget. right.
      destruct (mem PRODUCT_LONGITUDE raw); inversion Hget; auto.
    + rewrite (Sother n H1 H2) in Hget. discriminate.
Qed.

(** X24: When [create_scene] returns a scene, the scene holds exactly the
    requested products (the available ones when the request names none),
    each under its name, with that name as product name and the file of
    that name as its data. *)
Theorem create_scene_products (P : Dict.t MIRSProductDefiniton)
    (list_set : list string -> list string) (fs : filesystem)
    (self : Frontend.t) (products : option (list string)) (nprocs : Z)
    (out out' : outputs) (scene : meta.SwathScene) :
  (forall l x, In x (list_set l) <-> In x l) ->
  Frontend.create_scene P list_set fs self products nprocs out =
    (Ok scene, out') ->
  let requested :=
    match products with
    | Some l => l
    | None => Frontend.available_product_names P
    end in
  (forall n, Dict.contains scene n = true <-> In n requested) /\
  (forall n sp,
      Dict.get scene n = Some sp ->
      meta.product_name sp = n /\
      meta.swath_data sp = (n ++ ".dat")%string).
Proof.
  intros Hset H. cbv zeta. unfold Frontend.create_scene in H.
  destruct (Z.eqb nprocs 1); simpl negb in H; cbv iota in H;
    [|inversion H].
  apply io_bind_ok_inv in H. destruct H as [raw [o1 [Hraw H]]].
  apply io_lift_ok_inv in Hraw. destruct Hraw as [Hraw ->].
  apply raw_products_of_ok in Hraw.
  apply io_bind_ok_inv in H. destruct H as [frs [o2 [Hfrs H]]].
  apply io_lift_ok_inv in Hfrs. destruct Hfrs as [Hfrs ->].
  apply io_bind_ok_inv in H. destruct H as [geo [o3 [Hgeo H]]].
  apply io_bind_ok_inv in H. destruct H as [[created' scene'] [o4 [Hload H]]].
  inversion H; subst scene out'; clear H.
  rewrite !load_geo_products_cons in Hgeo.
  apply io_bind_ok_inv in Hgeo. destruct Hgeo as [lat [p1 [Hlat Hgeo]]].
  apply io_bind_ok_inv in Hgeo. destruct Hgeo as [lon [p2 [Hlon Hgeo]]].
  inversion Hgeo; subst geo o3; clear Hgeo.
  apply create_raw_swath_object_ok in Hlat, Hlon.
  destruct Hlat as [_ [Nlat [Dlat _]]].
  destruct Hlon as [_ [Nlon [Dlon _]]].
  match type of Hload with
  | Frontend.load_raw_products _ _ _ ?c ?s _ = _ =>
      destruct (keys_after_geo raw lat lon c s eq_refl eq_refl)
        as [Hgeo_keys Hgeo_get]
  end.
  apply load_raw_products_keys in Hload. destruct Hload as [Hkeys Hnames].
  simpl snd. split.
  - intros n. rewrite Hkeys, Hgeo_keys. subst raw. apply Hset.
  - intros n sp Hget. apply Hnames in Hget. destruct Hget as [Hget|Hnew]; auto.
    apply Hgeo_get in Hget. destruct Hget as [[-> ->]|[-> ->]]; auto.
Qed.

(** A request for the rain rate and the latitude over the granule G1. *)
Lemma create_scene_products_witness :
  exists scene out',
    Frontend.create_scene PRODUCTS dedup fs0 frontend_one
      (Some ["rain_rate"; "latitude"]) 1 [] = (Ok scene, out') /\
    (forall n, Dict.contains scene n = true <->
               In n ["rain_rate"; "latitude"]) /\
    (forall n sp,
        Dict.get scene n = Some sp ->
        meta.product_name sp = n /\
        meta.swath_data sp = (n ++ ".dat")%string).
Proof.
  do 2 eexists. split; [vm_compute; reflexivity|].
  eapply (create_scene_products PRODUCTS dedup fs0 frontend_one
            (Some ["rain_rate"; "latitude"]) 1 []);
    [ exact dedup_In | vm_compute; reflexivity ].
Defined.

Lemma contains_set_other {V} (d : Dict.t V) (k n : string) (v : V) :
  k <> n -> Dict.contains (Dict.set d k v) n = Dict.contains d n.
Proof. intros Hne. unfold Dict.contains. now rewrite get_set_other. Qed.

(** The files that the loop over the raw products writes, for names that
    are distinct: one per name that was not created before, in the order
    of the names. *)
Lemma load_raw_products_files (P : Dict.t MIRSProductDefiniton)
    (file_readers : Dict.t MIRSMultiReader.t) :
  forall raw_products products_created scene out created' scene' out',
    NoDup raw_products ->
    Frontend.load_raw_products P raw_products file_readers
      products_created scene out = (Ok (created', scene'), out') ->
    map fst out' =
    map fst out ++
    map (fun n => (n ++ ".dat")%string)
        (filter (fun n => negb (Dict.contains products_created n))
                raw_products).
Proof.
  induction raw_products as [|x rest IH];
    intros created scene out created' scene' out' Hnd H.
  - simpl in H. inversion H; subst. simpl. now rewrite app_nil_r.
  - inversion Hnd as [|? ? Hnotin Hnd']; subst.
    simpl in H. simpl filter.
    destruct (Dict.contains created x) eqn:Ex; simpl in H; simpl negb;
      cbv iota.
    + now apply IH in H.
    + apply io_bind_ok_inv in H. destruct H as [sp [o1 [Hsp H]]].
      apply create_raw_swath_object_ok in Hsp.
      destruct Hsp as [[stream ->] _].
      apply IH in H; [|assumption]. rewrite H.
      rewrite map_app, <- app_assoc. simpl. do 3 f_equal.
      apply filter_ext_in. intros n Hn.
      rewrite contains_set_other; [reflexivity|]. intros ->. contradiction.
Qed.

(** X25: When [create_scene] returns a scene, and the set of the requested
    names lists each name once, the files written are, in this order, the
    file of the latitude, the file of the longitude, and the file of every
    other requested product in the order of the set; nothing else is
    written. *)
Theorem create_scene_files (P : Dict.t MIRSProductDefiniton)
    (list_set : list string -> list string) (fs : filesystem)
    (self : Frontend.t) (products : option (list string)) (nprocs : Z)
    (out out' : outputs) (scene : meta.SwathScene) :
  (forall l, NoDup (list_set l)) ->
  Frontend.create_scene P list_set fs self products nprocs out =
    (Ok scene, out') ->
  let requested :=
    match products with
    | Some l => l
    | None => Frontend.available_product_names P
    end in
  map fst out' =
  map fst out ++
  "latitude.dat" :: "longitude.dat" ::
  map (fun n => (n ++ ".dat")%string)
      (filter (fun n => negb (mem n [PRODUCT_LATITUDE; PRODUCT_LONGITUDE]))
              (list_set requested)).
Proof.
  intros Hnd H. cbv zeta. unfold Frontend.create_scene in H.
  destruct (Z.eqb nprocs 1); simpl negb in H; cbv iota in H;
    [|inversion H].
  apply io_bind_ok_inv in H. destruct H as [raw [o1 [Hraw H]]].
  apply io_lift_ok_inv in Hraw. destruct Hraw as [Hraw ->].
  apply raw_products_of_ok in Hraw.
  apply io_bind_ok_inv in H. destruct H as [frs [o2 [Hfrs H]]].
  apply io_lift_ok_inv in Hfrs. destruct Hfrs as [Hfrs ->].
  apply io_bind_ok_inv in H. destruct H as [geo [o3 [Hgeo H]]].
  apply io_bind_ok_inv in H. destruct H as [[created' scene'] [o4 [Hload H]]].
  inversion H; subst scene out'; clear H.
  rewrite !load_geo_products_cons in Hgeo.
  apply io_bind_ok_inv in Hgeo. destruct Hgeo as [lat [p1 [Hlat Hgeo]]].
  apply io_bind_ok_inv in Hgeo. destruct Hgeo as [lon [p2 [Hlon Hgeo]]].
  inversion Hgeo; subst geo o3; clear Hgeo.
  apply create_raw_swath_object_ok in Hlat, Hlon.
  destruct Hlat as [[lat_stream ->] _].
  destruct Hlon as [[lon_stream ->] _].
  apply load_raw_products_files in Hload; [|subst raw; apply Hnd].
  rewrite Hload, !map_app, <- !app_assoc. simpl map at 2 3.
  subst raw. simpl. f_equal. f_equal. f_equal. f_equal.
  apply filter_ext. intros n. f_equal.
  unfold Dict.contains. cbn [Dict.get].
  rewrite (String.eqb_sym n PRODUCT_LATITUDE),
    (String.eqb_sym n PRODUCT_LONGITUDE).
  destruct (String.eqb PRODUCT_LATITUDE n);
    destruct (String.eqb PRODUCT_LONGITUDE n); reflexivity.
Qed.

Lemma dedup_NoDup (l : list string) : NoDup (dedup l).
Proof.
  induction l as [|x rest IH]; simpl; constructor.
  - intros Hin. apply filter_In in Hin. destruct Hin as [_ Hx].
    now rewrite String.eqb_refl in Hx.
  - now apply NoDup_filter.
Qed.

(** A request that names the rain rate twice, and the latitude. *)
Lemma create_scene_files_witness :
  exists scene out',
    Frontend.create_scene PRODUCTS dedup fs0 frontend_one
      (Some ["rain_rate"; "latitude"; "rain_rate"]) 1 [] = (Ok scene, out') /\
    map fst out' = ["latitude.dat"; "longitude.dat"; "rain_rate.dat"] /\
    map fst out' =
    map (@fst string (list numpy.float32)) [] ++
    "latitude.dat" :: "longitude.dat" ::
    map (fun n => (n ++ ".dat")%string)
        (filter (fun n => negb (mem n [PRODUCT_LATITUDE; PRODUCT_LONGITUDE]))
                (dedup ["rain_rate"; "latitude"; "rain_rate"])).
Proof.
  do 2 eexists. split; [vm_compute; reflexivity|].
  split; [reflexivity|].
  eapply (create_scene_files PRODUCTS dedup fs0 frontend_one
            (Some ["rain_rate"; "latitude"; "rain_rate"]) 1 []);
    [ exact dedup_NoDup | vm_compute; reflexivity ].
Defined.

(** * The wrapper around the crefl executables *)

Section Wrapper_properties.

Variable execute :
  list string -> option string -> list string
  -> crefl_wrapper.completion * list string.
Variables H5SDS_TRANSFER_RENAME_NAME CVIIRS_NAME CMGDEM_PATH : string.

(** X26: [run_hdf5_rename] launches the transfer tool once, with the input
    file, the output file, the input variable and the output variable,
    which is the input variable when none or an empty one is given; it
    leaves [ANCPATH] alone; it returns the name of the output file, and
    only when that file exists afterwards; and it raises [ValueError]
    when the tool fails or cannot be started, [RuntimeError] when the tool
    ends well without the output file being there. *)
Theorem run_hdf5_rename_spec (input_filename output_filename input_variable : string)
    (output_variable : option string) (w : crefl_wrapper.world) :
  let res := crefl_wrapper.run_hdf5_rename execute H5SDS_TRANSFER_RENAME_NAME
               input_filename output_filename input_variable
               output_variable w in
  crefl_wrapper.launched (snd res) =
    crefl_wrapper.launched w ++
    [[H5SDS_TRANSFER_RENAME_NAME; input_filename; output_filename;
      input_variable;
      match output_variable with
      | Some v => if String.eqb v "" then input_variable else v
      | None => input_variable
      end]] /\
  crefl_wrapper.ANCPATH (snd res) = crefl_wrapper.ANCPATH w /\
  (forall name,
      fst res = Ok name ->
      name = output_filename /\
      mem output_filename (crefl_wrapper.files (snd res)) = true) /\
  (forall e,
      fst res = Raise e ->
      e = ValueError "h5SDS_transfer_rename failed" \/
      e = ValueError "h5SDS_transfer_rename was not found your PATH" \/
      (e = RuntimeError
             ("Couldn't find HDF4 output file '" ++ output_filename ++ "'") /\
       mem output_filename (crefl_wrapper.files (snd res)) = false)).
Proof.
  cbv zeta. unfold crefl_wrapper.run_hdf5_rename,
    crefl_wrapper.check_output, crefl_wrapper.isfile.
  assert (Hv : match output_variable with
               | Some v => if str_truthy (Some v) then v else input_variable
               | None => input_variable
               end =
               match output_variable with
               | Some v => if String.eqb v "" then input_variable else v
               | None => input_variable
               end).
  { destruct output_variable as [v|]; [|reflexivity]. simpl.
    destruct (String.eqb v ""); reflexivity. }
  rewrite Hv. clear Hv.
  destruct (execute _ (crefl_wrapper.ANCPATH w) (crefl_wrapper.files w))
    as [[o|o|] files'].
  - cbn [crefl_wrapper.files].
    destruct (mem output_filename files') eqn:E; cbn [negb fst snd];
      cbn [crefl_wrapper.files crefl_wrapper.launched crefl_wrapper.ANCPATH];
      (split; [reflexivity|]); (split; [reflexivity|]);
      split; intros x H; inversion H; subst; auto.
  - cbn [fst snd crefl_wrapper.launched crefl_wrapper.ANCPATH].
    split; [reflexivity|]. split; [reflexivity|].
    split; intros x H; inversion H; auto.
  - cbn [fst snd crefl_wrapper.launched crefl_wrapper.ANCPATH].
    split; [reflexivity|]. split; [reflexivity|].
    split; intros x H; inversion H; auto.
Qed.

(** Without [output_500m] and without [output_1km], [_run_cviirs] raises
    [ValueError] and touches nothing: no process is launched, [ANCPATH] is
    not set. *)
Theorem run_cviirs_no_resolution (output_filename : string)
    (input_filenames : list string) (bands : option (list string))
    (overwrite verbose : bool) (w : crefl_wrapper.world) :
  crefl_wrapper._run_cviirs execute CVIIRS_NAME CMGDEM_PATH
    output_filename input_filenames bands overwrite verbose false false w =
  (Raise (ValueError "Must either specify output_500m or output_1km"), w).
Proof. reflexivity. Qed.

(** X27: With one of the two resolutions, [_run_cviirs] sets [ANCPATH] to
    [CMGDEM_PATH] and then launches cviirs once: the name of the
    executable, the bands joined by commas when there are any, the
    resolutions, [--overwrite], [--verbose], the output file, and the
    input files, in this order.  It returns the name of the output file,
    and only when that file exists afterwards. *)
Theorem run_cviirs_command (output_filename : string)
    (input_filenames : list string) (bands : option (list string))
    (overwrite verbose output_500m output_1km : bool)
    (w : crefl_wrapper.world) :
  output_500m || output_1km = true ->
  let args :=
    CVIIRS_NAME
    :: match bands with
       | Some (b :: bs) => [("--bands=" ++ String.concat "," (b :: bs))%string]
       | _ => []
       end
    ++ (if output_500m then ["--500m"] else [])
    ++ (if output_1km then ["--1km"] else [])
    ++ (if overwrite then ["--overwrite"] else [])
    ++ (if verbose then ["--verbose"] else [])
    ++ [("--of=" ++ output_filename)%string]
    ++ input_filenames in
  let res := crefl_wrapper._run_cviirs execute CVIIRS_NAME CMGDEM_PATH
               output_filename input_filenames bands overwrite
               verbose output_500m output_1km w in
  snd res =
    crefl_wrapper.mk_world
      (snd (execute args (Some CMGDEM_PATH) (crefl_wrapper.files w)))
      (Some CMGDEM_PATH)
      (crefl_wrapper.launched w ++ [args]) /\
  (forall name,
      fst res = Ok name ->
      name = output_filename /\
      mem output_filename (crefl_wrapper.files (snd res)) = true).
Proof.
  intros Hres. cbv zeta.
  unfold crefl_wrapper._run_cviirs, crefl_wrapper.check_output,
    crefl_wrapper.isfile.
  assert (Hflag : negb output_500m && negb output_1km = false)
    by (destruct output_500m, output_1km; auto; discriminate).
  rewrite Hflag. cbn [crefl_wrapper.files crefl_wrapper.ANCPATH
                      crefl_wrapper.launched].
  match goal with
  | |- context [execute ?a _ _] =>
      assert (Hargs : a =
        CVIIRS_NAME
        :: match bands with
           | Some (b :: bs) =>
               [("--bands=" ++ String.concat "," (b :: bs))%string]
           | _ => []
           end
        ++ (if output_500m then ["--500m"] else [])
        ++ (if output_1km then ["--1km"] else [])
        ++ (if overwrite then ["--overwrite"] else [])
        ++ (if verbose then ["--verbose"] else [])
        ++ [("--of=" ++ output_filename)%string]
        ++ input_filenames)
  end.
  { destruct bands as [[|b bs]|]; destruct output_500m, output_1km, overwrite,
      verbose; reflexivity. }
  rewrite Hargs. clear Hargs.
  match goal with
  | |- context [execute ?a ?b ?c] => destruct (execute a b c) as [[o|o|] files']
  end.
  - cbn [crefl_wrapper.files].
    destruct (mem output_filename files') eqn:E; cbn [negb fst snd];
      cbn [crefl_wrapper.files];
      (split; [reflexivity|]); intros x H; inversion H; subst; auto.
  - cbn [fst snd]. split; [reflexivity|]. intros x H; inversion H.
  - cbn [fst snd]. split; [reflexivity|]. intros x H; inversion H.
Qed.

End Wrapper_properties.

(** The call that [run_cviirs] makes for the I bands, with executables
    that succeed. *)
Lemma run_cviirs_command_witness :
  let args :=
    ["cviirs"; "--bands=8,9,10"; "--500m"; "--overwrite"; "--verbose";
     "--of=CREFLI_x.hdf"; "NPP_VMAE_L1.hdf"; "NPP_VIAE_L1.hdf"] in
  let res := crefl_wrapper._run_cviirs execute_ok "cviirs" "/anc"
               "CREFLI_x.hdf" ["NPP_VMAE_L1.hdf"; "NPP_VIAE_L1.hdf"]
               (Some ["8"; "9"; "10"]) true true true false w0 in
  snd res =
    crefl_wrapper.mk_world
      (snd (execute_ok args (Some "/anc") (crefl_wrapper.files w0)))
      (Some "/anc")
      (crefl_wrapper.launched w0 ++ [args]) /\
  (forall name,
      fst res = Ok name ->
      name = "CREFLI_x.hdf" /\
      mem "CREFLI_x.hdf" (crefl_wrapper.files (snd res)) = true).
Proof.
  apply (run_cviirs_command execute_ok "cviirs" "/anc" "CREFLI_x.hdf"
           ["NPP_VMAE_L1.hdf"; "NPP_VIAE_L1.hdf"] (Some ["8"; "9"; "10"])
           true true true false w0).
  reflexivity.
Defined.

Section Granule_properties.

Variable execute :
  list string -> option string -> list string
  -> crefl_wrapper.completion * list string.
Variables H5SDS_TRANSFER_RENAME_NAME CVIIRS_NAME CMGDEM_PATH : string.

Lemma mbind_raises_r {A B} (c : crefl_wrapper.M A)
    (k : A -> crefl_wrapper.M B) (w : crefl_wrapper.world) :
  (forall a w1, exists e w', k a w1 = (Raise e, w')) ->
  exists e w', crefl_wrapper.mbind c k w = (Raise e, w').
Proof.
  intros Hk. unfold crefl_wrapper.mbind.
  destruct (c w) as [[a|e] w1]; eauto.
Qed.

(** A loop over the bands that meets a list that is [None] raises. *)
Lemma transfer_bands_none :
  forall zipped idx temp_file bands w,
    (exists var band, In (None, var, band) zipped) ->
    exists e w',
      crefl_wrapper.transfer_bands execute H5SDS_TRANSFER_RENAME_NAME true
        zipped idx temp_file bands w = (Raise e, w').
Proof.
  induction zipped as [|[[fl var] band] rest IH];
    intros idx temp_file bands w [v [b Hin]]; [contradiction|].
  cbn [crefl_wrapper.transfer_bands]. unfold crefl_wrapper.mbind.
  destruct fl as [l|].
  - unfold crefl_wrapper.getitem_idx.
    destruct (nth_error l idx) as [f|]; [|eauto].
    destruct (crefl_wrapper.run_hdf5_rename _ _ _ _ _ _ _) as [[a|e] w1];
      [|eauto].
    apply IH. destruct Hin as [E|Hin]; [discriminate | eauto].
  - cbn. eauto.
Qed.

Lemma transfer_and_run_raises (m_files i_files : list (option (list string)))
    (idx : nat) (geo_file : string) (w : crefl_wrapper.world) :
  crefl_wrapper.list_truthy m_files = true ->
  crefl_wrapper.list_truthy i_files = true ->
  (exists var band,
      In (None, var, band)
         (combine (combine m_files crefl_wrapper.m_vars) crefl_wrapper.m_bands)) \/
  (exists var band,
      In (None, var, band)
         (combine (combine i_files crefl_wrapper.i_vars) crefl_wrapper.i_bands)) ->
  exists e w',
    crefl_wrapper.transfer_and_run execute H5SDS_TRANSFER_RENAME_NAME
      CVIIRS_NAME CMGDEM_PATH m_files i_files idx geo_file w = (Raise e, w').
Proof.
  intros Hm Hi Hnone. unfold crefl_wrapper.transfer_and_run.
  rewrite Hm, Hi.
  do 6 (apply mbind_raises_r; intros ? ?).
  destruct Hnone as [Hnone|Hnone].
  - unfold crefl_wrapper.mbind at 1.
    destruct (transfer_bands_none _ idx crefl_wrapper.svm_temp_file [] w6 Hnone)
      as [e [w' ->]].
    eauto.
  - do 2 (apply mbind_raises_r; intros ? ?).
    unfold crefl_wrapper.mbind at 1.
    destruct (transfer_bands_none _ idx crefl_wrapper.svi_temp_file [] w8 Hnone)
      as [e [w' ->]].
    eauto.
Qed.

(** X28: The lists of the band files default to [None], but none of them can
    be left out: with a geolocation file to process and one of the ten
    lists missing, [run_cviirs] raises, whatever the executables do. *)
Theorem run_cviirs_missing_band (geo_file : string) (geo_files : list string)
    (m05_files m07_files m03_files m04_files m08_files m10_files m11_files
     i01_files i02_files i03_files : option (list string))
    (keep_intermediate : bool) (w : crefl_wrapper.world) :
  In None [m05_files; m07_files; m03_files; m04_files; m08_files; m10_files;
           m11_files; i01_files; i02_files; i03_files] ->
  exists e,
    fst (crefl_wrapper.run_cviirs execute H5SDS_TRANSFER_RENAME_NAME
           CVIIRS_NAME CMGDEM_PATH (geo_file :: geo_files)
           m05_files m07_files m03_files m04_files m08_files m10_files
           m11_files i01_files i02_files i03_files keep_intermediate w) =
    Raise e.
Proof.
  intros Hnone. unfold crefl_wrapper.run_cviirs.
  cbn [crefl_wrapper.granules]. unfold crefl_wrapper.mbind at 1.
  unfold crefl_wrapper.one_granule.
  destruct (transfer_and_run_raises
              [m05_files; m07_files; m03_files; m04_files; m08_files;
               m10_files; m11_files]
              [i01_files; i02_files; i03_files] 0 geo_file w eq_refl eq_refl)
    as [e [w' ->]].
  - simpl in Hnone.
    destruct Hnone as [H|[H|[H|[H|[H|[H|[H|[H|[H|[H|[]]]]]]]]]]]; subst;
      [left | left | left | left | left | left | left | right | right | right];
      do 2 eexists; simpl; eauto 10.
  - exists e. reflexivity.
Qed.

Lemma granules_names (m_files i_files : list (option (list string)))
    (keep_intermediate : bool) :
  forall geo_files idx output_filenames w names,
    fst (crefl_wrapper.granules execute H5SDS_TRANSFER_RENAME_NAME CVIIRS_NAME
           CMGDEM_PATH m_files i_files keep_intermediate idx geo_files
           output_filenames w) = Ok names ->
    names =
      output_filenames ++
      flat_map (fun g => [crefl_wrapper.m_output_filename g;
                          crefl_wrapper.i_output_filename g])
               geo_files.
Proof.
  induction geo_files as [|g rest IH]; intros idx acc w names H.
  - simpl in H. inversion H. now rewrite app_nil_r.
  - cbn [crefl_wrapper.granules] in H. unfold crefl_wrapper.mbind in H.
    destruct (crefl_wrapper.one_granule _ _ _ _ _ _ _ _ _ _) as [[u|e] w1];
      [|discriminate].
    apply IH in H. rewrite H, <- app_assoc. reflexivity.
Qed.

(** X29: When [run_cviirs] returns, it returns two names for every geolocation
    file, in the order of the files: [CREFLM_] and [CREFLI_], each followed
    by the second to fifth fields of the base name of the geolocation
    file and [.hdf]. *)
Theorem run_cviirs_names (geo_files : list string)
    (m05_files m07_files m03_files m04_files m08_files m10_files m11_files
     i01_files i02_files i03_files : option (list string))
    (keep_intermediate : bool) (w : crefl_wrapper.world)
    (names : list string) :
  fst (crefl_wrapper.run_cviirs execute H5SDS_TRANSFER_RENAME_NAME
         CVIIRS_NAME CMGDEM_PATH geo_files
         m05_files m07_files m03_files m04_files m08_files m10_files
         m11_files i01_files i02_files i03_files keep_intermediate w) =
    Ok names ->
  names =
  flat_map (fun g =>
              let suffix :=
                String.concat "_"
                  (firstn 4 (skipn 1 (crefl_wrapper.split (basename g) "_"%char))) in
              [("CREFLM_" ++ suffix ++ ".hdf")%string;
               ("CREFLI_" ++ suffix ++ ".hdf")%string])
           geo_files.
Proof.
  intros H. unfold crefl_wrapper.run_cviirs in H.
  apply granules_names in H. exact H.
Qed.

End Granule_properties.

(** A call with the geolocation files only, as the defaults of the
    parameters allow. *)
Lemma run_cviirs_missing_band_witness :
  exists e,
    fst (crefl_wrapper.run_cviirs execute_ok "h5SDS_transfer_rename" "cviirs"
           "/anc" [geo_file]
           None None None None None None None None None None false w0) =
    Raise e.
Proof.
  apply (run_cviirs_missing_band execute_ok "h5SDS_transfer_rename" "cviirs"
           "/anc" geo_file []
           None None None None None None None None None None false w0).
  left. reflexivity.
Defined.

(** One granule, with the files of all the bands. *)
Lemma run_cviirs_names_witness :
  ["CREFLM_npp_d20120225_t1805407_e1807049.hdf";
   "CREFLI_npp_d20120225_t1805407_e1807049.hdf"] =
  flat_map (fun g =>
              let suffix :=
                String.concat "_"
                  (firstn 4 (skipn 1 (crefl_wrapper.split (basename g) "_"%char))) in
              [("CREFLM_" ++ suffix ++ ".hdf")%string;
               ("CREFLI_" ++ suffix ++ ".hdf")%string])
           [geo_file].
Proof.
  apply (run_cviirs_names execute_ok "h5SDS_transfer_rename" "cviirs" "/anc"
           [geo_file]
           (Some ["/in/SVM05.h5"]) (Some ["/in/SVM07.h5"])
           (Some ["/in/SVM03.h5"]) (Some ["/in/SVM04.h5"])
           (Some ["/in/SVM08.h5"]) (Some ["/in/SVM10.h5"])
           (Some ["/in/SVM11.h5"]) (Some ["/in/SVI01.h5"])
           (Some ["/in/SVI02.h5"]) (Some ["/in/SVI03.h5"]) false w0).
  vm_compute. reflexivity.
Defined.

Lemma mem_false_iff (x : string) (l : list string) :
  mem x l = false <-> ~ In x l.
Proof.
  rewrite <- mem_In. destruct (mem x l); split; intros H; try discriminate;
    try reflexivity; exfalso; apply H; reflexivity.
Qed.

Lemma remove_unless_kept_absent (path : string) (w : crefl_wrapper.world) :
  mem path (crefl_wrapper.files (crefl_wrapper.remove_unless_kept path false w))
  = false.
Proof.
  unfold crefl_wrapper.remove_unless_kept, crefl_wrapper.isfile.
  destruct (mem path (crefl_wrapper.files w)) eqn:E; simpl; [|assumption].
  apply mem_false_iff. apply remove_In.
Qed.

Lemma remove_unless_kept_mono (p q : string) (keep : bool)
    (w : crefl_wrapper.world) :
  mem p (crefl_wrapper.files w) = false ->
  mem p (crefl_wrapper.files (crefl_wrapper.remove_unless_kept q keep w))
  = false.
Proof.
  intros H. unfold crefl_wrapper.remove_unless_kept.
  destruct (crefl_wrapper.isfile q w && negb keep); [|assumption].
  simpl. apply mem_false_iff. apply mem_false_iff in H.
  intros Hin. apply in_remove in Hin. tauto.
Qed.

Section Cleanup.

Variable execute :
  list string -> option string -> list string
  -> crefl_wrapper.completion * list string.
Variables H5SDS_TRANSFER_RENAME_NAME CVIIRS_NAME CMGDEM_PATH : string.
Variables m_files i_files : list (option (list string)).

(** What one turn of the loop over the granules leaves behind when
    intermediate files are not kept. *)
Lemma one_granule_cleanup (idx : nat) (g : string) (w : crefl_wrapper.world) :
  let res := crefl_wrapper.one_granule execute H5SDS_TRANSFER_RENAME_NAME
               CVIIRS_NAME CMGDEM_PATH m_files i_files false idx g w in
  mem crefl_wrapper.svm_temp_file (crefl_wrapper.files (snd res)) = false /\
  mem crefl_wrapper.svi_temp_file (crefl_wrapper.files (snd res)) = false /\
  (forall e,
      fst res = Raise e ->
      mem (crefl_wrapper.m_output_filename g) (crefl_wrapper.files (snd res))
        = false /\
      mem (crefl_wrapper.i_output_filename g) (crefl_wrapper.files (snd res))
        = false).
Proof.
  cbv zeta. unfold crefl_wrapper.one_granule.
  destruct (crefl_wrapper.transfer_and_run _ _ _ _ _ _ _ _ _) as [[a|e] w1];
    cbn [fst snd].
  - split; [|split].
    + apply remove_unless_kept_mono, remove_unless_kept_absent.
    + apply remove_unless_kept_absent.
    + intros e H. discriminate.
  - split; [|split].
    + apply remove_unless_kept_mono, remove_unless_kept_absent.
    + apply remove_unless_kept_absent.
    + intros e' _. split.
      * do 3 apply remove_unless_kept_mono. apply remove_unless_kept_absent.
      * do 2 apply remove_unless_kept_mono. apply remove_unless_kept_absent.
Qed.

Lemma granules_cleanup :
  forall geo_files idx output_filenames w,
    let res := crefl_wrapper.granules execute H5SDS_TRANSFER_RENAME_NAME
                 CVIIRS_NAME CMGDEM_PATH m_files i_files false idx geo_files
                 output_filenames w in
    (geo_files <> [] \/
     (mem crefl_wrapper.svm_temp_file (crefl_wrapper.files w) = false /\
      mem crefl_wrapper.svi_temp_file (crefl_wrapper.files w) = false) ->
     mem crefl_wrapper.svm_temp_file (crefl_wrapper.files (snd res)) = false /\
     mem crefl_wrapper.svi_temp_file (crefl_wrapper.files (snd res)) = false) /\
    (forall e,
        fst res = Raise e ->
        exists pre g post,
          geo_files = pre ++ g :: post /\
          mem (crefl_wrapper.m_output_filename g)
              (crefl_wrapper.files (snd res)) = false /\
          mem (crefl_wrapper.i_output_filename g)
              (crefl_wrapper.files (snd res)) = false).
Proof.
  induction geo_files as [|g rest IH]; intros idx acc w; cbv zeta.
  - simpl. split; [|discriminate]. intros [H|H]; [congruence | assumption].
  - cbn [crefl_wrapper.granules]. unfold crefl_wrapper.mbind.
    pose proof (one_granule_cleanup idx g w) as Hone. cbv zeta in Hone.
    destruct (crefl_wrapper.one_granule _ _ _ _ _ _ _ _ _ _) as [[u|e] w1];
      cbn [fst snd] in Hone; destruct Hone as [Hm [Hi Hout]].
    + destruct (IH (S idx)
                  (acc ++ [crefl_wrapper.m_output_filename g;
                           crefl_wrapper.i_output_filename g]) w1)
        as [Htemps Hfail].
      split; [intros _; apply Htemps; auto|].
      intros e He. destruct (Hfail e He) as [pre [g' [post [-> Hg']]]].
      exists (g :: pre), g', post. auto.
    + cbn [fst snd]. split; [auto|].
      intros e' He. exists [], g, rest. split; [reflexivity|].
      apply (Hout e eq_refl).
Qed.

End Cleanup.

(** X30: When intermediate files are not to be kept, [run_cviirs] leaves
    neither of its two temporary files behind, whether it returns or
    raises; and when it raises, the two output files of the granule at
    which it stopped are not left behind either. *)
Theorem run_cviirs_cleanup
    (execute : list string -> option string -> list string
               -> crefl_wrapper.completion * list string)
    (H5SDS_TRANSFER_RENAME_NAME CVIIRS_NAME CMGDEM_PATH : string)
    (geo_files : list string)
    (m05_files m07_files m03_files m04_files m08_files m10_files m11_files
     i01_files i02_files i03_files : option (list string))
    (w : crefl_wrapper.world) :
  geo_files <> [] ->
  let res := crefl_wrapper.run_cviirs execute H5SDS_TRANSFER_RENAME_NAME
               CVIIRS_NAME CMGDEM_PATH geo_files
               m05_files m07_files m03_files m04_files m08_files m10_files
               m11_files i01_files i02_files i03_files false w in
  mem "NPP_VMAE_L1.hdf" (crefl_wrapper.files (snd res)) = false /\
  mem "NPP_VIAE_L1.hdf" (crefl_wrapper.files (snd res)) = false /\
  (forall e,
      fst res = Raise e ->
      exists pre g post,
        geo_files = pre ++ g :: post /\
        mem (crefl_wrapper.m_output_filename g)
            (crefl_wrapper.files (snd res)) = false /\
        mem (crefl_wrapper.i_output_filename g)
            (crefl_wrapper.files (snd res)) = false).
Proof.
  intros Hne. cbv zeta. unfold crefl_wrapper.run_cviirs.
  match goal with
  | |- context [crefl_wrapper.granules _ _ _ _ ?m ?i _ _ _ _ _] =>
      destruct (granules_cleanup execute H5SDS_TRANSFER_RENAME_NAME
                  CVIIRS_NAME CMGDEM_PATH m i geo_files 0 [] w)
        as [Htemps Hfail]
  end.
  destruct (Htemps (or_introl Hne)) as [Hm Hi].
  split; [exact Hm|]. split; [exact Hi|]. exact Hfail.
Qed.

(** A run in which cviirs creates the output file of the M bands and then
    fails: the exception is that of [_run_cviirs], and only the input
    files are left. *)
Lemma run_cviirs_cleanup_witness :
  let res := crefl_wrapper.run_cviirs execute_cviirs_fails
               "h5SDS_transfer_rename" "cviirs" "/anc" [geo_file]
               (Some ["/in/SVM05.h5"]) (Some ["/in/SVM07.h5"])
               (Some ["/in/SVM03.h5"]) (Some ["/in/SVM04.h5"])
               (Some ["/in/SVM08.h5"]) (Some ["/in/SVM10.h5"])
               (Some ["/in/SVM11.h5"]) (Some ["/in/SVI01.h5"])
               (Some ["/in/SVI02.h5"]) (Some ["/in/SVI03.h5"]) false w0 in
  fst res = Raise (ValueError "cviirs failed") /\
  crefl_wrapper.files (snd res) = crefl_wrapper.files w0 /\
  length (crefl_wrapper.launched (snd res)) = 14 /\
  mem "NPP_VMAE_L1.hdf" (crefl_wrapper.files (snd res)) = false /\
  mem "NPP_VIAE_L1.hdf" (crefl_wrapper.files (snd res)) = false /\
  (forall e,
      fst res = Raise e ->
      exists pre g post,
        [geo_file] = pre ++ g :: post /\
        mem (crefl_wrapper.m_output_filename g)
            (crefl_wrapper.files (snd res)) = false /\
        mem (crefl_wrapper.i_output_filename g)
            (crefl_wrapper.files (snd res)) = false).
Proof.
  cbv zeta.
  split; [vm_compute; reflexivity|].
  split; [vm_compute; reflexivity|].
  split; [vm_compute; reflexivity|].
  apply (run_cviirs_cleanup execute_cviirs_fails "h5SDS_transfer_rename"
           "cviirs" "/anc" [geo_file]).
  discriminate.
Defined.
